(** * MlfEngine: the per-frame orchestration of multi-lidar-fusion tracking

    A shallow embedding of
    [modules/perception/lidar_tracking/tracker/multi_lidar_fusion/mlf_engine.cc]
    and the properties of its frame pipeline.

    Conventions of the embedding.
    - A [double] is a binary64 value of [PrimFloat]; [>=] of the source is
      [PrimFloat.leb] with its operands swapped (both are false on a NaN).
    - A [std::vector] is a [list]; [at] and [operator[]] are the list lookup
      [!!], and an index that is out of range (an exception for [at],
      undefined behaviour for [operator[]]) makes the embedded function
      return [None].
    - A [std::shared_ptr] is the value it points to.  The pools hand out
      objects that no vector of the engine still holds, so no two entries
      of a ledger or of a frame's output alias, and a mutation through a
      pointer is the replacement of the entry at its index.
    - The matcher, the tracker and the other classes that the engine calls
      are not part of this file of the source; they are the fields of the
      type classes below, and every property is proved for all of them. *)

From Stdlib Require Import String ZArith List Bool Lia PrimFloat.
From Stdlib Require FloatOps FloatAxioms.
From stdpp Require Import base option list.

Set Default Proof Using "Type".
Local Open Scope Z_scope.

(** ** [size_t] *)

Module SizeT.
(** A [size_t] is a 64-bit unsigned integer: a [Z] reduced modulo [2^64]
    after every operation. *)
Definition t : Type := Z.
Definition modulus : Z := 2 ^ 64.
Definition wrap (z : Z) : t := z mod modulus.
Definition add (a b : t) : t := wrap (a + b).
Definition sub (a b : t) : t := wrap (a - b).
Definition succ (a : t) : t := wrap (a + 1).
Definition to_index (a : t) : nat := Z.to_nat a.
End SizeT.
Arguments SizeT.wrap : simpl never.
Arguments SizeT.add : simpl never.
Arguments SizeT.sub : simpl never.
Arguments SizeT.succ : simpl never.
Arguments SizeT.to_index : simpl never.

(** ** The parts of Eigen that the engine uses *)

Module Eigen.
Record Vector3 (S : Type) : Type := mkVector3 { vx : S; vy : S; vz : S }.
Arguments mkVector3 {S} _ _ _.
Arguments vx {S} _.
Arguments vy {S} _.
Arguments vz {S} _.

Definition Vector3d : Type := Vector3 float.

(** A single-precision component is carried by the binary64 value that
    represents it exactly; the engine stores only zero there. *)
Definition Vector3f : Type := Vector3 float.

(** Unary minus of a vector. *)
Definition Vector3d_opp (v : Vector3d) : Vector3d :=
  mkVector3 (- vx v)%float (- vy v)%float (- vz v)%float.

Definition Vector3d_add (a b : Vector3d) : Vector3d :=
  mkVector3 (vx a + vx b)%float (vy a + vy b)%float (vz a + vz b)%float.

(** [Eigen::Vector3f::Zero()] *)
Definition Vector3f_Zero : Vector3f := mkVector3 0%float 0%float 0%float.

(** [Eigen::Affine3d]: a linear part and a translation. *)
Record Affine3d : Type := mkAffine3d {
  linear : Vector3 Vector3d;
  translation : Vector3d
}.

(** [pretranslate(other)] of an affine transform adds [other] to its
    translation and leaves the linear part. *)
Definition pretranslate (other : Vector3d) (T : Affine3d) : Affine3d :=
  {| linear := linear T; translation := Vector3d_add (translation T) other |}.
End Eigen.
Import Eigen.

(** ** [std::vector] operations that can fail *)

(** [v.at(i) = x]: throws when [i] is out of range. *)
Definition vector_at_put {A : Type} (i : nat) (x : A) (v : list A) : option (list A) :=
  if decide (i < length v)%nat then Some (<[i := x]> v) else None.

(** [v.resize(n)] for [n <= v.size()].  A growing [resize] of a vector of
    shared pointers appends null pointers, which the lists of this
    embedding do not hold: the operation is undefined there. *)
Definition vector_resize {A : Type} (n : nat) (v : list A) : option (list A) :=
  if decide (n <= length v)%nat then Some (take n v) else None.

(** ** The data the engine reads and writes *)

(** The types and fields that the engine does not look into. *)
Class Payloads : Type := {
  ObjectRest : Type;
  TrackedObjectRest : Type;
  MlfTrackDataRest : Type;
  SensorInfoRest : Type;
  Polygon : Type;
  RoadBoundary : Type;
  (** The state that the matcher and the tracker keep between calls. *)
  World : Type
}.

Section Data.
Context `{Payloads}.

(** [base::Object]: the fields the engine touches, and the others. *)
Record Object : Type := mkObject {
  latest_tracked_time : float;
  is_background : bool;   (* lidar_supplement.is_background *)
  velocity : Vector3f;
  acceleration : Vector3f;
  object_rest : ObjectRest
}.

Definition set_latest_tracked_time (t : float) (o : Object) : Object :=
  {| latest_tracked_time := t; is_background := is_background o;
     velocity := velocity o; acceleration := acceleration o;
     object_rest := object_rest o |}.

Definition set_velocity (v : Vector3f) (o : Object) : Object :=
  {| latest_tracked_time := latest_tracked_time o; is_background := is_background o;
     velocity := v; acceleration := acceleration o;
     object_rest := object_rest o |}.

Definition set_acceleration (a : Vector3f) (o : Object) : Object :=
  {| latest_tracked_time := latest_tracked_time o; is_background := is_background o;
     velocity := velocity o; acceleration := a;
     object_rest := object_rest o |}.

(** [TrackedObject]: the wrapper of one detection for one frame. *)
Record TrackedObject : Type := mkTrackedObject {
  histogram_bin_size : SizeT.t;
  tracked_object_rest : TrackedObjectRest
}.

Definition set_histogram_bin_size (n : SizeT.t) (o : TrackedObject) : TrackedObject :=
  {| histogram_bin_size := n; tracked_object_rest := tracked_object_rest o |}.

(** [MlfTrackData]: one persistent track. *)
Record MlfTrackData : Type := mkMlfTrackData {
  latest_visible_time_ : float;
  is_current_state_predicted_ : bool;
  track_data_rest : MlfTrackDataRest
}.

Record SensorInfo : Type := mkSensorInfo {
  name : string;
  sensor_info_rest : SensorInfoRest
}.

Record HdmapStruct : Type := mkHdmapStruct {
  road_polygons : list Polygon;
  junction_polygons : list Polygon;
  road_boundary : list RoadBoundary
}.

Record LidarFrame : Type := mkLidarFrame {
  timestamp : float;
  sensor_info : SensorInfo;
  segmented_objects : list Object;
  lidar2world_pose : Affine3d;
  hdmap_struct : option HdmapStruct;   (* a null pointer is [None] *)
  tracked_objects : list Object
}.

Definition set_segmented_objects (l : list Object) (f : LidarFrame) : LidarFrame :=
  {| timestamp := timestamp f; sensor_info := sensor_info f;
     segmented_objects := l; lidar2world_pose := lidar2world_pose f;
     hdmap_struct := hdmap_struct f; tracked_objects := tracked_objects f |}.

Definition set_tracked_objects (l : list Object) (f : LidarFrame) : LidarFrame :=
  {| timestamp := timestamp f; sensor_info := sensor_info f;
     segmented_objects := segmented_objects f; lidar2world_pose := lidar2world_pose f;
     hdmap_struct := hdmap_struct f; tracked_objects := l |}.

(** The fields of [MlfEngine]. *)
Record MlfEngine : Type := mkMlfEngine {
  foreground_objects_ : list TrackedObject;
  background_objects_ : list TrackedObject;
  foreground_track_data_ : list MlfTrackData;
  background_track_data_ : list MlfTrackData;
  global_to_local_offset_ : Vector3d;
  sensor_to_local_pose_ : Affine3d;
  use_histogram_for_match_ : bool;
  histogram_bin_size_ : SizeT.t;
  output_predict_objects_ : bool;
  reserved_invisible_time_ : float;
  use_frame_timestamp_ : bool;
  set_static_outside_hdmap_ : bool
}.

End Data.

(** ** [MlfEngine::RemoveStaleTrackData] *)

Section RemoveStale.
Context `{Payloads}.

(** The test of line 242: [latest_visible_time_ + reserved_invisible_time_ >= timestamp]. *)
Definition is_alive (this : MlfEngine) (timestamp : float) (track : MlfTrackData) : bool :=
  (timestamp <=? latest_visible_time_ track + reserved_invisible_time_ this)%float.

(** The loop of lines 241-249, after [fuel] more iterations: [fuel] is
    [tracks->size() - i], and the size does not change in the loop. *)
Fixpoint RemoveStaleTrackData_loop (this : MlfEngine) (timestamp : float)
    (fuel i pos : nat) (tracks : list MlfTrackData) : option (nat * list MlfTrackData) :=
  match fuel with
  | O => Some (pos, tracks)
  | S fuel' =>
      track ← tracks !! i;
      if is_alive this timestamp track then
        tracks' ← (if decide (i ≠ pos) then vector_at_put pos track tracks
                   else Some tracks);
        RemoveStaleTrackData_loop this timestamp fuel' (S i) (S pos) tracks'
      else
        RemoveStaleTrackData_loop this timestamp fuel' (S i) pos tracks
  end.

Definition RemoveStaleTrackData (this : MlfEngine) (name : string) (timestamp : float)
    (tracks : list MlfTrackData) : option (list MlfTrackData) :=
  '(pos, tracks') ← RemoveStaleTrackData_loop this timestamp (length tracks) 0 0 tracks;
  vector_resize pos tracks'.

End RemoveStale.

(** ** The classes the engine calls *)

(** [MlfTrackObjectMatcherOptions] and [MultiTargetTrackerOptions] carry
    no field that the engine sets or reads. *)
Record MlfTrackObjectMatcherOptions : Type := mkMlfTrackObjectMatcherOptions { }.
Record MultiTargetTrackerOptions : Type := mkMultiTargetTrackerOptions { }.

(** What [MlfTrackObjectMatcher::Match] writes through its three output
    pointers.  An index is a [size_t]; it is only used to look up a
    vector, so it is carried as a [nat]. *)
Record MatchResult : Type := mkMatchResult {
  assignments : list (nat * nat);
  unassigned_tracks : list nat;
  unassigned_objects : list nat
}.

(** The methods of [TrackedObject] and [MlfTrackData], and the object
    pools.  A pool resets an object before it hands it out: what the
    engine gets is the state of a fresh object. *)
Class DataMethods `{Payloads} : Type := {
  TrackedObject_fresh : TrackedObject;
  MlfTrackData_fresh : MlfTrackData;
  Object_fresh : Object;
  AttachObject :
    Object → Affine3d → Vector3d → SensorInfo → TrackedObject → TrackedObject;
  ComputeShapeFeatures : TrackedObject → TrackedObject;
  PushTrackedObjectToCache : TrackedObject → MlfTrackData → MlfTrackData;
  (** The argument is the vector the caller passes, the results are the
      track and that vector after the call. *)
  GetAndCleanCachedObjectsInTimeInterval :
    list TrackedObject → MlfTrackData → MlfTrackData * list TrackedObject;
  (** [ToObject(offset, timestamp, object)] is a [const] method of the
      track: it writes the object and returns whether it succeeded. *)
  ToObject : Vector3d → float → Object → MlfTrackData → bool * Object
}.

Class MlfTrackObjectMatcher `{Payloads} : Type := {
  Match :
    MlfTrackObjectMatcherOptions → list TrackedObject → list MlfTrackData →
    World → MatchResult * World
}.

Class MlfTracker `{Payloads} : Type := {
  InitializeTrack : MlfTrackData → TrackedObject → World → MlfTrackData * World;
  UpdateTrackDataWithObject :
    MlfTrackData → TrackedObject → World → MlfTrackData * World;
  UpdateTrackDataWithoutObject : float → MlfTrackData → World → MlfTrackData * World
}.

(** [algorithm::SensorManager::IsMainSensor] and [algorithm::IsObjectInRoi]. *)
Class Services `{Payloads} : Type := {
  IsMainSensor : string → bool;
  IsObjectInRoi : HdmapStruct → Object → bool
}.

(** ** Calls and errors, in the order in which they happen *)

Section Events.
Context `{Payloads}.

(** The calls of the engine that the properties below speak of, each with
    the arguments it is made with, and the [AERROR] lines.  The [AINFO]
    lines change no state and are left out. *)
Inductive Event : Type :=
  | CallMatch (objects : list TrackedObject) (tracks : list MlfTrackData)
  | CallInitializeTrack (track_data : MlfTrackData) (object : TrackedObject)
  | CallUpdateTrackDataWithObject (track_data : MlfTrackData) (object : TrackedObject)
  | CallUpdateTrackDataWithoutObject (timestamp : float) (track_data : MlfTrackData)
  | CallGetAndCleanCachedObjects (track_data : MlfTrackData)
  | CallComputeShapeFeatures (object : TrackedObject)
  | CallToObject (track_data : MlfTrackData)
  | LogError (message : string).

(** A computation of the engine: it reads and writes the state of the
    matcher and the tracker, appends to the trace of events, and returns
    nothing when an exception leaves it. *)
Definition M (A : Type) : Type := World → option (A * World * list Event).

Definition M_ret {A : Type} (a : A) : M A := λ w, Some (a, w, []).

Definition M_bind {A B : Type} (f : A → M B) (m : M A) : M B :=
  λ w,
    match m w with
    | None => None
    | Some (a, w1, t1) =>
        match f a w1 with
        | None => None
        | Some (b, w2, t2) => Some (b, w2, t1 ++ t2)
        end
    end.

(** A call of the matcher or of the tracker, recorded as [e]. *)
Definition call {A : Type} (e : Event) (f : World → A * World) : M A :=
  λ w, let '(a, w') := f w in Some (a, w', [e]).

(** A call of a method of the data, recorded as [e]. *)
Definition record {A : Type} (e : Event) (a : A) : M A :=
  λ w, Some (a, w, [e]).

(** A step that does not call them. *)
Definition lift_option {A : Type} (o : option A) : M A :=
  λ w, match o with Some a => Some (a, w, []) | None => None end.

Definition lift_logged {A : Type} (o : option (A * list Event)) : M A :=
  λ w, match o with Some (a, t) => Some (a, w, t) | None => None end.

(** [for (auto& x : l) s = body(s, x);] *)
Fixpoint for_each {A S : Type} (body : S → A → M S) (l : list A) (s : S) : M S :=
  match l with
  | [] => M_ret s
  | x :: l' => M_bind (for_each body l') (body s x)
  end.

(** The same loop for a body that calls neither. *)
Fixpoint for_each_option {A S : Type} (body : S → A → option S) (l : list A) (s : S)
    : option S :=
  match l with
  | [] => Some s
  | x :: l' => s' ← body s x; for_each_option body l' s'
  end.

End Events.

#[global] Instance M_MRet `{Payloads} : MRet M := @M_ret _.
#[global] Instance M_MBind `{Payloads} : MBind M := @M_bind _.

(** ** The member functions of [MlfEngine] *)

Section Engine.
Context `{Payloads} `{!DataMethods} `{!MlfTrackObjectMatcher} `{!MlfTracker} `{!Services}.

Definition set_tracked_object_lists (fg bg : list TrackedObject) (this : MlfEngine)
    : MlfEngine :=
  {| foreground_objects_ := fg; background_objects_ := bg;
     foreground_track_data_ := foreground_track_data_ this;
     background_track_data_ := background_track_data_ this;
     global_to_local_offset_ := global_to_local_offset_ this;
     sensor_to_local_pose_ := sensor_to_local_pose_ this;
     use_histogram_for_match_ := use_histogram_for_match_ this;
     histogram_bin_size_ := histogram_bin_size_ this;
     output_predict_objects_ := output_predict_objects_ this;
     reserved_invisible_time_ := reserved_invisible_time_ this;
     use_frame_timestamp_ := use_frame_timestamp_ this;
     set_static_outside_hdmap_ := set_static_outside_hdmap_ this |}.

Definition set_foreground_track_data_ (tracks : list MlfTrackData) (this : MlfEngine)
    : MlfEngine :=
  {| foreground_objects_ := foreground_objects_ this;
     background_objects_ := background_objects_ this;
     foreground_track_data_ := tracks;
     background_track_data_ := background_track_data_ this;
     global_to_local_offset_ := global_to_local_offset_ this;
     sensor_to_local_pose_ := sensor_to_local_pose_ this;
     use_histogram_for_match_ := use_histogram_for_match_ this;
     histogram_bin_size_ := histogram_bin_size_ this;
     output_predict_objects_ := output_predict_objects_ this;
     reserved_invisible_time_ := reserved_invisible_time_ this;
     use_frame_timestamp_ := use_frame_timestamp_ this;
     set_static_outside_hdmap_ := set_static_outside_hdmap_ this |}.

Definition set_background_track_data_ (tracks : list MlfTrackData) (this : MlfEngine)
    : MlfEngine :=
  {| foreground_objects_ := foreground_objects_ this;
     background_objects_ := background_objects_ this;
     foreground_track_data_ := foreground_track_data_ this;
     background_track_data_ := tracks;
     global_to_local_offset_ := global_to_local_offset_ this;
     sensor_to_local_pose_ := sensor_to_local_pose_ this;
     use_histogram_for_match_ := use_histogram_for_match_ this;
     histogram_bin_size_ := histogram_bin_size_ this;
     output_predict_objects_ := output_predict_objects_ this;
     reserved_invisible_time_ := reserved_invisible_time_ this;
     use_frame_timestamp_ := use_frame_timestamp_ this;
     set_static_outside_hdmap_ := set_static_outside_hdmap_ this |}.

Definition set_global_to_local_offset_ (offset : Vector3d) (this : MlfEngine)
    : MlfEngine :=
  {| foreground_objects_ := foreground_objects_ this;
     background_objects_ := background_objects_ this;
     foreground_track_data_ := foreground_track_data_ this;
     background_track_data_ := background_track_data_ this;
     global_to_local_offset_ := offset;
     sensor_to_local_pose_ := sensor_to_local_pose_ this;
     use_histogram_for_match_ := use_histogram_for_match_ this;
     histogram_bin_size_ := histogram_bin_size_ this;
     output_predict_objects_ := output_predict_objects_ this;
     reserved_invisible_time_ := reserved_invisible_time_ this;
     use_frame_timestamp_ := use_frame_timestamp_ this;
     set_static_outside_hdmap_ := set_static_outside_hdmap_ this |}.

Definition set_sensor_to_local_pose_ (pose : Affine3d) (this : MlfEngine)
    : MlfEngine :=
  {| foreground_objects_ := foreground_objects_ this;
     background_objects_ := background_objects_ this;
     foreground_track_data_ := foreground_track_data_ this;
     background_track_data_ := background_track_data_ this;
     global_to_local_offset_ := global_to_local_offset_ this;
     sensor_to_local_pose_ := pose;
     use_histogram_for_match_ := use_histogram_for_match_ this;
     histogram_bin_size_ := histogram_bin_size_ this;
     output_predict_objects_ := output_predict_objects_ this;
     reserved_invisible_time_ := reserved_invisible_time_ this;
     use_frame_timestamp_ := use_frame_timestamp_ this;
     set_static_outside_hdmap_ := set_static_outside_hdmap_ this |}.

(** *** [SplitAndTransformToTrackedObjects] *)

(** Lines 145-151: what one iteration does to [tracked_objects[i]]. *)
Definition transform_tracked_object (this : MlfEngine) (sensor_info : SensorInfo)
    (object : Object) (tracked : TrackedObject) : TrackedObject * list Event :=
  let tracked :=
    AttachObject object (sensor_to_local_pose_ this) (global_to_local_offset_ this)
      sensor_info tracked in
  if negb (is_background object) && use_histogram_for_match_ this then
    let tracked := set_histogram_bin_size (histogram_bin_size_ this) tracked in
    (ComputeShapeFeatures tracked, [CallComputeShapeFeatures tracked])
  else (tracked, []).

(** The two vectors that the loop fills, and the trace so far. *)
Record SplitState : Type := mkSplitState {
  split_foreground : list TrackedObject;
  split_background : list TrackedObject;
  split_trace : list Event
}.

(** The loop of lines 144-157 with [fuel = objects.size() - i] iterations
    to go.  [tracked_objects] is the vector that the pool filled; entry
    [i] is read at iteration [i] only, and what the iteration makes of it
    is what it pushes. *)
Fixpoint SplitAndTransform_loop (this : MlfEngine) (sensor_info : SensorInfo)
    (objects : list Object) (tracked_objects : list TrackedObject)
    (fuel i : nat) (st : SplitState) : option SplitState :=
  match fuel with
  | O => Some st
  | S fuel' =>
      object ← objects !! i;
      tracked ← tracked_objects !! i;
      let '(tracked, events) := transform_tracked_object this sensor_info object tracked in
      let st :=
        if is_background object then
          {| split_foreground := split_foreground st;
             split_background := split_background st ++ [tracked];
             split_trace := split_trace st ++ events |}
        else
          {| split_foreground := split_foreground st ++ [tracked];
             split_background := split_background st;
             split_trace := split_trace st ++ events |} in
      SplitAndTransform_loop this sensor_info objects tracked_objects fuel' (S i) st
  end.

Definition SplitAndTransformToTrackedObjects (this : MlfEngine)
    (objects : list Object) (sensor_info : SensorInfo) : option (MlfEngine * list Event) :=
  (* TrackedObjectPool::Instance().BatchGet(objects.size(), &tracked_objects) *)
  let tracked_objects := replicate (length objects) TrackedObject_fresh in
  (* foreground_objects_.clear(); background_objects_.clear() *)
  let st := {| split_foreground := []; split_background := []; split_trace := [] |} in
  st ← SplitAndTransform_loop this sensor_info objects tracked_objects
         (length objects) 0 st;
  Some (set_tracked_object_lists (split_foreground st) (split_background st) this,
        split_trace st).

(** *** [TrackObjectMatchAndAssign] *)

(** Line 179, for one pair of [assignments]. *)
Definition push_assigned_object (objects : list TrackedObject)
    (tracks : list MlfTrackData) (pair : nat * nat) : option (list MlfTrackData) :=
  let track_id := pair.1 in
  let object_id := pair.2 in
  track ← tracks !! track_id;
  object ← objects !! object_id;
  Some (<[track_id := PushTrackedObjectToCache object track]> tracks).

(** Lines 183-185, for one index of [unassigned_objects]. *)
Definition create_new_track (objects : list TrackedObject)
    (tracks : list MlfTrackData) (id : nat) : M (list MlfTrackData) :=
  (* MlfTrackDataPool::Instance().Get() *)
  let track_data := MlfTrackData_fresh in
  object ← lift_option (objects !! id);
  track_data ← call (CallInitializeTrack track_data object)
                 (InitializeTrack track_data object);
  mret (tracks ++ [track_data]).

Definition TrackObjectMatchAndAssign (match_options : MlfTrackObjectMatcherOptions)
    (objects : list TrackedObject) (name : string) (tracks : list MlfTrackData)
    : M (list MlfTrackData) :=
  result ← call (CallMatch objects tracks) (Match match_options objects tracks);
  (* 1. for assignment, push object to cache of track_data *)
  tracks ← lift_option
             (for_each_option (push_assigned_object objects) (assignments result) tracks);
  (* 2. for unassigned_objects, create new tracks *)
  for_each (create_new_track objects) (unassigned_objects result) tracks.

(** *** [TrackStateFilter] *)

(** The body of the loop of lines 192-200.  The state is the tracks
    already filtered and the local vector [objects], which is declared
    before the loop and handed to every track in turn. *)
Definition filter_one_track (frame_timestamp : float)
    (st : list MlfTrackData * list TrackedObject) (track_data : MlfTrackData)
    : M (list MlfTrackData * list TrackedObject) :=
  '(track_data, objects) ←
    record (CallGetAndCleanCachedObjects track_data)
      (GetAndCleanCachedObjectsInTimeInterval st.2 track_data);
  track_data ←
    for_each (λ track_data obj,
                call (CallUpdateTrackDataWithObject track_data obj)
                  (UpdateTrackDataWithObject track_data obj))
      objects track_data;
  track_data ←
    (if decide (objects = []) then
       call (CallUpdateTrackDataWithoutObject frame_timestamp track_data)
         (UpdateTrackDataWithoutObject frame_timestamp track_data)
     else mret track_data);
  mret (st.1 ++ [track_data], objects).

Definition TrackStateFilter (tracks : list MlfTrackData) (frame_timestamp : float)
    : M (list MlfTrackData) :=
  st ← for_each (filter_one_track frame_timestamp) tracks ([], []);
  mret st.1.

(** *** [CollectTrackedResult] *)

Record CollectState : Type := mkCollectState {
  collect_objects : list Object;     (* tracked_objects *)
  collect_pos : SizeT.t;
  collect_num_predict : SizeT.t;
  collect_trace : list Event
}.

(** The body of the loop in the lambda [collect], lines 213-222. *)
Definition collect_track (this : MlfEngine) (timestamp : float)
    (st : CollectState) (track_data : MlfTrackData) : option CollectState :=
  if negb (output_predict_objects_ this) && is_current_state_predicted_ track_data then
    Some {| collect_objects := collect_objects st;
            collect_pos := collect_pos st;
            collect_num_predict := SizeT.succ (collect_num_predict st);
            collect_trace := collect_trace st |}
  else
    object ← collect_objects st !! SizeT.to_index (collect_pos st);
    let '(ok, object) :=
      ToObject (Vector3d_opp (global_to_local_offset_ this)) timestamp object track_data in
    let objects := <[SizeT.to_index (collect_pos st) := object]> (collect_objects st) in
    if ok then
      Some {| collect_objects := objects;
              collect_pos := SizeT.succ (collect_pos st);
              collect_num_predict := collect_num_predict st;
              collect_trace := collect_trace st ++ [CallToObject track_data] |}
    else
      Some {| collect_objects := objects;
              collect_pos := collect_pos st;
              collect_num_predict := collect_num_predict st;
              collect_trace :=
                collect_trace st ++ [CallToObject track_data; LogError "Tracking failed"] |}.

(** Lines 204-226: the buffer is sized, and the lambda runs over the
    foreground and then the background tracks.  The result is the count
    [num_objects] and the state of the locals after both runs. *)
Definition collect_all_tracks (this : MlfEngine) (frame : LidarFrame)
    : option (SizeT.t * CollectState) :=
  let num_objects :=
    SizeT.add (Z.of_nat (length (foreground_track_data_ this)))
              (Z.of_nat (length (background_track_data_ this))) in
  (* tracked_objects.clear(); base::ObjectPool::Instance().BatchGet(num_objects, ...) *)
  let tracked_objects := replicate (SizeT.to_index num_objects) Object_fresh in
  let st := {| collect_objects := tracked_objects; collect_pos := 0;
               collect_num_predict := 0; collect_trace := [] |} in
  st ← for_each_option (collect_track this (timestamp frame))
         (foreground_track_data_ this) st;
  st ← for_each_option (collect_track this (timestamp frame))
         (background_track_data_ this) st;
  Some (num_objects, st).

(** Lines 227-235: the buffer is cut to the objects that were not skipped. *)
Definition shrink_tracked_objects (num_objects num_predict : SizeT.t)
    (tracked_objects : list Object) : option (list Object * list Event) :=
  if decide (num_predict ≠ 0) then
    if decide (num_predict > num_objects) then
      Some (tracked_objects, [LogError "num_predict > num_objects"])
    else
      tracked_objects ←
        vector_resize (SizeT.to_index (SizeT.sub num_objects num_predict)) tracked_objects;
      Some (tracked_objects, [])
  else Some (tracked_objects, []).

Definition CollectTrackedResult (this : MlfEngine) (frame : LidarFrame)
    : option (LidarFrame * list Event) :=
  '(num_objects, st) ← collect_all_tracks this frame;
  '(tracked_objects, events) ←
    shrink_tracked_objects num_objects (collect_num_predict st) (collect_objects st);
  Some (set_tracked_objects tracked_objects frame, collect_trace st ++ events).

(** *** [Track] *)

(** [v.empty()] *)
Definition vector_empty {A : Type} (v : list A) : bool :=
  match v with [] => true | _ :: _ => false end.

(** Lines 72-76: 0. modify objects timestamp if necessary. *)
Definition use_frame_timestamp (this : MlfEngine) (frame : LidarFrame) : LidarFrame :=
  if use_frame_timestamp_ this then
    set_segmented_objects
      (map (set_latest_tracked_time (timestamp frame)) (segmented_objects frame)) frame
  else frame.

(** Lines 78-82: 1. add global offset to pose (only when no track exists). *)
Definition add_global_offset_to_pose (this : MlfEngine) (frame : LidarFrame) : MlfEngine :=
  let this :=
    if vector_empty (foreground_track_data_ this)
       && vector_empty (background_track_data_ this) then
      set_global_to_local_offset_
        (Vector3d_opp (translation (lidar2world_pose frame))) this
    else this in
  set_sensor_to_local_pose_
    (pretranslate (global_to_local_offset_ this) (lidar2world_pose frame)) this.

(** Lines 71-106: steps 0 to 6, up to the removal of the stale tracks.
    The result is the frame and the engine as they stand at line 107. *)
Definition Track_until_stale_removed (this : MlfEngine) (options : MultiTargetTrackerOptions)
    (frame : LidarFrame) : M (LidarFrame * MlfEngine) :=
  let frame := use_frame_timestamp this frame in
  let this := add_global_offset_to_pose this frame in
  (* 2. split fg and bg objects, and transform to tracked objects *)
  this ← lift_logged
           (SplitAndTransformToTrackedObjects this (segmented_objects frame)
              (sensor_info frame));
  (* 3. assign tracked objects to tracks *)
  let match_options := mkMlfTrackObjectMatcherOptions in
  tracks ← TrackObjectMatchAndAssign match_options (foreground_objects_ this)
             "foreground" (foreground_track_data_ this);
  let this := set_foreground_track_data_ tracks this in
  tracks ← TrackObjectMatchAndAssign match_options (background_objects_ this)
             "background" (background_track_data_ this);
  let this := set_background_track_data_ tracks this in
  (* 4. state filter in tracker if is main sensor *)
  let is_main_sensor := IsMainSensor (name (sensor_info frame)) in
  this ←
    (if is_main_sensor then
       tracks ← TrackStateFilter (foreground_track_data_ this) (timestamp frame);
       let this := set_foreground_track_data_ tracks this in
       tracks ← TrackStateFilter (background_track_data_ this) (timestamp frame);
       mret (set_background_track_data_ tracks this)
     else mret this);
  (* 5. track to object if is main sensor *)
  let frame := set_tracked_objects [] frame in
  frame ←
    (if is_main_sensor then lift_logged (CollectTrackedResult this frame)
     else mret frame);
  (* 6. remove stale data *)
  tracks ← lift_option
             (RemoveStaleTrackData this "foreground" (timestamp frame)
                (foreground_track_data_ this));
  let this := set_foreground_track_data_ tracks this in
  tracks ← lift_option
             (RemoveStaleTrackData this "background" (timestamp frame)
                (background_track_data_ this));
  let this := set_background_track_data_ tracks this in
  mret (frame, this).

(** The body of the loop of lines 121-128. *)
Definition set_static_if_outside (roi : HdmapStruct) (obj : Object) : Object :=
  if IsObjectInRoi roi obj then obj
  else set_acceleration Vector3f_Zero (set_velocity Vector3f_Zero obj).

(** Lines 108-134: velocity and acceleration are set to zero outside the
    map structure; the result is the value returned and the frame. *)
Definition set_static_outside_hdmap (this : MlfEngine) (frame : LidarFrame)
    : bool * LidarFrame :=
  if negb (set_static_outside_hdmap_ this) then (true, frame)
  else
    match hdmap_struct frame with
    | None => (true, frame)
    | Some roi =>
        if vector_empty (road_polygons roi) && vector_empty (junction_polygons roi)
           && vector_empty (road_boundary roi) then (true, frame)
        else
          (true,
           set_tracked_objects (map (set_static_if_outside roi) (tracked_objects frame))
             frame)
    end.

Definition Track (this : MlfEngine) (options : MultiTargetTrackerOptions)
    (frame : LidarFrame) : M (bool * LidarFrame * MlfEngine) :=
  '(frame, this) ← Track_until_stale_removed this options frame;
  let '(result, frame) := set_static_outside_hdmap this frame in
  mret (result, frame, this).

(** *** [Clear] and [Init] *)

(** Lines 35-40. *)
Definition Clear (this : MlfEngine) : MlfEngine :=
  {| foreground_objects_ := [];
     background_objects_ := [];
     foreground_track_data_ := [];
     background_track_data_ := [];
     global_to_local_offset_ := global_to_local_offset_ this;
     sensor_to_local_pose_ := sensor_to_local_pose_ this;
     use_histogram_for_match_ := use_histogram_for_match_ this;
     histogram_bin_size_ := histogram_bin_size_ this;
     output_predict_objects_ := output_predict_objects_ this;
     reserved_invisible_time_ := reserved_invisible_time_ this;
     use_frame_timestamp_ := use_frame_timestamp_ this;
     set_static_outside_hdmap_ := set_static_outside_hdmap_ this |}.

(** [MlfEngineConfig]: the six fields of the message that [Init] reads. *)
Record MlfEngineConfig : Type := mkMlfEngineConfig {
  config_use_histogram_for_match : bool;
  config_histogram_bin_size : SizeT.t;
  config_output_predict_objects : bool;
  config_reserved_invisible_time : float;
  config_use_frame_timestamp : bool;
  config_set_static_outside_hdmap : bool
}.

(** Lines 42-67.  [config] is what [GetProtoFromFile] read, or [None]
    when it returned false; [matcher_init] and [tracker_init] are what
    the [Init] of the new matcher and of the new tracker return.  A
    failed [ACHECK] ends the process: there is no engine then. *)
Definition Init (this : MlfEngine) (config : option MlfEngineConfig)
    (matcher_init tracker_init : bool) : option (bool * MlfEngine) :=
  config ← config;
  let this := Clear this in
  let this :=
    {| foreground_objects_ := foreground_objects_ this;
       background_objects_ := background_objects_ this;
       foreground_track_data_ := foreground_track_data_ this;
       background_track_data_ := background_track_data_ this;
       global_to_local_offset_ := global_to_local_offset_ this;
       sensor_to_local_pose_ := sensor_to_local_pose_ this;
       use_histogram_for_match_ := config_use_histogram_for_match config;
       histogram_bin_size_ := config_histogram_bin_size config;
       output_predict_objects_ := config_output_predict_objects config;
       reserved_invisible_time_ := config_reserved_invisible_time config;
       use_frame_timestamp_ := config_use_frame_timestamp config;
       set_static_outside_hdmap_ := config_set_static_outside_hdmap config |} in
  if negb matcher_init then None
  else if negb tracker_init then None
  else Some (true, this).

(** The six fields that [Init] sets are the same in two engines. *)
Definition same_configuration (a b : MlfEngine) : Prop :=
  use_histogram_for_match_ a = use_histogram_for_match_ b
  ∧ histogram_bin_size_ a = histogram_bin_size_ b
  ∧ output_predict_objects_ a = output_predict_objects_ b
  ∧ reserved_invisible_time_ a = reserved_invisible_time_ b
  ∧ use_frame_timestamp_ a = use_frame_timestamp_ b
  ∧ set_static_outside_hdmap_ a = set_static_outside_hdmap_ b.

(** *** Reading the trace of [TrackStateFilter] *)

(** The tracks whose cache was taken, in the order of the calls. *)
Definition get_and_clean_calls (trace : list Event) : list MlfTrackData :=
  omap (λ e, match e with
             | CallGetAndCleanCachedObjects track_data => Some track_data
             | _ => None
             end) trace.

(** The calls of [UpdateTrackDataWithoutObject], in their order. *)
Definition update_without_object_calls (trace : list Event)
    : list (float * MlfTrackData) :=
  omap (λ e, match e with
             | CallUpdateTrackDataWithoutObject timestamp track_data =>
                 Some (timestamp, track_data)
             | _ => None
             end) trace.

(** The calls of [UpdateTrackDataWithObject], in their order. *)
Definition update_with_object_calls (trace : list Event)
    : list (MlfTrackData * TrackedObject) :=
  omap (λ e, match e with
             | CallUpdateTrackDataWithObject track_data object =>
                 Some (track_data, object)
             | _ => None
             end) trace.

(** The three calls that [TrackStateFilter] makes. *)
Definition is_state_filter_call (e : Event) : Prop :=
  match e with
  | CallGetAndCleanCachedObjects _
  | CallUpdateTrackDataWithObject _ _
  | CallUpdateTrackDataWithoutObject _ _ => True
  | _ => False
  end.

Definition is_update_with_object_call (e : Event) : Prop :=
  match e with CallUpdateTrackDataWithObject _ _ => True | _ => False end.

(** The calls of one round of the loop of lines 192-200, the round of
    [track_data]: its cache is taken, and then either there are calls of
    [UpdateTrackDataWithObject], one or more and nothing else, or there
    is one call of [UpdateTrackDataWithoutObject], at [frame_timestamp],
    and nothing else. *)
Definition is_filter_round (frame_timestamp : float) (track_data : MlfTrackData)
    (round : list Event) : Prop :=
  ∃ updates,
    round = CallGetAndCleanCachedObjects track_data :: updates
    ∧ ((updates ≠ [] ∧ Forall is_update_with_object_call updates)
       ∨ ∃ emptied,
           updates = [CallUpdateTrackDataWithoutObject frame_timestamp emptied]).

(** What a trace of [TrackStateFilter] over [tracks] is like: its calls,
    the tracks whose cache is taken, the timestamps and the number of
    the calls of [UpdateTrackDataWithoutObject]. *)
Record filter_trace_ok (frame_timestamp : float) (tracks : list MlfTrackData)
    (trace : list Event) : Prop := {
  filter_trace_calls : Forall is_state_filter_call trace;
  filter_trace_get : get_and_clean_calls trace = tracks;
  filter_trace_timestamp :
    Forall (λ c : float * MlfTrackData, c.1 = frame_timestamp)
      (update_without_object_calls trace);
  filter_trace_count :
    (length (update_without_object_calls trace) ≤ length tracks)%nat
}.

(** [UpdateTrackDataWithoutObject] at [timestamp] on the emptied track of
    each of [tracks], one call after the other. *)
Fixpoint predict_tracks (timestamp : float) (tracks : list MlfTrackData) (w : World)
    : list MlfTrackData * World :=
  match tracks with
  | [] => ([], w)
  | track_data :: tracks' =>
      let '(track_data, w1) :=
        UpdateTrackDataWithoutObject timestamp
          (GetAndCleanCachedObjectsInTimeInterval [] track_data).1 w in
      let '(tracks, w2) := predict_tracks timestamp tracks' w1 in
      (track_data :: tracks, w2)
  end.

(** *** The tracked object of one detection *)

(** [AttachObject] on a fresh object of the pool, with the pose and the
    offset of the engine. *)
Definition attached (this : MlfEngine) (sensor_info : SensorInfo) (object : Object)
    : TrackedObject :=
  AttachObject object (sensor_to_local_pose_ this) (global_to_local_offset_ this)
    sensor_info TrackedObject_fresh.

(** The objects on which [ComputeShapeFeatures] was called, in the order
    of the calls. *)
Definition compute_shape_features_calls (trace : list Event) : list TrackedObject :=
  omap (λ e, match e with CallComputeShapeFeatures object => Some object | _ => None end)
    trace.

(** *** Reading a trace *)

(** The tracks on which [ToObject] was called, in the order of the calls. *)
Definition to_object_calls (trace : list Event) : list MlfTrackData :=
  omap (λ e, match e with CallToObject track_data => Some track_data | _ => None end)
    trace.

(** The test of line 213: the track is counted and not turned into an object. *)
Definition is_skipped (this : MlfEngine) (track_data : MlfTrackData) : bool :=
  negb (output_predict_objects_ this) && is_current_state_predicted_ track_data.

(** The events of one run of the lambda [collect]. *)
Definition collect_event_ok (this : MlfEngine) (e : Event) : Prop :=
  match e with
  | CallToObject track_data => is_skipped this track_data = false
  | LogError message => message = "Tracking failed"%string
  | _ => False
  end.

(** A call that empties a cache, a call of the tracker's filter or a call
    of [ToObject]: what steps 4 and 5 of [Track] do. *)
Definition is_filter_or_collect_call (e : Event) : Prop :=
  match e with
  | CallGetAndCleanCachedObjects _
  | CallUpdateTrackDataWithObject _ _
  | CallUpdateTrackDataWithoutObject _ _
  | CallToObject _ => True
  | _ => False
  end.

(** The tracks of the two ledgers and the detections of the frame are
    together fewer than [2^64]: a [size_t] holds the size of every vector
    that the engine builds for the frame. *)
Definition sizes_fit (this : MlfEngine) (frame : LidarFrame) : Prop :=
  Z.of_nat (length (foreground_track_data_ this) + length (background_track_data_ this)
            + length (segmented_objects frame)) < SizeT.modulus.

(** The test of lines 111-113 that lets the loop over the objects run. *)
Definition hdmap_policy_applies (this : MlfEngine) (frame : LidarFrame)
    (roi : HdmapStruct) : Prop :=
  set_static_outside_hdmap_ this = true
  ∧ hdmap_struct frame = Some roi
  ∧ (road_polygons roi ≠ [] ∨ junction_polygons roi ≠ [] ∨ road_boundary roi ≠ []).

(** The engine as step 2 of [Track] leaves it: the offset and the pose
    of step 1, and the two vectors of tracked objects of the frame's
    detections. *)
Definition engine_after_split (this : MlfEngine) (frame : LidarFrame) : MlfEngine :=
  let frame := use_frame_timestamp this frame in
  let this := add_global_offset_to_pose this frame in
  set_tracked_object_lists
    (map (λ d, (transform_tracked_object this (sensor_info frame) d
                  TrackedObject_fresh).1)
       (List.filter (λ d, negb (is_background d)) (segmented_objects frame)))
    (map (λ d, (transform_tracked_object this (sensor_info frame) d
                  TrackedObject_fresh).1)
       (List.filter is_background (segmented_objects frame)))
    this.

(** *** Reading the trace of [Track] *)

Definition is_compute_shape_features_call (e : Event) : Prop :=
  match e with CallComputeShapeFeatures _ => True | _ => False end.

Definition is_initialize_track_call (e : Event) : Prop :=
  match e with CallInitializeTrack _ _ => True | _ => False end.

(** What the lambda [collect] leaves in the trace: a call of [ToObject]
    or the line that [AERROR] writes. *)
Definition is_collect_event (e : Event) : Prop :=
  match e with CallToObject _ | LogError _ => True | _ => False end.

(** *** What the engine expects of the matcher *)

(** Every index that [Match] returns is the index of a track or of an
    object that it was given, and no object is unassigned twice. *)
Definition indices_in_range (num_tracks num_objects : nat) (r : MatchResult) : Prop :=
  Forall (λ pair : nat * nat, (pair.1 < num_tracks)%nat ∧ (pair.2 < num_objects)%nat)
    (assignments r)
  ∧ Forall (λ id, (id < num_objects)%nat) (unassigned_objects r).

Definition valid_matching (num_tracks num_objects : nat) (r : MatchResult) : Prop :=
  indices_in_range num_tracks num_objects r ∧ NoDup (unassigned_objects r).

Definition matcher_is_valid : Prop :=
  ∀ match_options objects tracks w,
    valid_matching (length tracks) (length objects)
      (Match match_options objects tracks w).1.

(** The objects with which [PushTrackedObjectToCache] is called on the
    track at index [k], in the order of the calls. *)
Definition objects_assigned_to (k : nat) (assignments : list (nat * nat))
    (objects : list TrackedObject) : list TrackedObject :=
  omap (λ pair : nat * nat,
          if decide (pair.1 = k) then objects !! pair.2 else None) assignments.

(** The objects at the indices [ids], in the order of [ids]. *)
Definition objects_at (objects : list TrackedObject) (ids : list nat)
    : list TrackedObject :=
  omap (λ id, objects !! id) ids.

(** [InitializeTrack] on a fresh track of the pool for each of [objects],
    one call after the other. *)
Fixpoint initialize_tracks (objects : list TrackedObject) (w : World)
    : list MlfTrackData * World :=
  match objects with
  | [] => ([], w)
  | object :: objects' =>
      let '(track_data, w1) := InitializeTrack MlfTrackData_fresh object w in
      let '(tracks, w2) := initialize_tracks objects' w1 in
      (track_data :: tracks, w2)
  end.

End Engine.

Arguments SplitAndTransformToTrackedObjects : simpl never.
Arguments TrackObjectMatchAndAssign : simpl never.
Arguments TrackStateFilter : simpl never.
Arguments CollectTrackedResult : simpl never.
Arguments RemoveStaleTrackData : simpl never.
Arguments Track_until_stale_removed : simpl never.

(** ** A small instance of the classes *)

(** A matcher that pairs the first track with the first object, a tracker
    that numbers the tracks it creates, and data with just enough in it
    to tell the objects apart.  The examples at the end of the file run
    the engine on it. *)
Module Stub.

Definition payloads : Payloads :=
  {| ObjectRest := Z;                               (* an identifier *)
     TrackedObjectRest := float * Z * bool;         (* time, identifier, features computed *)
     MlfTrackDataRest := Z * list (float * Z * bool);   (* track id, cache *)
     SensorInfoRest := unit;
     Polygon := unit;
     RoadBoundary := unit;
     World := Z                                     (* the next track id *) |}.

Definition data_methods : @DataMethods payloads :=
  {| TrackedObject_fresh :=
       @mkTrackedObject payloads 0 (0%float, 0, false);
     MlfTrackData_fresh :=
       @mkMlfTrackData payloads 0%float false (0, []);
     Object_fresh :=
       @mkObject payloads 0%float false Vector3f_Zero Vector3f_Zero 0;
     AttachObject := λ object _ _ _ tracked,
       @mkTrackedObject payloads (histogram_bin_size tracked)
         (latest_tracked_time object, object_rest object, false);
     ComputeShapeFeatures := λ tracked,
       @mkTrackedObject payloads (histogram_bin_size tracked)
         ((tracked_object_rest tracked).1.1, (tracked_object_rest tracked).1.2, true);
     PushTrackedObjectToCache := λ object track,
       @mkMlfTrackData payloads (latest_visible_time_ track)
         (is_current_state_predicted_ track)
         ((track_data_rest track).1,
          (track_data_rest track).2 ++ [tracked_object_rest object]);
     GetAndCleanCachedObjectsInTimeInterval := λ _ track,
       (@mkMlfTrackData payloads (latest_visible_time_ track)
          (is_current_state_predicted_ track) ((track_data_rest track).1, []),
        map (@mkTrackedObject payloads 0) (track_data_rest track).2);
     ToObject := λ _ timestamp object track,
       (true,
        @mkObject payloads timestamp (is_background object)
          (mkVector3 1%float 0%float 0%float) (mkVector3 0%float 1%float 0%float)
          (track_data_rest track).1) |}.

Definition matcher : @MlfTrackObjectMatcher payloads :=
  {| Match := λ _ objects tracks w,
       match objects, tracks with
       | _ :: _, _ :: _ =>
           ({| assignments := [(0%nat, 0%nat)];
               unassigned_tracks := seq 1 (length tracks - 1);
               unassigned_objects := seq 1 (length objects - 1) |}, w)
       | _, _ =>
           ({| assignments := [];
               unassigned_tracks := seq 0 (length tracks);
               unassigned_objects := seq 0 (length objects) |}, w)
       end |}.

Definition tracker : @MlfTracker payloads :=
  {| InitializeTrack := λ track object (w : @World payloads),
       (@mkMlfTrackData payloads (tracked_object_rest object).1.1 false
          (w, [tracked_object_rest object]), w + 1);
     UpdateTrackDataWithObject := λ track object (w : @World payloads),
       (@mkMlfTrackData payloads (tracked_object_rest object).1.1 false
          (track_data_rest track), w);
     UpdateTrackDataWithoutObject := λ _ track (w : @World payloads),
       (@mkMlfTrackData payloads (latest_visible_time_ track) true
          (track_data_rest track), w) |}.

Definition services : @Services payloads :=
  {| IsMainSensor := λ sensor, String.eqb sensor "velodyne128";
     IsObjectInRoi := λ _ object, Z.even (@object_rest payloads object) |}.

Definition detection (time : float) (background : bool) (id : Z) : @Object payloads :=
  @mkObject payloads time background (mkVector3 2%float 2%float 2%float)
    (mkVector3 3%float 3%float 3%float) id.

Definition pose : Affine3d :=
  {| linear :=
       mkVector3 (mkVector3 1%float 0%float 0%float) (mkVector3 0%float 1%float 0%float)
         (mkVector3 0%float 0%float 1%float);
     translation := mkVector3 10%float 20%float 30%float |}.

Definition frame (sensor : string) (time : float) (roi : option (@HdmapStruct payloads))
    : @LidarFrame payloads :=
  @mkLidarFrame payloads time (@mkSensorInfo payloads sensor tt)
    [detection time false 1; detection time true 2; detection time false 3]
    pose roi [].

Definition road : @HdmapStruct payloads :=
  @mkHdmapStruct payloads [tt] [] [].

(** An engine with the ledgers [fg] and [bg], a grace period of one
    second, and every option on but [output_predict_objects_]. *)
Definition engine (fg bg : list (@MlfTrackData payloads)) : @MlfEngine payloads :=
  @mkMlfEngine payloads [] [] fg bg (mkVector3 0%float 0%float 0%float) pose
    true 10 false 1%float true true.

Definition track (time : float) (predicted : bool) (id : Z) : @MlfTrackData payloads :=
  @mkMlfTrackData payloads time predicted (id, []).

Definition track_with_cache (time : float) (predicted : bool) (id : Z)
    (cache : list (float * Z * bool)) : @MlfTrackData payloads :=
  @mkMlfTrackData payloads time predicted (id, cache).

Definition tracked (bin_size : SizeT.t) (time : float) (id : Z) (features : bool)
    : @TrackedObject payloads :=
  @mkTrackedObject payloads bin_size (time, id, features).

Definition published (time : float) (velocity acceleration : Vector3f) (id : Z)
    : @Object payloads :=
  @mkObject payloads time false velocity acceleration id.

(** A matcher that pairs the first object with a track that is not in
    the ledger. *)
Definition careless_matcher : @MlfTrackObjectMatcher payloads :=
  {| Match := λ _ objects tracks w,
       ({| assignments := [(length tracks, 0%nat)];
           unassigned_tracks := [];
           unassigned_objects := [] |}, w) |}.

(** A frame without detections. *)
Definition empty_frame (sensor : string) (time : float) : @LidarFrame payloads :=
  @mkLidarFrame payloads time (@mkSensorInfo payloads sensor tt) [] pose None [].

(** The configuration of [engine]. *)
Definition config : MlfEngineConfig :=
  mkMlfEngineConfig true 10 false 1%float true true.

End Stub.

Section RemoveStaleProofs.
Context `{Payloads}.

Lemma drop_S_eq {A : Type} (i : nat) (l k : list A) :
  drop i l = drop i k → drop (S i) l = drop (S i) k.
Proof.
  intros Heq. replace (S i) with (i + 1)%nat by lia.
  by rewrite <- !drop_drop, Heq.
Qed.

Lemma RemoveStaleTrackData_loop_spec (this : MlfEngine) (timestamp : float)
    (fuel i pos : nat) (tracks orig : list MlfTrackData) :
  (i + fuel = length orig)%nat →
  (pos <= i)%nat →
  length tracks = length orig →
  take pos tracks = List.filter (is_alive this timestamp) (take i orig) →
  drop i tracks = drop i orig →
  ∃ tracks',
    RemoveStaleTrackData_loop this timestamp fuel i pos tracks
      = Some (length (List.filter (is_alive this timestamp) orig), tracks')
    ∧ length tracks' = length orig
    ∧ take (length (List.filter (is_alive this timestamp) orig)) tracks'
      = List.filter (is_alive this timestamp) orig.
Proof.
  revert i pos tracks.
  induction fuel as [|fuel IH]; intros i pos tracks Hi Hpos Hlen Htake Hdrop.
  - assert (i = length orig) as -> by lia.
    rewrite firstn_all in Htake. simpl.
    exists tracks. split; [|split]; try done.
    + rewrite <- Htake, length_take. do 2 f_equal. lia.
    + rewrite <- Htake at 1. rewrite length_take.
      replace (pos `min` length tracks)%nat with pos by lia. by rewrite Htake.
  - assert (i < length orig)%nat as Hlt by lia.
    destruct (lookup_lt_is_Some_2 orig i Hlt) as [track Htrack].
    assert (tracks !! i = Some track) as Htrack'.
    { rewrite <- (Nat.add_0_r i), <- lookup_drop, Hdrop, lookup_drop, Nat.add_0_r. done. }
    simpl. rewrite Htrack'. simpl.
    assert (take (S i) orig = take i orig ++ [track]) as Hsnoc
      by (by apply take_S_r).
    destruct (is_alive this timestamp track) eqn:Halive.
    + assert (∃ tracks1,
          (if decide (i ≠ pos) then vector_at_put pos track tracks else Some tracks)
            = Some tracks1
          ∧ length tracks1 = length orig
          ∧ take (S pos) tracks1 = take pos tracks ++ [track]
          ∧ drop (S i) tracks1 = drop (S i) orig) as (tracks1 & -> & Hl1 & Ht1 & Hd1).
      { destruct (decide (i ≠ pos)) as [Hne|Heq].
        - exists (<[pos := track]> tracks). unfold vector_at_put.
          rewrite decide_True by lia. split; [done|].
          split; [by rewrite length_insert|]. split.
          + rewrite (take_S_r _ _ track).
            * by rewrite take_insert_ge by lia.
            * apply list_lookup_insert_eq. lia.
          + rewrite drop_insert_lt by lia. by apply drop_S_eq.
        - apply dec_stable in Heq. subst pos.
          exists tracks. split; [done|]. split; [done|]. split.
          + by apply take_S_r.
          + by apply drop_S_eq. }
      simpl. apply IH; try lia.
      rewrite Ht1, Hsnoc, List.filter_app, Htake. simpl. by rewrite Halive.
      done.
    + apply IH; try lia; try done.
      * rewrite Hsnoc, List.filter_app, Htake. simpl. rewrite Halive.
        by rewrite app_nil_r.
      * by apply drop_S_eq.
Qed.

Lemma RemoveStaleTrackData_run (this : MlfEngine) (name : string)
    (timestamp : float) (tracks : list MlfTrackData) :
  RemoveStaleTrackData this name timestamp tracks
    = Some (List.filter (is_alive this timestamp) tracks).
Proof.
  unfold RemoveStaleTrackData.
  destruct (RemoveStaleTrackData_loop_spec this timestamp (length tracks) 0 0 tracks tracks)
    as (tracks' & -> & Hlen & Htake); try done.
  simpl. unfold vector_resize.
  rewrite decide_True.
  - by rewrite Htake.
  - rewrite Hlen. apply List.filter_length_le.
Qed.

Lemma filter_sublist {A : Type} (f : A → bool) (l : list A) :
  sublist (List.filter f l) l.
Proof.
  induction l as [|x l IH]; simpl; [constructor|].
  destruct (f x); by constructor.
Qed.

(** C3. [RemoveStaleTrackData] returns, for every ledger and timestamp,
    the tracks with [latest_visible_time_ + reserved_invisible_time_ >=
    timestamp] and no other: a track is in the result if and only if it
    was in the ledger and passes the test, the result is a subsequence
    of the ledger (the order of the survivors is kept), and its size is
    the number of survivors. *)
Theorem RemoveStaleTrackData_keeps_alive_in_order (this : MlfEngine) (name : string)
    (timestamp : float) (tracks : list MlfTrackData) :
  ∃ tracks',
    RemoveStaleTrackData this name timestamp tracks = Some tracks'
    ∧ tracks' = List.filter (is_alive this timestamp) tracks
    ∧ (∀ track,
         track ∈ tracks'
         ↔ track ∈ tracks
           ∧ (timestamp
              <=? latest_visible_time_ track + reserved_invisible_time_ this)%float
             = true)
    ∧ sublist tracks' tracks
    ∧ length tracks'
      = length (List.filter (is_alive this timestamp) tracks).
Proof.
  exists (List.filter (is_alive this timestamp) tracks).
  split; [apply RemoveStaleTrackData_run|]. split; [done|]. split.
  - intros track. rewrite !list_elem_of_In, filter_In. done.
  - split; [apply filter_sublist|done].
Qed.

End RemoveStaleProofs.


(** ** Proofs: [SplitAndTransformToTrackedObjects] *)

Section SplitProofs.
Context `{Payloads} `{!DataMethods}.

Lemma SplitAndTransform_loop_spec (this : MlfEngine) (sensor_info : SensorInfo)
    (objects : list Object) (fuel i : nat) (st : SplitState) :
  (i + fuel = length objects)%nat →
  SplitAndTransform_loop this sensor_info objects
      (replicate (length objects) TrackedObject_fresh) fuel i st
  = Some
      {| split_foreground :=
           split_foreground st
           ++ map (λ d, (transform_tracked_object this sensor_info d TrackedObject_fresh).1)
                (List.filter (λ d, negb (is_background d)) (drop i objects));
         split_background :=
           split_background st
           ++ map (λ d, (transform_tracked_object this sensor_info d TrackedObject_fresh).1)
                (List.filter is_background (drop i objects));
         split_trace :=
           split_trace st
           ++ concat
                (map (λ d, (transform_tracked_object this sensor_info d TrackedObject_fresh).2)
                   (drop i objects)) |}.
Proof.
  revert i st. induction fuel as [|fuel IH]; intros i st Hi.
  - rewrite drop_ge by lia. simpl. rewrite !app_nil_r. by destruct st.
  - assert (i < length objects)%nat as Hlt by lia.
    destruct (lookup_lt_is_Some_2 objects i Hlt) as [d Hd].
    simpl. rewrite Hd. simpl.
    rewrite lookup_replicate_2 by done. simpl.
    rewrite (drop_S _ _ _ Hd).
    destruct (transform_tracked_object this sensor_info d TrackedObject_fresh)
      as [tracked events] eqn:Htr.
    rewrite IH by lia. simpl. rewrite Htr. simpl.
    destruct (is_background d); simpl; rewrite ?Htr; simpl;
      by rewrite <- !app_assoc.
Qed.

Lemma SplitAndTransform_run (this : MlfEngine) (objects : list Object)
    (sensor_info : SensorInfo) :
  SplitAndTransformToTrackedObjects this objects sensor_info
  = Some
      (set_tracked_object_lists
         (map (λ d, (transform_tracked_object this sensor_info d TrackedObject_fresh).1)
            (List.filter (λ d, negb (is_background d)) objects))
         (map (λ d, (transform_tracked_object this sensor_info d TrackedObject_fresh).1)
            (List.filter is_background objects))
         this,
       concat
         (map (λ d, (transform_tracked_object this sensor_info d TrackedObject_fresh).2)
            objects)).
Proof.
  unfold SplitAndTransformToTrackedObjects.
  rewrite SplitAndTransform_loop_spec by done. done.
Qed.

Lemma filter_partition_length {A : Type} (f : A → bool) (l : list A) :
  (length (List.filter (λ x, negb (f x)) l) + length (List.filter f l) = length l)%nat.
Proof.
  induction l as [|x l IH]; [done|]. simpl.
  destruct (f x); simpl; lia.
Qed.

(** C2. [SplitAndTransformToTrackedObjects] makes one tracked object of
    every detection: the foreground vector holds those of the detections
    that are not background, the background vector those of the
    detections that are, each in the order of the frame, and the two
    sizes add up to the number of detections. *)
Theorem SplitAndTransform_partition (this : MlfEngine) (objects : list Object)
    (sensor_info : SensorInfo) :
  ∃ this' trace,
    SplitAndTransformToTrackedObjects this objects sensor_info = Some (this', trace)
    ∧ foreground_objects_ this'
      = map (λ d, (transform_tracked_object this sensor_info d TrackedObject_fresh).1)
          (List.filter (λ d, negb (is_background d)) objects)
    ∧ background_objects_ this'
      = map (λ d, (transform_tracked_object this sensor_info d TrackedObject_fresh).1)
          (List.filter is_background objects)
    ∧ (length (foreground_objects_ this') + length (background_objects_ this')
       = length objects)%nat.
Proof.
  eexists _, _. split; [apply SplitAndTransform_run|].
  simpl. split; [done|]. split; [done|].
  rewrite !length_map. apply filter_partition_length.
Qed.

(** C9. In [SplitAndTransformToTrackedObjects], [ComputeShapeFeatures] is
    called once for every detection that is not background when
    [use_histogram_for_match_] is set, on the attached object with
    [histogram_bin_size] already set to [histogram_bin_size_], and for no
    other detection: a background detection, and every detection when the
    option is off, is attached and nothing more.  Every object that
    [ComputeShapeFeatures] is called on has the [histogram_bin_size] of
    the configuration: the field reads [histogram_bin_size_] at the
    call. *)
Theorem SplitAndTransform_shape_features (this : MlfEngine) (objects : list Object)
    (sensor_info : SensorInfo) :
  ∃ this' trace,
    SplitAndTransformToTrackedObjects this objects sensor_info = Some (this', trace)
    ∧ trace
      = map (λ d, CallComputeShapeFeatures
                    (set_histogram_bin_size (histogram_bin_size_ this)
                       (attached this sensor_info d)))
          (List.filter
             (λ d, negb (is_background d) && use_histogram_for_match_ this) objects)
    ∧ foreground_objects_ this'
      = map (λ d, if use_histogram_for_match_ this then
                    ComputeShapeFeatures
                      (set_histogram_bin_size (histogram_bin_size_ this)
                         (attached this sensor_info d))
                  else attached this sensor_info d)
          (List.filter (λ d, negb (is_background d)) objects)
    ∧ background_objects_ this'
      = map (attached this sensor_info) (List.filter is_background objects)
    ∧ Forall (λ object, histogram_bin_size object = histogram_bin_size_ this)
        (compute_shape_features_calls trace)
    ∧ length (compute_shape_features_calls trace)
      = length (List.filter
                  (λ d, negb (is_background d) && use_histogram_for_match_ this)
                  objects)
    ∧ (use_histogram_for_match_ this = true →
       Forall (λ object,
                 ∃ sized,
                   object = ComputeShapeFeatures sized
                   ∧ histogram_bin_size sized = histogram_bin_size_ this)
         (foreground_objects_ this')).
Proof.
  assert (concat
            (map (λ d, (transform_tracked_object this sensor_info d
                          TrackedObject_fresh).2) objects)
          = map (λ d, CallComputeShapeFeatures
                        (set_histogram_bin_size (histogram_bin_size_ this)
                           (attached this sensor_info d)))
              (List.filter
                 (λ d, negb (is_background d) && use_histogram_for_match_ this)
                 objects)) as Htrace.
  { induction objects as [|d l IH]; [done|]. simpl.
    unfold transform_tracked_object at 1. fold (attached this sensor_info d).
    destruct (negb (is_background d) && use_histogram_for_match_ this); simpl;
      by rewrite IH. }
  eexists _, _. split; [apply SplitAndTransform_run|].
  simpl. split; [exact Htrace|]. rewrite Htrace. clear Htrace.
  split; [|split; [|split; [|split]]].
  3: { induction (List.filter
                    (λ d, negb (is_background d) && use_histogram_for_match_ this)
                    objects) as [|d l IH]; simpl; by constructor. }
  3: { induction (List.filter
                    (λ d, negb (is_background d) && use_histogram_for_match_ this)
                    objects) as [|d l IH]; simpl; [done|f_equal; exact IH]. }
  3: { intros Hon. apply Forall_map, Forall_forall. intros d Hd.
       apply list_elem_of_In, filter_In in Hd as [_ Hfg].
       unfold transform_tracked_object. rewrite Hfg, Hon. simpl.
       by eexists. }
  - induction objects as [|d l IH]; [done|]. simpl.
    destruct (is_background d) eqn:Hbg; simpl; [done|].
    rewrite IH. f_equal.
    unfold transform_tracked_object. rewrite Hbg. simpl.
    fold (attached this sensor_info d).
    by destruct (use_histogram_for_match_ this).
  - induction objects as [|d l IH]; [done|]. simpl.
    destruct (is_background d) eqn:Hbg; simpl; [|done].
    rewrite IH. f_equal.
    unfold transform_tracked_object. by rewrite Hbg.
Qed.

End SplitProofs.


(** ** Proofs: [CollectTrackedResult] *)

Section CollectProofs.
Context `{Payloads} `{!DataMethods}.

Lemma SizeT_wrap_small (z : Z) : 0 ≤ z < SizeT.modulus → SizeT.wrap z = z.
Proof. intros Hz. unfold SizeT.wrap. by apply Z.mod_small. Qed.

Lemma to_object_calls_app (t1 t2 : list Event) :
  to_object_calls (t1 ++ t2) = to_object_calls t1 ++ to_object_calls t2.
Proof. unfold to_object_calls. apply omap_app. Qed.

Lemma SizeT_succ_small (z : Z) : 0 ≤ z → z + 1 < SizeT.modulus → SizeT.succ z = z + 1.
Proof. intros. unfold SizeT.succ. apply SizeT_wrap_small. lia. Qed.

Lemma collect_track_skipped (this : MlfEngine) (timestamp : float)
    (st : CollectState) (track_data : MlfTrackData) :
  is_skipped this track_data = true →
  collect_track this timestamp st track_data
  = Some {| collect_objects := collect_objects st;
            collect_pos := collect_pos st;
            collect_num_predict := SizeT.succ (collect_num_predict st);
            collect_trace := collect_trace st |}.
Proof. unfold collect_track, is_skipped. by intros ->. Qed.

Lemma collect_track_to_object (this : MlfEngine) (timestamp : float)
    (st : CollectState) (track_data : MlfTrackData) (object : Object) :
  is_skipped this track_data = false →
  collect_objects st !! SizeT.to_index (collect_pos st) = Some object →
  collect_track this timestamp st track_data
  = Some
      (let r := ToObject (Vector3d_opp (global_to_local_offset_ this)) timestamp
                  object track_data in
       {| collect_objects :=
            <[SizeT.to_index (collect_pos st) := r.2]> (collect_objects st);
          collect_pos := if r.1 then SizeT.succ (collect_pos st) else collect_pos st;
          collect_num_predict := collect_num_predict st;
          collect_trace :=
            collect_trace st
            ++ (if r.1 then [CallToObject track_data]
                else [CallToObject track_data; LogError "Tracking failed"]) |}).
Proof.
  unfold collect_track, is_skipped. intros -> ->. simpl.
  by destruct (ToObject _ _ _ _) as [[] ?].
Qed.

(** One run of the lambda over [tracks], from a state in which the buffer
    has room for them. *)
Lemma collect_loop_spec (this : MlfEngine) (timestamp : float)
    (tracks : list MlfTrackData) (st : CollectState) :
  0 ≤ collect_pos st → 0 ≤ collect_num_predict st →
  collect_pos st + collect_num_predict st + Z.of_nat (length tracks)
    ≤ Z.of_nat (length (collect_objects st)) →
  Z.of_nat (length (collect_objects st)) < SizeT.modulus →
  ∃ st' events,
    for_each_option (collect_track this timestamp) tracks st = Some st'
    ∧ length (collect_objects st') = length (collect_objects st)
    ∧ collect_num_predict st'
      = collect_num_predict st
        + Z.of_nat (length (List.filter (is_skipped this) tracks))
    ∧ collect_pos st ≤ collect_pos st'
    ∧ collect_pos st' + collect_num_predict st'
      ≤ collect_pos st + collect_num_predict st + Z.of_nat (length tracks)
    ∧ collect_trace st' = collect_trace st ++ events
    ∧ Forall (collect_event_ok this) events
    ∧ to_object_calls events
      = List.filter (λ t, negb (is_skipped this t)) tracks.
Proof.
  revert st. induction tracks as [|track tracks IH]; intros st Hpos Hnp Hroom Hmax.
  - exists st, []. simpl. rewrite app_nil_r. repeat split; try done; lia.
  - simpl in Hroom. simpl.
    destruct (is_skipped this track) eqn:Hskip; simpl.
    + rewrite collect_track_skipped by done. simpl.
      assert (SizeT.succ (collect_num_predict st) = collect_num_predict st + 1) as Hs
        by (apply SizeT_succ_small; lia).
      edestruct (IH {| collect_objects := collect_objects st;
                       collect_pos := collect_pos st;
                       collect_num_predict := SizeT.succ (collect_num_predict st);
                       collect_trace := collect_trace st |})
        as (st' & events & Hrun & Hlen & Hnp' & Hpos' & Hsum & Htrace & Hok & Hcalls);
        simpl; rewrite ?Hs; try lia.
      simpl in Hlen, Hnp', Hpos', Hsum, Htrace. rewrite Hs in Hnp', Hsum.
      rewrite ?Hs in Hrun.
      exists st', events. rewrite Hrun.
      repeat split; try done; lia.
    + assert (SizeT.to_index (collect_pos st) < length (collect_objects st))%nat as Hlt
        by (unfold SizeT.to_index; lia).
      destruct (lookup_lt_is_Some_2 _ _ Hlt) as [object Hobject].
      rewrite (collect_track_to_object _ _ _ _ object) by done. simpl.
      assert (SizeT.succ (collect_pos st) = collect_pos st + 1) as Hs
        by (apply SizeT_succ_small; lia).
      destruct (ToObject _ timestamp object track) as [ok object']. simpl.
      edestruct (IH {| collect_objects :=
                         <[SizeT.to_index (collect_pos st) := object']> (collect_objects st);
                       collect_pos :=
                         if ok then SizeT.succ (collect_pos st) else collect_pos st;
                       collect_num_predict := collect_num_predict st;
                       collect_trace :=
                         collect_trace st
                         ++ (if ok then [CallToObject track]
                             else [CallToObject track; LogError "Tracking failed"]) |})
        as (st' & events & Hrun & Hlen & Hnp' & Hpos' & Hsum & Htrace & Hok & Hcalls);
        simpl; rewrite ?length_insert, ?Hs; try (destruct ok; lia).
      simpl in Hlen, Hnp', Hpos', Hsum, Htrace.
      rewrite length_insert in Hlen. rewrite Hs in Hpos', Hsum.
      rewrite ?Hs in Hrun.
      exists st', ((if ok then [CallToObject track]
                    else [CallToObject track; LogError "Tracking failed"]) ++ events).
      rewrite Hrun.
      split; [done|]. split; [done|]. split; [done|].
      split; [destruct ok; lia|]. split; [destruct ok; lia|].
      split; [by rewrite Htrace, <- app_assoc|]. split.
      * apply Forall_app. split; [|done]. destruct ok; by repeat constructor.
      * rewrite to_object_calls_app, Hcalls. by destruct ok.
Qed.

Lemma collect_all_tracks_spec (this : MlfEngine) (frame : LidarFrame) :
  Z.of_nat (length (foreground_track_data_ this) + length (background_track_data_ this))
    < SizeT.modulus →
  ∃ st,
    collect_all_tracks this frame
    = Some (Z.of_nat (length (foreground_track_data_ this)
                      + length (background_track_data_ this)), st)
    ∧ length (collect_objects st)
      = (length (foreground_track_data_ this) + length (background_track_data_ this))%nat
    ∧ collect_num_predict st
      = Z.of_nat (length (List.filter (is_skipped this)
                            (foreground_track_data_ this ++ background_track_data_ this)))
    ∧ 0 ≤ collect_pos st
    ∧ collect_pos st + collect_num_predict st
      ≤ Z.of_nat (length (foreground_track_data_ this)
                  + length (background_track_data_ this))
    ∧ Forall (collect_event_ok this) (collect_trace st)
    ∧ to_object_calls (collect_trace st)
      = List.filter (λ t, negb (is_skipped this t))
          (foreground_track_data_ this ++ background_track_data_ this).
Proof.
  intros Hmax. unfold collect_all_tracks.
  set (fg := foreground_track_data_ this) in *.
  set (bg := background_track_data_ this) in *.
  assert (SizeT.add (Z.of_nat (length fg)) (Z.of_nat (length bg))
          = Z.of_nat (length fg + length bg)) as ->.
  { unfold SizeT.add. rewrite SizeT_wrap_small by lia. lia. }
  unfold SizeT.to_index at 1. rewrite Nat2Z.id.
  destruct (collect_loop_spec this (timestamp frame) fg
              {| collect_objects := replicate (length fg + length bg) Object_fresh;
                 collect_pos := 0; collect_num_predict := 0; collect_trace := [] |})
    as (st1 & ev1 & -> & Hlen1 & Hnp1 & Hpos1 & Hsum1 & Htr1 & Hok1 & Hcalls1);
    simpl; rewrite ?length_replicate; try lia.
  simpl in Hlen1, Hnp1, Hpos1, Hsum1, Htr1. rewrite length_replicate in Hlen1.
  destruct (collect_loop_spec this (timestamp frame) bg st1)
    as (st2 & ev2 & -> & Hlen2 & Hnp2 & Hpos2 & Hsum2 & Htr2 & Hok2 & Hcalls2);
    try lia.
  exists st2. simpl. split; [done|].
  rewrite List.filter_app, length_app.
  split; [lia|]. split; [lia|]. split; [lia|]. split; [lia|].
  rewrite Htr2, Htr1. simpl. split.
  - by apply Forall_app.
  - by rewrite to_object_calls_app, Hcalls1, Hcalls2, List.filter_app.
Qed.

Lemma shrink_tracked_objects_spec (num_objects num_predict : SizeT.t)
    (tracked_objects : list Object) :
  0 ≤ num_predict ≤ num_objects → num_objects < SizeT.modulus →
  Z.of_nat (length tracked_objects) = num_objects →
  shrink_tracked_objects num_objects num_predict tracked_objects
  = Some (take (Z.to_nat (num_objects - num_predict)) tracked_objects, []).
Proof.
  intros Hnp Hmax Hlen. unfold shrink_tracked_objects.
  destruct (decide (num_predict ≠ 0)) as [Hne|Heq].
  - rewrite decide_False by lia.
    unfold SizeT.sub, SizeT.to_index. rewrite SizeT_wrap_small by lia.
    unfold vector_resize. by rewrite decide_True by lia.
  - apply dec_stable in Heq. subst num_predict.
    rewrite take_ge by lia. done.
Qed.

Lemma CollectTrackedResult_spec (this : MlfEngine) (frame : LidarFrame) :
  Z.of_nat (length (foreground_track_data_ this) + length (background_track_data_ this))
    < SizeT.modulus →
  ∃ tracked_objects trace,
    CollectTrackedResult this frame
    = Some (set_tracked_objects tracked_objects frame, trace)
    ∧ (length tracked_objects
       + length (List.filter (is_skipped this)
                   (foreground_track_data_ this ++ background_track_data_ this))
       = length (foreground_track_data_ this) + length (background_track_data_ this))%nat
    ∧ Forall (collect_event_ok this) trace
    ∧ to_object_calls trace
      = List.filter (λ t, negb (is_skipped this t))
          (foreground_track_data_ this ++ background_track_data_ this).
Proof.
  intros Hmax. unfold CollectTrackedResult.
  destruct (collect_all_tracks_spec this frame Hmax)
    as (st & -> & Hlen & Hnp & Hpos & Hsum & Hok & Hcalls).
  simpl. rewrite shrink_tracked_objects_spec by lia. simpl.
  eexists _, _. split; [done|]. rewrite app_nil_r.
  split; [|done]. rewrite length_take. lia.
Qed.

(** C4. With [output_predict_objects_] off, [CollectTrackedResult] leaves
    in the frame as many objects as there are tracks in the two ledgers
    that are not flagged [is_current_state_predicted_], and [ToObject] is
    called on exactly these tracks, in the order of the ledgers: no
    flagged track is turned into an object. *)
Theorem CollectTrackedResult_suppresses_predicted (this : MlfEngine) (frame : LidarFrame) :
  output_predict_objects_ this = false →
  Z.of_nat (length (foreground_track_data_ this) + length (background_track_data_ this))
    < SizeT.modulus →
  ∃ frame' trace,
    CollectTrackedResult this frame = Some (frame', trace)
    ∧ (length (tracked_objects frame')
       = length (foreground_track_data_ this) + length (background_track_data_ this)
         - length (List.filter is_current_state_predicted_
                     (foreground_track_data_ this ++ background_track_data_ this)))%nat
    ∧ to_object_calls trace
      = List.filter (λ t, negb (is_current_state_predicted_ t))
          (foreground_track_data_ this ++ background_track_data_ this)
    ∧ Forall (λ t, is_current_state_predicted_ t = false) (to_object_calls trace).
Proof.
  intros Hout Hmax.
  destruct (CollectTrackedResult_spec this frame Hmax)
    as (objects & trace & Hrun & Hlen & Hok & Hcalls).
  assert (∀ t, is_skipped this t = is_current_state_predicted_ t) as Hskip
    by (intros t; unfold is_skipped; by rewrite Hout).
  rewrite (List.filter_ext _ _ Hskip) in Hlen.
  rewrite (List.filter_ext (λ t, negb (is_skipped this t))
             (λ t, negb (is_current_state_predicted_ t))) in Hcalls
    by (intros t; by rewrite Hskip).
  exists (set_tracked_objects objects frame), trace.
  split; [done|]. simpl. split; [lia|]. split; [done|].
  rewrite Hcalls. apply Forall_forall. intros t Ht.
  apply list_elem_of_In, filter_In in Ht as [_ Ht]. by apply negb_true_iff.
Qed.

(** C10. In [CollectTrackedResult], after the lambda has run over both
    ledgers, [num_predict] is the number of tracks that were skipped, one
    for each, and so at most [num_objects], the sum of the two sizes: the
    subtraction [num_objects - num_predict] does not wrap, and the
    function returns without the error [num_predict > num_objects]. *)
Theorem CollectTrackedResult_num_predict_bounded (this : MlfEngine) (frame : LidarFrame) :
  Z.of_nat (length (foreground_track_data_ this) + length (background_track_data_ this))
    < SizeT.modulus →
  ∃ num_objects st frame' trace,
    collect_all_tracks this frame = Some (num_objects, st)
    ∧ num_objects
      = Z.of_nat (length (foreground_track_data_ this)
                  + length (background_track_data_ this))
    ∧ collect_num_predict st
      = Z.of_nat (length (List.filter (is_skipped this)
                            (foreground_track_data_ this ++ background_track_data_ this)))
    ∧ 0 ≤ collect_num_predict st ≤ num_objects
    ∧ SizeT.sub num_objects (collect_num_predict st)
      = num_objects - collect_num_predict st
    ∧ CollectTrackedResult this frame = Some (frame', trace)
    ∧ LogError "num_predict > num_objects" ∉ trace.
Proof.
  intros Hmax.
  destruct (collect_all_tracks_spec this frame Hmax)
    as (st & Hall & Hlen & Hnp & Hpos & Hsum & Hok & Hcalls).
  destruct (CollectTrackedResult_spec this frame Hmax)
    as (objects & trace & Hrun & _ & Hok' & _).
  eexists _, st, _, trace. split; [done|]. split; [done|]. split; [done|].
  split; [lia|]. split.
  - unfold SizeT.sub. apply SizeT_wrap_small. lia.
  - split; [done|]. intros Hin.
    rewrite Forall_forall in Hok'. specialize (Hok' _ Hin). simpl in Hok'.
    discriminate.
Qed.

End CollectProofs.


(** ** Proofs: [TrackObjectMatchAndAssign] *)

Section MatchProofs.
Context `{Payloads} `{!DataMethods} `{!MlfTrackObjectMatcher} `{!MlfTracker}.

Lemma objects_at_length (objects : list TrackedObject) (ids : list nat) :
  Forall (λ id, (id < length objects)%nat) ids →
  length (objects_at objects ids) = length ids.
Proof.
  induction 1 as [|id ids Hid _ IH]; [done|].
  unfold objects_at in *. simpl.
  destruct (lookup_lt_is_Some_2 objects id Hid) as [o ->]. simpl.
  f_equal. exact IH.
Qed.

Lemma for_each_option_cons {A S : Type} (body : S → A → option S)
    (x : A) (l : list A) (s s' : S) :
  body s x = Some s' →
  for_each_option body (x :: l) s = for_each_option body l s'.
Proof. intros Hbody. simpl. by rewrite Hbody. Qed.

Lemma push_assigned_object_eq (objects : list TrackedObject)
    (tracks : list MlfTrackData) (track_id object_id : nat)
    (track : MlfTrackData) (object : TrackedObject) :
  tracks !! track_id = Some track → objects !! object_id = Some object →
  push_assigned_object objects tracks (track_id, object_id)
  = Some (<[track_id := PushTrackedObjectToCache object track]> tracks).
Proof. unfold push_assigned_object. simpl. by intros -> ->. Qed.

(** The first loop: every pair pushes its object to the cache of its
    track, and no track moves. *)
Lemma push_assigned_loop_spec (objects : list TrackedObject)
    (pairs : list (nat * nat)) (tracks : list MlfTrackData) :
  Forall (λ pair : nat * nat,
            (pair.1 < length tracks)%nat ∧ (pair.2 < length objects)%nat) pairs →
  ∃ tracks',
    for_each_option (push_assigned_object objects) pairs tracks = Some tracks'
    ∧ length tracks' = length tracks
    ∧ ∀ k track,
        tracks !! k = Some track →
        tracks' !! k
        = Some (foldl (λ t o, PushTrackedObjectToCache o t) track
                  (objects_assigned_to k pairs objects)).
Proof.
  revert tracks. induction pairs as [|[track_id object_id] pairs IH];
    intros tracks Hvalid.
  - exists tracks. by repeat split.
  - apply Forall_cons in Hvalid as [[Htrack Hobject] Hvalid]. simpl in Htrack, Hobject.
    destruct (lookup_lt_is_Some_2 tracks track_id Htrack) as [t0 Ht0].
    destruct (lookup_lt_is_Some_2 objects object_id Hobject) as [o Ho].
    rewrite (for_each_option_cons _ _ _ _ _ (push_assigned_object_eq _ _ _ _ _ _ Ht0 Ho)).
    destruct (IH (<[track_id := PushTrackedObjectToCache o t0]> tracks))
      as (tracks' & -> & Hlen & Hlookup).
    { by rewrite length_insert. }
    exists tracks'. split; [done|]. rewrite length_insert in Hlen. split; [done|].
    intros k track Hk. unfold objects_assigned_to. simpl.
    destruct (decide (track_id = k)) as [->|Hne].
    + rewrite Ho. simpl. rewrite Hk in Ht0. injection Ht0 as ->.
      apply Hlookup. by apply list_lookup_insert_eq.
    + apply Hlookup. by rewrite list_lookup_insert_ne.
Qed.

Lemma for_each_cons {A S : Type} (body : S → A → M S) (x : A) (l : list A)
    (s s' : S) (w w' : World) (t : list Event) :
  body s x w = Some (s', w', t) →
  for_each body (x :: l) s w
  = match for_each body l s' w' with
    | None => None
    | Some (r, w2, t2) => Some (r, w2, t ++ t2)
    end.
Proof. intros Hbody. simpl. unfold M_bind. by rewrite Hbody. Qed.

Lemma create_new_track_eq (objects : list TrackedObject) (tracks : list MlfTrackData)
    (id : nat) (object : TrackedObject) (w : World) :
  objects !! id = Some object →
  create_new_track objects tracks id w
  = Some (tracks ++ [(InitializeTrack MlfTrackData_fresh object w).1],
          (InitializeTrack MlfTrackData_fresh object w).2,
          [CallInitializeTrack MlfTrackData_fresh object]).
Proof.
  intros Ho. unfold create_new_track, mbind, mret, M_MBind, M_MRet, M_bind,
    lift_option, call, M_ret.
  rewrite Ho. by destruct (InitializeTrack MlfTrackData_fresh object w).
Qed.

(** The second loop: every index appends the track that [InitializeTrack]
    makes of a fresh one and of the object at that index. *)
Lemma create_new_track_loop_spec (objects : list TrackedObject) (ids : list nat)
    (tracks : list MlfTrackData) (w : World) :
  Forall (λ id, (id < length objects)%nat) ids →
  for_each (create_new_track objects) ids tracks w
  = Some (tracks ++ (initialize_tracks (objects_at objects ids) w).1,
          (initialize_tracks (objects_at objects ids) w).2,
          map (CallInitializeTrack MlfTrackData_fresh) (objects_at objects ids)).
Proof.
  intros Hvalid. revert tracks w.
  induction Hvalid as [|id ids Hid _ IH]; intros tracks w.
  - simpl. unfold M_ret. by rewrite app_nil_r.
  - destruct (lookup_lt_is_Some_2 objects id Hid) as [o Ho].
    rewrite (for_each_cons _ _ _ _ _ _ _ _ (create_new_track_eq _ tracks _ _ w Ho)).
    rewrite IH.
    unfold objects_at. simpl. rewrite Ho. simpl.
    fold (objects_at objects ids).
    destruct (InitializeTrack MlfTrackData_fresh o w) as [track_data w1]. simpl.
    destruct (initialize_tracks _ w1) as [news w2]. simpl.
    by rewrite <- app_assoc.
Qed.

Lemma initialize_tracks_length (objects : list TrackedObject) (w : World) :
  length (initialize_tracks objects w).1 = length objects.
Proof.
  revert w. induction objects as [|o l IH]; intros w; [done|].
  simpl. destruct (InitializeTrack MlfTrackData_fresh o w) as [t w1].
  specialize (IH w1). destruct (initialize_tracks l w1). simpl in *. by rewrite IH.
Qed.

Lemma TrackObjectMatchAndAssign_run (match_options : MlfTrackObjectMatcherOptions)
    (objects : list TrackedObject) (name : string) (tracks : list MlfTrackData)
    (w : World) :
  indices_in_range (length tracks) (length objects)
    (Match match_options objects tracks w).1 →
  ∃ pushed,
    for_each_option (push_assigned_object objects)
      (assignments (Match match_options objects tracks w).1) tracks = Some pushed
    ∧ TrackObjectMatchAndAssign match_options objects name tracks w
      = Some
          (pushed
           ++ (initialize_tracks
                 (objects_at objects
                    (unassigned_objects (Match match_options objects tracks w).1))
                 (Match match_options objects tracks w).2).1,
           (initialize_tracks
              (objects_at objects
                 (unassigned_objects (Match match_options objects tracks w).1))
              (Match match_options objects tracks w).2).2,
           CallMatch objects tracks
           :: map (CallInitializeTrack MlfTrackData_fresh)
                (objects_at objects
                   (unassigned_objects (Match match_options objects tracks w).1))).
Proof.
  intros [Hpairs Hids].
  destruct (push_assigned_loop_spec objects _ tracks Hpairs) as (pushed & Hpush & _).
  exists pushed. split; [done|].
  unfold TrackObjectMatchAndAssign, mbind, M_MBind.
  unfold M_bind at 1. unfold call at 1.
  destruct (Match match_options objects tracks w) as [result w0]. simpl in *.
  unfold M_bind, lift_option. rewrite Hpush.
  by rewrite create_new_track_loop_spec.
Qed.

(** C7. For a result of the matcher whose indices are indices of the
    tracks and objects it was given, [TrackObjectMatchAndAssign] returns
    the ledger it was given, every track at its index and with the objects
    of its assigned pairs pushed to its cache in the order of the pairs,
    followed by one new track for every unassigned object, in the order of
    [unassigned_objects]: the track that [InitializeTrack] makes of a fresh
    track of the pool and of that object.  The ledger grows by the number
    of unassigned objects. *)
Theorem TrackObjectMatchAndAssign_spec (match_options : MlfTrackObjectMatcherOptions)
    (objects : list TrackedObject) (name : string) (tracks : list MlfTrackData)
    (w : World) :
  indices_in_range (length tracks) (length objects)
    (Match match_options objects tracks w).1 →
  ∃ tracks' w' trace,
    TrackObjectMatchAndAssign match_options objects name tracks w
    = Some (tracks', w', trace)
    ∧ (length tracks'
       = length tracks
         + length (unassigned_objects (Match match_options objects tracks w).1))%nat
    ∧ (∀ k track,
         tracks !! k = Some track →
         tracks' !! k
         = Some (foldl (λ t o, PushTrackedObjectToCache o t) track
                   (objects_assigned_to k
                      (assignments (Match match_options objects tracks w).1) objects)))
    ∧ (length (objects_at objects
                 (unassigned_objects (Match match_options objects tracks w).1))
       = length (unassigned_objects (Match match_options objects tracks w).1))
    ∧ drop (length tracks) tracks'
      = (initialize_tracks
           (objects_at objects
              (unassigned_objects (Match match_options objects tracks w).1))
           (Match match_options objects tracks w).2).1
    ∧ trace
      = CallMatch objects tracks
        :: map (CallInitializeTrack MlfTrackData_fresh)
             (objects_at objects
                (unassigned_objects (Match match_options objects tracks w).1)).
Proof.
  intros Hvalid.
  destruct (TrackObjectMatchAndAssign_run match_options objects name tracks w Hvalid)
    as (pushed & Hpush & Hrun).
  destruct Hvalid as [Hpairs Hids].
  destruct (push_assigned_loop_spec objects _ tracks Hpairs)
    as (pushed' & Hpush' & Hlen & Hlookup).
  rewrite Hpush in Hpush'. injection Hpush' as <-.
  pose proof (initialize_tracks_length
                (objects_at objects
                   (unassigned_objects (Match match_options objects tracks w).1))
                (Match match_options objects tracks w).2) as Hnew.
  rewrite (objects_at_length objects _ Hids) in Hnew.
  eexists _, _, _. split; [exact Hrun|].
  split; [by rewrite length_app, Hlen, Hnew|].
  split.
  { intros k track Hk. rewrite lookup_app_l.
    - by apply Hlookup.
    - rewrite Hlen. by apply lookup_lt_Some in Hk. }
  split; [by apply objects_at_length|].
  split; [|done].
  rewrite <- Hlen. by rewrite drop_app_length.
Qed.

End MatchProofs.


(** ** Proofs: [TrackStateFilter] *)

Section FilterProofs.
Context `{Payloads} `{!DataMethods} `{!MlfTracker}.

Lemma mbind_Some {A B : Type} (f : A → M B) (m : M A) (w w1 : World)
    (a : A) (t1 : list Event) :
  m w = Some (a, w1, t1) →
  (m ≫= f) w
  = match f a w1 with
    | None => None
    | Some (b, w2, t2) => Some (b, w2, t1 ++ t2)
    end.
Proof. intros Hm. unfold mbind, M_MBind, M_bind. by rewrite Hm. Qed.

Lemma update_with_objects_total (objects : list TrackedObject)
    (track_data : MlfTrackData) (w : World) :
  ∃ track_data' w' trace,
    for_each (λ track_data obj,
                call (CallUpdateTrackDataWithObject track_data obj)
                  (UpdateTrackDataWithObject track_data obj))
      objects track_data w
    = Some (track_data', w', trace).
Proof.
  revert track_data w. induction objects as [|o objects IH]; intros track_data w.
  - by eexists _, _, _.
  - destruct (UpdateTrackDataWithObject track_data o w) as [t1 w1] eqn:Hupd.
    erewrite for_each_cons; last first.
    { unfold call. by rewrite Hupd. }
    destruct (IH t1 w1) as (t2 & w2 & trace & ->). by eexists _, _, _.
Qed.

Lemma filter_one_track_total (frame_timestamp : float)
    (st : list MlfTrackData * list TrackedObject) (track_data : MlfTrackData)
    (w : World) :
  ∃ track_data' objects w' trace,
    filter_one_track frame_timestamp st track_data w
    = Some ((st.1 ++ [track_data'], objects), w', trace).
Proof.
  unfold filter_one_track.
  erewrite mbind_Some; last by unfold record.
  destruct (GetAndCleanCachedObjectsInTimeInterval st.2 track_data) as [t0 objects].
  destruct (update_with_objects_total objects t0 w) as (t1 & w1 & tr1 & Hupd).
  rewrite (mbind_Some _ _ _ _ _ _ Hupd).
  destruct (decide (objects = [])) as [Hempty|Hsome].
  - destruct (UpdateTrackDataWithoutObject frame_timestamp t1 w1) as [t2 w2] eqn:Hwo.
    erewrite mbind_Some; last first.
    { unfold call. by rewrite Hwo. }
    by eexists _, _, _, _.
  - erewrite mbind_Some; last done.
    by eexists _, _, _, _.
Qed.

Lemma TrackStateFilter_total (tracks : list MlfTrackData) (frame_timestamp : float)
    (w : World) :
  ∃ tracks' w' trace,
    TrackStateFilter tracks frame_timestamp w = Some (tracks', w', trace)
    ∧ length tracks' = length tracks.
Proof.
  unfold TrackStateFilter.
  assert (∀ st w, ∃ st' w' trace,
            for_each (filter_one_track frame_timestamp) tracks st w
            = Some (st', w', trace)
            ∧ length st'.1 = (length st.1 + length tracks)%nat) as Hloop.
  { induction tracks as [|track tracks IH]; intros st w0.
    - eexists _, _, _. split; [done|]. simpl. lia.
    - destruct (filter_one_track_total frame_timestamp st track w0)
        as (t1 & objects & w1 & tr1 & Hone).
      rewrite (for_each_cons _ _ _ _ _ _ _ _ Hone).
      destruct (IH (st.1 ++ [t1], objects) w1) as (st' & w' & tr & -> & Hlen).
      eexists _, _, _. split; [done|].
      rewrite Hlen. simpl. rewrite length_app. simpl. lia. }
  destruct (Hloop ([], []) w) as (st' & w' & tr & Hrun & Hlen).
  rewrite (mbind_Some _ _ _ _ _ _ Hrun).
  eexists _, _, _. split; [done|]. by rewrite Hlen.
Qed.

End FilterProofs.


(** ** Proofs: [Track] *)

Section TrackProofs.
Context `{Payloads} `{!DataMethods} `{!MlfTrackObjectMatcher} `{!MlfTracker} `{!Services}.

Lemma NoDup_bounded_length (n : nat) (l : list nat) :
  NoDup l → Forall (λ i, (i < n)%nat) l → (length l ≤ n)%nat.
Proof.
  intros Hnd Hlt. rewrite <- (length_seq n 0).
  apply NoDup_incl_length; [by apply NoDup_ListNoDup|].
  intros i Hi. apply in_seq. rewrite Forall_forall in Hlt.
  apply list_elem_of_In, Hlt in Hi. lia.
Qed.

Lemma TrackObjectMatchAndAssign_total (match_options : MlfTrackObjectMatcherOptions)
    (objects : list TrackedObject) (name : string) (tracks : list MlfTrackData)
    (w : World) :
  matcher_is_valid →
  ∃ tracks' w' trace,
    TrackObjectMatchAndAssign match_options objects name tracks w
    = Some (tracks', w', trace)
    ∧ (length tracks' ≤ length tracks + length objects)%nat
    ∧ Forall (λ e, ¬ is_filter_or_collect_call e) trace.
Proof.
  intros Hvalid.
  destruct (Hvalid match_options objects tracks w) as [Hrange Hnodup].
  destruct (TrackObjectMatchAndAssign_run match_options objects name tracks w Hrange)
    as (pushed & Hpush & Hrun).
  destruct (push_assigned_loop_spec objects _ tracks (proj1 Hrange))
    as (pushed' & Hpush' & Hlen & _).
  rewrite Hpush in Hpush'. injection Hpush' as <-.
  eexists _, _, _. split; [exact Hrun|]. split.
  - rewrite length_app, Hlen, initialize_tracks_length.
    rewrite (objects_at_length objects _ (proj2 Hrange)).
    apply Nat.add_le_mono_l.
    apply NoDup_bounded_length; [done|]. apply Hrange.
  - constructor; [by intros []|].
    apply Forall_map, Forall_true. by intros o [].
Qed.

Lemma SplitAndTransform_trace (this : MlfEngine) (sensor_info : SensorInfo)
    (objects : list Object) :
  Forall (λ e, ¬ is_filter_or_collect_call e)
    (concat
       (map (λ d, (transform_tracked_object this sensor_info d TrackedObject_fresh).2)
          objects)).
Proof.
  induction objects as [|d l IH]; simpl; [constructor|].
  apply Forall_app. split; [|done].
  unfold transform_tracked_object.
  destruct (negb (is_background d) && use_histogram_for_match_ this); simpl.
  - constructor; [by intros []|constructor].
  - constructor.
Qed.

Lemma add_global_offset_to_pose_tracks (this : MlfEngine) (frame : LidarFrame) :
  foreground_track_data_ (add_global_offset_to_pose this frame)
    = foreground_track_data_ this
  ∧ background_track_data_ (add_global_offset_to_pose this frame)
    = background_track_data_ this
  ∧ reserved_invisible_time_ (add_global_offset_to_pose this frame)
    = reserved_invisible_time_ this
  ∧ set_static_outside_hdmap_ (add_global_offset_to_pose this frame)
    = set_static_outside_hdmap_ this.
Proof.
  unfold add_global_offset_to_pose.
  by destruct (vector_empty (foreground_track_data_ this)
               && vector_empty (background_track_data_ this)).
Qed.

Lemma add_global_offset_to_pose_offset (this : MlfEngine) (frame : LidarFrame) :
  global_to_local_offset_ (add_global_offset_to_pose this frame)
  = if vector_empty (foreground_track_data_ this)
       && vector_empty (background_track_data_ this)
    then Vector3d_opp (translation (lidar2world_pose frame))
    else global_to_local_offset_ this.
Proof.
  unfold add_global_offset_to_pose.
  by destruct (vector_empty (foreground_track_data_ this)
               && vector_empty (background_track_data_ this)).
Qed.

Lemma use_frame_timestamp_fields (this : MlfEngine) (frame : LidarFrame) :
  timestamp (use_frame_timestamp this frame) = timestamp frame
  ∧ sensor_info (use_frame_timestamp this frame) = sensor_info frame
  ∧ lidar2world_pose (use_frame_timestamp this frame) = lidar2world_pose frame
  ∧ hdmap_struct (use_frame_timestamp this frame) = hdmap_struct frame
  ∧ length (segmented_objects (use_frame_timestamp this frame))
    = length (segmented_objects frame).
Proof.
  unfold use_frame_timestamp. destruct (use_frame_timestamp_ this); simpl;
    by rewrite ?length_map.
Qed.

Lemma Track_until_stale_removed_run (this : MlfEngine)
    (options : MultiTargetTrackerOptions) (frame : LidarFrame) (w : World) :
  matcher_is_valid →
  (IsMainSensor (name (sensor_info frame)) = true →
   Z.of_nat (length (foreground_track_data_ this) + length (background_track_data_ this)
             + length (segmented_objects frame)) < SizeT.modulus) →
  ∃ this2 trace0 fg1 w1 trace1 bg1 w2 trace2 objects fg3 bg3 w3 trace,
    SplitAndTransformToTrackedObjects
      (add_global_offset_to_pose this (use_frame_timestamp this frame))
      (segmented_objects (use_frame_timestamp this frame)) (sensor_info frame)
    = Some (this2, trace0)
    ∧ this2
      = set_tracked_object_lists (foreground_objects_ this2) (background_objects_ this2)
          (add_global_offset_to_pose this (use_frame_timestamp this frame))
    ∧ TrackObjectMatchAndAssign mkMlfTrackObjectMatcherOptions
        (foreground_objects_ this2) "foreground" (foreground_track_data_ this) w
      = Some (fg1, w1, trace1)
    ∧ TrackObjectMatchAndAssign mkMlfTrackObjectMatcherOptions
        (background_objects_ this2) "background" (background_track_data_ this) w1
      = Some (bg1, w2, trace2)
    ∧ Forall (λ e, ¬ is_filter_or_collect_call e) (trace0 ++ trace1 ++ trace2)
    ∧ Track_until_stale_removed this options frame w
      = Some ((set_tracked_objects objects (use_frame_timestamp this frame),
               set_background_track_data_ bg3 (set_foreground_track_data_ fg3 this2)),
              w3, trace)
    ∧ (IsMainSensor (name (sensor_info frame)) = false →
       objects = []
       ∧ fg3 = List.filter (is_alive this (timestamp frame)) fg1
       ∧ bg3 = List.filter (is_alive this (timestamp frame)) bg1
       ∧ w3 = w2
       ∧ trace = trace0 ++ trace1 ++ trace2).
Proof.
  intros Hvalid Hmax.
  destruct (use_frame_timestamp_fields this frame) as (Hts & Hinfo & Hpose & Hroi & Hseg).
  unfold Track_until_stale_removed. cbv zeta.
  set (frame0 := use_frame_timestamp this frame) in *.
  destruct (add_global_offset_to_pose_tracks this frame0) as (Hfg1 & Hbg1 & Hres1 & _).
  set (this1 := add_global_offset_to_pose this frame0) in *.
  pose proof (SplitAndTransform_run this1 (segmented_objects frame0) (sensor_info frame0))
    as Hsplit.
  pose proof (filter_partition_length is_background (segmented_objects frame0)) as Hpart.
  rewrite <- !(length_map
                (λ d, (transform_tracked_object this1 (sensor_info frame0) d
                         TrackedObject_fresh).1)) in Hpart.
  set (fgo := map _ (List.filter (λ d, negb (is_background d)) _)) in *.
  set (bgo := map _ (List.filter is_background _)) in *.
  set (trace0 := concat _) in Hsplit.
  assert (Forall (λ e, ¬ is_filter_or_collect_call e) trace0) as Hev0
    by apply SplitAndTransform_trace.
  set (this2 := set_tracked_object_lists fgo bgo this1) in *.
  erewrite mbind_Some; last first.
  { unfold lift_logged. by rewrite Hsplit. }
  cbv beta.
  destruct (TrackObjectMatchAndAssign_total mkMlfTrackObjectMatcherOptions
              (foreground_objects_ this2) "foreground" (foreground_track_data_ this2)
              w Hvalid) as (fg1 & w1 & trace1 & Hrun1 & Hlen1 & Hev1).
  rewrite (mbind_Some _ _ _ _ _ _ Hrun1). cbv beta.
  destruct (TrackObjectMatchAndAssign_total mkMlfTrackObjectMatcherOptions
              (background_objects_ (set_foreground_track_data_ fg1 this2)) "background"
              (background_track_data_ (set_foreground_track_data_ fg1 this2))
              w1 Hvalid) as (bg1 & w2 & trace2 & Hrun2 & Hlen2 & Hev2).
  rewrite (mbind_Some _ _ _ _ _ _ Hrun2). cbv beta.
  assert (length fg1 ≤ length (foreground_track_data_ this) + length fgo)%nat as Hlen1'
    by (rewrite <- Hfg1; exact Hlen1).
  assert (length bg1 ≤ length (background_track_data_ this) + length bgo)%nat as Hlen2'
    by (rewrite <- Hbg1; exact Hlen2).
  rewrite length_map in Hpart.
  exists this2, trace0, fg1, w1, trace1, bg1, w2, trace2.
  assert (∀ this' name timestamp' tracks,
            reserved_invisible_time_ this' = reserved_invisible_time_ this →
            timestamp' = timestamp frame →
            RemoveStaleTrackData this' name timestamp' tracks
            = Some (List.filter (is_alive this (timestamp frame)) tracks)) as Hstale.
  { intros this' name' timestamp' tracks Hres ->. rewrite RemoveStaleTrackData_run.
    unfold is_alive. by rewrite Hres. }
  rewrite Hinfo, Hts.
  unfold mbind, M_MBind, M_bind, mret, M_MRet, M_ret, lift_logged, lift_option.
  destruct (IsMainSensor (name (sensor_info frame))) eqn:Hmain.
  - destruct (TrackStateFilter_total
                (foreground_track_data_
                   (set_background_track_data_ bg1 (set_foreground_track_data_ fg1 this2)))
                (timestamp frame) w2) as (fg2 & w3 & trace3 & Hrun3 & Hlen3).
    rewrite Hrun3. cbv beta iota.
    destruct (TrackStateFilter_total
                (background_track_data_
                   (set_foreground_track_data_ fg2
                      (set_background_track_data_ bg1
                         (set_foreground_track_data_ fg1 this2))))
                (timestamp frame) w3) as (bg2 & w4 & trace4 & Hrun4 & Hlen4).
    rewrite Hrun4. cbv beta iota.
    simpl in Hlen3, Hlen4.
    destruct (CollectTrackedResult_spec
                (set_background_track_data_ bg2
                   (set_foreground_track_data_ fg2
                      (set_background_track_data_ bg1
                         (set_foreground_track_data_ fg1 this2))))
                (set_tracked_objects [] frame0))
      as (objects & trace5 & Hrun5 & _).
    { specialize (Hmax eq_refl). simpl. lia. }
    rewrite Hrun5. cbv beta iota.
    rewrite Hstale; [|exact Hres1|exact Hts]. cbv beta iota.
    rewrite Hstale; [|exact Hres1|exact Hts]. cbv beta iota.
    exists objects, (List.filter (is_alive this (timestamp frame)) fg2),
      (List.filter (is_alive this (timestamp frame)) bg2).
    eexists _, _. split; [by rewrite <- Hinfo|]. split; [done|].
    split; [by rewrite <- Hfg1|]. split; [by rewrite <- Hbg1|].
    split; [by repeat apply Forall_app_2|].
    split; [done|]. done.
  - cbv beta iota.
    rewrite Hstale; [|exact Hres1|exact Hts]. cbv beta iota.
    rewrite Hstale; [|exact Hres1|exact Hts]. cbv beta iota.
    exists [], (List.filter (is_alive this (timestamp frame)) fg1),
      (List.filter (is_alive this (timestamp frame)) bg1).
    eexists _, _. split; [by rewrite <- Hinfo|]. split; [done|].
    split; [by rewrite <- Hfg1|]. split; [by rewrite <- Hbg1|].
    split; [by repeat apply Forall_app_2|].
    split; [done|]. intros _. simpl. by rewrite !app_nil_r.
Qed.

Lemma Track_unfold (this : MlfEngine) (options : MultiTargetTrackerOptions)
    (frame : LidarFrame) (w : World) :
  Track this options frame w
  = match Track_until_stale_removed this options frame w with
    | None => None
    | Some ((frame1, this1), w1, trace) =>
        Some ((true, (set_static_outside_hdmap this1 frame1).2, this1), w1, trace)
    end.
Proof.
  unfold Track, mbind, M_MBind, M_bind.
  destruct (Track_until_stale_removed this options frame w)
    as [[[[frame1 this1] w1] trace]|]; [|done].
  assert ((set_static_outside_hdmap this1 frame1).1 = true) as Htrue.
  { unfold set_static_outside_hdmap.
    destruct (negb _); [done|]. destruct (hdmap_struct frame1) as [roi|]; [|done].
    by destruct (_ && _). }
  destruct (set_static_outside_hdmap this1 frame1) as [result frame2].
  simpl in *. subst result. unfold mret, M_MRet, M_ret. by rewrite app_nil_r.
Qed.

(** C1. A call of [Track] on an engine whose two ledgers are empty sets
    [global_to_local_offset_] to the negated translation of the frame's
    pose; a call on an engine with a track in either ledger leaves
    [global_to_local_offset_] as it was, whatever the pose. *)
Theorem Track_sets_offset_only_without_tracks (this : MlfEngine)
    (options : MultiTargetTrackerOptions) (frame : LidarFrame) (w : World) :
  matcher_is_valid →
  sizes_fit this frame →
  ∃ result frame' this' w' trace,
    Track this options frame w = Some ((result, frame', this'), w', trace)
    ∧ (foreground_track_data_ this = [] → background_track_data_ this = [] →
       global_to_local_offset_ this'
       = Vector3d_opp (translation (lidar2world_pose frame)))
    ∧ (foreground_track_data_ this ≠ [] ∨ background_track_data_ this ≠ [] →
       global_to_local_offset_ this' = global_to_local_offset_ this).
Proof.
  intros Hvalid Hfit.
  destruct (Track_until_stale_removed_run this options frame w Hvalid (λ _, Hfit))
    as (this2 & trace0 & fg1 & w1 & trace1 & bg1 & w2 & trace2 & objects & fg3 & bg3
        & w3 & trace & _ & Hthis2 & _ & _ & _ & Hrun & _).
  rewrite Track_unfold, Hrun.
  eexists _, _, _, _, _. split; [done|].
  assert (global_to_local_offset_
            (set_background_track_data_ bg3 (set_foreground_track_data_ fg3 this2))
          = global_to_local_offset_
              (add_global_offset_to_pose this (use_frame_timestamp this frame))) as ->
    by (by rewrite Hthis2).
  rewrite add_global_offset_to_pose_offset.
  destruct (use_frame_timestamp_fields this frame) as (_ & _ & -> & _).
  split.
  - by intros -> ->.
  - intros [Hne|Hne].
    + by destruct (foreground_track_data_ this).
    + destruct (background_track_data_ this); [done|].
      by rewrite andb_false_r.
Qed.

(** C5. On a frame of a sensor that is not the main sensor, [Track]
    calls neither [UpdateTrackDataWithObject] nor
    [UpdateTrackDataWithoutObject] nor [ToObject], and it does not call
    [GetAndCleanCachedObjectsInTimeInterval], which is what empties a
    cache: its calls are those of the split and of the two assignments.
    The tracks of the ledgers it leaves are tracks that the two calls of
    [TrackObjectMatchAndAssign] returned, each as the assignment left it,
    its cache included (step 6 still runs and takes the stale ones out);
    the state of the tracker is the one after the assignment; and the
    frame's [tracked_objects] is empty. *)
Theorem Track_of_secondary_sensor (this : MlfEngine)
    (options : MultiTargetTrackerOptions) (frame : LidarFrame) (w : World) :
  matcher_is_valid →
  IsMainSensor (name (sensor_info frame)) = false →
  ∃ this2 trace0 fg1 w1 trace1 bg1 trace2 result frame' this' w' trace,
    SplitAndTransformToTrackedObjects
      (add_global_offset_to_pose this (use_frame_timestamp this frame))
      (segmented_objects (use_frame_timestamp this frame)) (sensor_info frame)
    = Some (this2, trace0)
    ∧ TrackObjectMatchAndAssign mkMlfTrackObjectMatcherOptions
        (foreground_objects_ this2) "foreground" (foreground_track_data_ this) w
      = Some (fg1, w1, trace1)
    ∧ TrackObjectMatchAndAssign mkMlfTrackObjectMatcherOptions
        (background_objects_ this2) "background" (background_track_data_ this) w1
      = Some (bg1, w', trace2)
    ∧ Track this options frame w = Some ((result, frame', this'), w', trace)
    ∧ result = true
    ∧ tracked_objects frame' = []
    ∧ foreground_track_data_ this' = List.filter (is_alive this (timestamp frame)) fg1
    ∧ background_track_data_ this' = List.filter (is_alive this (timestamp frame)) bg1
    ∧ trace = trace0 ++ trace1 ++ trace2
    ∧ Forall (λ e, ¬ is_filter_or_collect_call e) trace.
Proof.
  intros Hvalid Hmain.
  destruct (Track_until_stale_removed_run this options frame w Hvalid)
    as (this2 & trace0 & fg1 & w1 & trace1 & bg1 & w2 & trace2 & objects & fg3 & bg3
        & w3 & trace & Hsplit & Hthis2 & Hfg & Hbg & Hev & Hrun & Hsecondary).
  { intros Hmain'. by rewrite Hmain in Hmain'. }
  destruct (Hsecondary Hmain) as (-> & -> & -> & -> & ->).
  exists this2, trace0, fg1, w1, trace1, bg1, trace2.
  rewrite Track_unfold, Hrun.
  eexists _, _, _, _, _.
  split; [done|]. split; [done|]. split; [done|]. split; [done|]. split; [done|].
  split; [|by repeat split].
  unfold set_static_outside_hdmap. simpl.
  destruct (negb _); [done|].
  destruct (hdmap_struct _) as [roi|]; [|done].
  by destruct (_ && _).
Qed.

(** C6. When [set_static_outside_hdmap_] is set and the frame has a map
    structure with a road polygon, a junction polygon or a boundary
    element, [Track] publishes the objects that steps 0 to 6 left in the
    frame, each at its index: an object that [IsObjectInRoi] accepts as
    it is, and any other with [velocity] and [acceleration] set to zero
    and its other fields as they were.  So a published object that
    [IsObjectInRoi] rejects has both at zero, and, [IsObjectInRoi] not
    looking at the two fields, a published object that it accepts is the
    object that steps 0 to 6 left.  When the option is off, the map
    structure is null, or its three vectors are empty, the frame is
    returned as steps 0 to 6 left it. *)
Theorem Track_sets_static_outside_hdmap (this : MlfEngine)
    (options : MultiTargetTrackerOptions) (frame : LidarFrame) (w : World) :
  matcher_is_valid →
  sizes_fit this frame →
  ∃ frame1 result frame' this' w' trace,
    Track_until_stale_removed this options frame w = Some ((frame1, this'), w', trace)
    ∧ Track this options frame w = Some ((result, frame', this'), w', trace)
    ∧ (∀ roi,
         hdmap_policy_applies this frame roi →
         length (tracked_objects frame') = length (tracked_objects frame1)
         ∧ (∀ i obj,
              tracked_objects frame1 !! i = Some obj →
              ∃ obj',
                tracked_objects frame' !! i = Some obj'
                ∧ (IsObjectInRoi roi obj = true → obj' = obj)
                ∧ (IsObjectInRoi roi obj = false →
                   velocity obj' = Vector3f_Zero
                   ∧ acceleration obj' = Vector3f_Zero
                   ∧ latest_tracked_time obj' = latest_tracked_time obj
                   ∧ is_background obj' = is_background obj
                   ∧ object_rest obj' = object_rest obj))
         ∧ (∀ obj',
              obj' ∈ tracked_objects frame' → IsObjectInRoi roi obj' = false →
              velocity obj' = Vector3f_Zero ∧ acceleration obj' = Vector3f_Zero)
         ∧ ((∀ obj, IsObjectInRoi roi
                      (set_acceleration Vector3f_Zero (set_velocity Vector3f_Zero obj))
                    = IsObjectInRoi roi obj) →
            ∀ i obj',
              tracked_objects frame' !! i = Some obj' → IsObjectInRoi roi obj' = true →
              tracked_objects frame1 !! i = Some obj'))
    ∧ ((set_static_outside_hdmap_ this = false
        ∨ hdmap_struct frame = None
        ∨ ∃ roi, hdmap_struct frame = Some roi
                 ∧ road_polygons roi = [] ∧ junction_polygons roi = []
                 ∧ road_boundary roi = []) →
       frame' = frame1).
Proof.
  intros Hvalid Hfit.
  destruct (Track_until_stale_removed_run this options frame w Hvalid (λ _, Hfit))
    as (this2 & trace0 & fg1 & w1 & trace1 & bg1 & w2 & trace2 & objects & fg3 & bg3
        & w3 & trace & _ & Hthis2 & _ & _ & _ & Hrun & _).
  rewrite Track_unfold, Hrun.
  eexists _, _, _, _, _, _. split; [done|]. split; [done|].
  destruct (use_frame_timestamp_fields this frame) as (_ & _ & _ & Hroi & _).
  destruct (add_global_offset_to_pose_tracks this (use_frame_timestamp this frame))
    as (_ & _ & _ & Hflag).
  assert (set_static_outside_hdmap_
            (set_background_track_data_ bg3 (set_foreground_track_data_ fg3 this2))
          = set_static_outside_hdmap_ this) as Hflag'
    by (by rewrite Hthis2).
  unfold set_static_outside_hdmap. rewrite Hflag'. simpl hdmap_struct. rewrite Hroi.
  split.
  - intros roi (-> & -> & Hnonempty). simpl negb. cbv iota.
    assert (vector_empty (road_polygons roi) && vector_empty (junction_polygons roi)
            && vector_empty (road_boundary roi) = false) as ->.
    { destruct Hnonempty as [Hne|[Hne|Hne]].
      - by destruct (road_polygons roi).
      - destruct (junction_polygons roi); [done|]. by rewrite andb_false_r.
      - destruct (road_boundary roi); [done|]. by rewrite andb_false_r. }
    simpl. split; [by rewrite length_map|]. split.
    + intros i obj Hobj. exists (set_static_if_outside roi obj).
      split; [by rewrite list_lookup_fmap, Hobj|].
      unfold set_static_if_outside. split; by intros ->.
    + split.
      * intros obj' Hin Hout.
        apply list_elem_of_fmap in Hin as (obj & -> & _).
        unfold set_static_if_outside in *.
        destruct (IsObjectInRoi roi obj) eqn:Hobj; [congruence|done].
      * intros Hmotion i obj' Hobj' Hin.
        rewrite list_lookup_fmap in Hobj'.
        destruct (objects !! i) as [obj|] eqn:Hobj; [|done].
        simpl in Hobj'. injection Hobj' as <-. f_equal.
        unfold set_static_if_outside in *.
        destruct (IsObjectInRoi roi obj) eqn:Hroi'; [done|].
        rewrite Hmotion in Hin. congruence.
  - intros [->|[->|(roi & -> & -> & -> & ->)]]; simpl; try done;
      by destruct (negb _).
Qed.

End TrackProofs.


(** ** Further properties: [RemoveStaleTrackData] *)

Section StaleRemovalProperties.
Context `{Payloads}.

Lemma filter_filter_same {A : Type} (f : A → bool) (l : list A) :
  List.filter f (List.filter f l) = List.filter f l.
Proof.
  induction l as [|x l IH]; [done|]. simpl.
  destruct (f x) eqn:Hx; [|done]. simpl. by rewrite Hx, IH.
Qed.

(** X1. [RemoveStaleTrackData] is idempotent: a second call with the same
    timestamp on the ledger that the first call left removes nothing.
    It never returns more tracks than it was given, and it decides
    track by track: on two ledgers laid end to end it keeps what it
    keeps of the first, followed by what it keeps of the second. *)
Theorem RemoveStaleTrackData_idempotent (this : MlfEngine) (name : string)
    (timestamp : float) (tracks more : list MlfTrackData) :
  ∃ kept kept_more,
    RemoveStaleTrackData this name timestamp tracks = Some kept
    ∧ RemoveStaleTrackData this name timestamp kept = Some kept
    ∧ (length kept ≤ length tracks)%nat
    ∧ RemoveStaleTrackData this name timestamp more = Some kept_more
    ∧ RemoveStaleTrackData this name timestamp (tracks ++ more)
      = Some (kept ++ kept_more).
Proof.
  eexists _, _. rewrite !RemoveStaleTrackData_run.
  split; [done|]. split; [by rewrite filter_filter_same|].
  split; [apply List.filter_length_le|]. split; [done|].
  by rewrite List.filter_app.
Qed.

Lemma Prim2SF_nan (x : float) :
  is_nan x = true → FloatOps.Prim2SF x = SpecFloat.S754_nan.
Proof. intros Hx. unfold FloatOps.Prim2SF. by rewrite Hx. Qed.

Lemma leb_nan_l (x y : float) : is_nan x = true → (x <=? y)%float = false.
Proof.
  intros Hx. rewrite FloatAxioms.leb_spec, (Prim2SF_nan x Hx). done.
Qed.

Lemma leb_nan_r (x y : float) : is_nan y = true → (x <=? y)%float = false.
Proof.
  intros Hy. rewrite FloatAxioms.leb_spec, (Prim2SF_nan y Hy).
  by destruct (FloatOps.Prim2SF x) as [[]|[]| |[]].
Qed.

Lemma add_nan (x y : float) :
  is_nan x = true ∨ is_nan y = true → is_nan (x + y)%float = true.
Proof.
  intros Hxy.
  assert (FloatOps.Prim2SF (x + y) = SpecFloat.S754_nan) as Hsum.
  { rewrite FloatAxioms.add_spec. destruct Hxy as [Hx|Hy].
    - by rewrite (Prim2SF_nan x Hx).
    - rewrite (Prim2SF_nan y Hy). by destruct (FloatOps.Prim2SF x). }
  destruct (is_nan (x + y)) eqn:Hnan; [done|].
  rewrite <- (FloatAxioms.SF2Prim_Prim2SF (x + y)), Hsum in Hnan.
  by vm_compute in Hnan.
Qed.

Lemma is_alive_nan (this : MlfEngine) (timestamp : float) (track : MlfTrackData) :
  is_nan timestamp = true
  ∨ is_nan (latest_visible_time_ track) = true
  ∨ is_nan (reserved_invisible_time_ this) = true →
  is_alive this timestamp track = false.
Proof.
  unfold is_alive. intros [Hts|Hsum]; [by apply leb_nan_l|].
  apply leb_nan_r, add_nan. tauto.
Qed.

(** X2. A comparison with a NaN is false, so [RemoveStaleTrackData] keeps
    no track when the timestamp or [reserved_invisible_time_] is a NaN,
    and at any timestamp it removes a track whose
    [latest_visible_time_] is a NaN. *)
Theorem RemoveStaleTrackData_nan (this : MlfEngine) (name : string)
    (timestamp : float) (tracks : list MlfTrackData) :
  ∃ kept,
    RemoveStaleTrackData this name timestamp tracks = Some kept
    ∧ (is_nan timestamp = true ∨ is_nan (reserved_invisible_time_ this) = true →
       kept = [])
    ∧ Forall (λ track, is_nan (latest_visible_time_ track) = false) kept.
Proof.
  eexists. split; [apply RemoveStaleTrackData_run|]. split.
  - intros Hnan. induction tracks as [|track tracks IH]; [done|]. simpl.
    rewrite is_alive_nan; [done|]. tauto.
  - apply Forall_forall. intros track Hin.
    apply list_elem_of_In, filter_In in Hin as [_ Halive].
    destruct (is_nan (latest_visible_time_ track)) eqn:Hnan; [|done].
    rewrite is_alive_nan in Halive; [done|]. tauto.
Qed.

End StaleRemovalProperties.

(** ** Further properties: [SplitAndTransformToTrackedObjects] *)

Section SplitProperties.
Context `{Payloads} `{!DataMethods}.

(** X3. [SplitAndTransformToTrackedObjects] builds its two vectors anew:
    what [foreground_objects_] and [background_objects_] held before the
    call has no part in the result.  It writes no other field of the
    engine, and on a frame without detections it leaves both vectors
    empty and calls nothing. *)
Theorem SplitAndTransform_rebuilds_vectors (this : MlfEngine)
    (fg bg : list TrackedObject) (objects : list Object) (sensor_info : SensorInfo) :
  ∃ this' trace,
    SplitAndTransformToTrackedObjects this objects sensor_info = Some (this', trace)
    ∧ SplitAndTransformToTrackedObjects (set_tracked_object_lists fg bg this)
        objects sensor_info
      = Some (this', trace)
    ∧ this'
      = set_tracked_object_lists (foreground_objects_ this') (background_objects_ this')
          this
    ∧ (objects = [] →
       foreground_objects_ this' = [] ∧ background_objects_ this' = [] ∧ trace = []).
Proof.
  eexists _, _. rewrite !SplitAndTransform_run.
  split; [done|]. split; [done|]. split; [done|].
  by intros ->.
Qed.

End SplitProperties.

(** ** Further properties: [CollectTrackedResult] *)

Section CollectProperties.
Context `{Payloads} `{!DataMethods}.

Lemma filter_none {A : Type} (f : A → bool) (l : list A) :
  (∀ x, f x = false) → List.filter f l = [].
Proof. intros Hf. induction l as [|x l IH]; [done|]. simpl. by rewrite Hf. Qed.

Lemma filter_all {A : Type} (f : A → bool) (l : list A) :
  (∀ x, f x = true) → List.filter f l = l.
Proof. intros Hf. induction l as [|x l IH]; [done|]. simpl. by rewrite Hf, IH. Qed.

(** X5. Whatever [ToObject] returns, [CollectTrackedResult] leaves in the
    frame one object for every track that it does not skip, a track
    whose [ToObject] failed included; it calls [ToObject] on these
    tracks in the order foreground, background; it writes no field of
    the frame but [tracked_objects], and what [tracked_objects] held
    before has no part in the result.  With [output_predict_objects_]
    set no track is skipped: every track of both ledgers is converted. *)
Theorem CollectTrackedResult_one_object_per_kept_track (this : MlfEngine)
    (frame : LidarFrame) (previous : list Object) :
  Z.of_nat (length (foreground_track_data_ this) + length (background_track_data_ this))
    < SizeT.modulus →
  ∃ objects trace,
    CollectTrackedResult this frame = Some (set_tracked_objects objects frame, trace)
    ∧ CollectTrackedResult this (set_tracked_objects previous frame)
      = Some (set_tracked_objects objects frame, trace)
    ∧ (length objects
       + length (List.filter (is_skipped this)
                   (foreground_track_data_ this ++ background_track_data_ this))
       = length (foreground_track_data_ this) + length (background_track_data_ this))%nat
    ∧ to_object_calls trace
      = List.filter (λ t, negb (is_skipped this t))
          (foreground_track_data_ this ++ background_track_data_ this)
    ∧ (output_predict_objects_ this = true →
       (length objects
        = length (foreground_track_data_ this) + length (background_track_data_ this))%nat
       ∧ to_object_calls trace
         = foreground_track_data_ this ++ background_track_data_ this).
Proof.
  intros Hmax.
  destruct (CollectTrackedResult_spec this frame Hmax)
    as (objects & trace & Hrun & Hlen & _ & Hcalls).
  destruct (CollectTrackedResult_spec this (set_tracked_objects previous frame) Hmax)
    as (objects' & trace' & Hrun' & _).
  exists objects, trace. split; [done|]. split.
  { unfold CollectTrackedResult in *.
    change (collect_all_tracks this (set_tracked_objects previous frame))
      with (collect_all_tracks this frame).
    destruct (collect_all_tracks this frame) as [[num_objects st]|]; [|done].
    simpl in *.
    destruct (shrink_tracked_objects _ _ _) as [[objects0 events]|]; [|done].
    simpl in *. by injection Hrun as <- <-. }
  split; [done|]. split; [done|].
  intros Hout.
  assert (∀ t, is_skipped this t = false) as Hskip
    by (intros t; unfold is_skipped; by rewrite Hout).
  rewrite (filter_none _ _ Hskip) in Hlen. rewrite Hcalls.
  split; [rewrite <- Hlen; simpl; lia|].
  apply filter_all. intros t. by rewrite Hskip.
Qed.

(** One run of the lambda when every [ToObject] succeeds: the converted
    objects fill the buffer from the left. *)
Lemma collect_loop_all_succeed (this : MlfEngine) (timestamp : float)
    (tracks : list MlfTrackData) (filled : list Object) (room : nat)
    (num_predict : SizeT.t) (trace : list Event) :
  (∀ t, t ∈ tracks → is_skipped this t = false →
        (ToObject (Vector3d_opp (global_to_local_offset_ this)) timestamp
           Object_fresh t).1 = true) →
  0 ≤ num_predict →
  num_predict + Z.of_nat (length tracks) ≤ Z.of_nat room →
  Z.of_nat (length filled + room) < SizeT.modulus →
  for_each_option (collect_track this timestamp) tracks
    {| collect_objects := filled ++ replicate room Object_fresh;
       collect_pos := Z.of_nat (length filled);
       collect_num_predict := num_predict;
       collect_trace := trace |}
  = Some
      {| collect_objects :=
           (filled
            ++ map (λ t, (ToObject (Vector3d_opp (global_to_local_offset_ this))
                            timestamp Object_fresh t).2)
                 (List.filter (λ t, negb (is_skipped this t)) tracks))
           ++ replicate
                (room - length (List.filter (λ t, negb (is_skipped this t)) tracks))
                Object_fresh;
         collect_pos :=
           Z.of_nat (length filled
                     + length (List.filter (λ t, negb (is_skipped this t)) tracks));
         collect_num_predict :=
           num_predict + Z.of_nat (length (List.filter (is_skipped this) tracks));
         collect_trace :=
           trace ++ map CallToObject
                      (List.filter (λ t, negb (is_skipped this t)) tracks) |}.
Proof.
  revert filled room num_predict trace.
  induction tracks as [|track tracks IH]; intros filled room num_predict trace
    Hsucc Hnp Hroom Hmax.
  - simpl. rewrite !app_nil_r, Nat.sub_0_r, Nat.add_0_r, Z.add_0_r. done.
  - simpl in Hroom.
    assert (∀ t, t ∈ tracks → is_skipped this t = false →
              (ToObject (Vector3d_opp (global_to_local_offset_ this)) timestamp
                 Object_fresh t).1 = true) as Hsucc'
      by (intros t Ht; apply Hsucc; by right).
    destruct (is_skipped this track) eqn:Hskip.
    + erewrite for_each_option_cons; last by apply collect_track_skipped.
      simpl. rewrite SizeT_succ_small by lia.
      rewrite IH by (try done; lia).
      simpl. rewrite Hskip. simpl. do 2 f_equal. lia.
    + assert ((filled ++ replicate room Object_fresh) !! length filled
              = Some Object_fresh) as Hlookup.
      { rewrite lookup_app_r, Nat.sub_diag by lia.
        apply lookup_replicate_2. lia. }
      erewrite for_each_option_cons; last first.
      { apply (collect_track_to_object _ _ _ _ Object_fresh); [done|].
        simpl. unfold SizeT.to_index. by rewrite Nat2Z.id. }
      simpl. rewrite (Hsucc track) by (done || by left).
      rewrite SizeT_succ_small by lia.
      unfold SizeT.to_index. rewrite Nat2Z.id.
      destruct room as [|room]; [lia|].
      replace (<[length filled := (ToObject (Vector3d_opp (global_to_local_offset_ this))
                                    timestamp Object_fresh track).2]>
                 (filled ++ replicate (S room) Object_fresh))
        with ((filled ++ [(ToObject (Vector3d_opp (global_to_local_offset_ this))
                             timestamp Object_fresh track).2])
              ++ replicate room Object_fresh).
      2: { rewrite insert_app_r_alt, Nat.sub_diag by lia. simpl.
           by rewrite <- app_assoc. }
      replace (Z.of_nat (length filled) + 1)
        with (Z.of_nat (length (filled ++ [(ToObject
                                              (Vector3d_opp (global_to_local_offset_ this))
                                              timestamp Object_fresh track).2])))
        by (rewrite length_app; simpl; lia).
      rewrite IH; [|done|done|lia|rewrite length_app; simpl; lia].
      simpl. rewrite Hskip. simpl. rewrite length_app. simpl.
      rewrite <- !app_assoc. simpl.
      f_equal. f_equal. lia.
Qed.

Lemma collect_loop_all_succeed_from (this : MlfEngine) (timestamp : float)
    (tracks : list MlfTrackData) (filled : list Object) (room : nat)
    (st : CollectState) :
  (∀ t, t ∈ tracks → is_skipped this t = false →
        (ToObject (Vector3d_opp (global_to_local_offset_ this)) timestamp
           Object_fresh t).1 = true) →
  collect_objects st = filled ++ replicate room Object_fresh →
  collect_pos st = Z.of_nat (length filled) →
  0 ≤ collect_num_predict st →
  collect_num_predict st + Z.of_nat (length tracks) ≤ Z.of_nat room →
  Z.of_nat (length filled + room) < SizeT.modulus →
  ∃ st',
    for_each_option (collect_track this timestamp) tracks st = Some st'
    ∧ collect_objects st'
      = (filled
         ++ map (λ t, (ToObject (Vector3d_opp (global_to_local_offset_ this))
                         timestamp Object_fresh t).2)
              (List.filter (λ t, negb (is_skipped this t)) tracks))
        ++ replicate
             (room - length (List.filter (λ t, negb (is_skipped this t)) tracks))
             Object_fresh
    ∧ collect_pos st'
      = Z.of_nat (length filled
                  + length (List.filter (λ t, negb (is_skipped this t)) tracks))
    ∧ collect_num_predict st'
      = collect_num_predict st
        + Z.of_nat (length (List.filter (is_skipped this) tracks))
    ∧ collect_trace st'
      = collect_trace st
        ++ map CallToObject (List.filter (λ t, negb (is_skipped this t)) tracks).
Proof.
  intros Hsucc Hobjects Hpos Hnp Hroom Hmax.
  destruct st as [objects pos num_predict trace]. simpl in *. subst objects pos.
  eexists. split; [by apply collect_loop_all_succeed|]. done.
Qed.

(** X6. When [ToObject] succeeds on every track that is not skipped, the
    frame's [tracked_objects] after [CollectTrackedResult] is the
    objects that [ToObject] makes of these tracks, each written into a
    fresh object of the pool, in the order of the ledgers: the
    foreground tracks first, then the background tracks.  No error is
    logged. *)
Theorem CollectTrackedResult_objects_in_ledger_order (this : MlfEngine)
    (frame : LidarFrame) :
  Z.of_nat (length (foreground_track_data_ this) + length (background_track_data_ this))
    < SizeT.modulus →
  (∀ t, t ∈ foreground_track_data_ this ++ background_track_data_ this →
        is_skipped this t = false →
        (ToObject (Vector3d_opp (global_to_local_offset_ this)) (timestamp frame)
           Object_fresh t).1 = true) →
  CollectTrackedResult this frame
  = Some
      (set_tracked_objects
         (map (λ t, (ToObject (Vector3d_opp (global_to_local_offset_ this))
                       (timestamp frame) Object_fresh t).2)
            (List.filter (λ t, negb (is_skipped this t))
               (foreground_track_data_ this ++ background_track_data_ this)))
         frame,
       map CallToObject
         (List.filter (λ t, negb (is_skipped this t))
            (foreground_track_data_ this ++ background_track_data_ this))).
Proof.
  intros Hmax Hsucc.
  unfold CollectTrackedResult, collect_all_tracks.
  set (fg := foreground_track_data_ this) in *.
  set (bg := background_track_data_ this) in *.
  pose proof (filter_partition_length (is_skipped this) fg) as Hfg.
  pose proof (filter_partition_length (is_skipped this) bg) as Hbg.
  assert (SizeT.add (Z.of_nat (length fg)) (Z.of_nat (length bg))
          = Z.of_nat (length fg + length bg)) as ->.
  { unfold SizeT.add. rewrite SizeT_wrap_small by lia. lia. }
  unfold SizeT.to_index at 1. rewrite Nat2Z.id.
  edestruct (collect_loop_all_succeed_from this (timestamp frame) fg []
               (length fg + length bg))
    as (st1 & -> & Hobjects1 & Hpos1 & Hnp1 & Htrace1); simpl; try done; try lia.
  { intros t Ht. apply Hsucc, elem_of_app. by left. }
  simpl in Hobjects1, Hpos1, Hnp1, Htrace1.
  edestruct (collect_loop_all_succeed_from this (timestamp frame) bg)
    as (st2 & -> & Hobjects2 & Hpos2 & Hnp2 & Htrace2);
    [|exact Hobjects1| | | | |].
  { intros t Ht. apply Hsucc, elem_of_app. by right. }
  { by rewrite Hpos1, length_map. }
  { lia. }
  { rewrite Hnp1. lia. }
  { rewrite length_map. lia. }
  simpl. rewrite shrink_tracked_objects_spec.
  - simpl. rewrite Htrace2, Htrace1, Hobjects2, Hnp2, Hnp1. simpl.
    rewrite <- !map_app, <- !List.filter_app, app_nil_r. do 3 f_equal.
    apply take_app_length'. rewrite length_map, List.filter_app, length_app. lia.
  - rewrite Hnp2, Hnp1. lia.
  - lia.
  - rewrite Hobjects2, !length_app, !length_map, !length_replicate. lia.
Qed.

End CollectProperties.

(** ** Further properties: [TrackObjectMatchAndAssign] *)

Section MatchProperties.
Context `{Payloads} `{!DataMethods} `{!MlfTrackObjectMatcher} `{!MlfTracker}.

Lemma push_assigned_object_length (objects : list TrackedObject)
    (tracks tracks' : list MlfTrackData) (pair : nat * nat) :
  push_assigned_object objects tracks pair = Some tracks' →
  length tracks' = length tracks ∧ (pair.1 < length tracks)%nat.
Proof.
  unfold push_assigned_object. intros Hpush.
  destruct (tracks !! pair.1) as [track|] eqn:Htrack; [|done].
  destruct (objects !! pair.2) as [object|]; [|done].
  simpl in Hpush. injection Hpush as <-.
  split; [by rewrite length_insert|]. by apply lookup_lt_Some in Htrack.
Qed.

Lemma push_assigned_loop_out_of_range (objects : list TrackedObject)
    (pairs : list (nat * nat)) (tracks : list MlfTrackData) :
  (∃ pair, pair ∈ pairs ∧ (length tracks ≤ pair.1)%nat) →
  for_each_option (push_assigned_object objects) pairs tracks = None.
Proof.
  revert tracks. induction pairs as [|pair pairs IH]; intros tracks (bad & Hin & Hbad).
  - by apply elem_of_nil in Hin.
  - simpl. destruct (push_assigned_object objects tracks pair) as [tracks'|] eqn:Hpush;
      [|done].
    simpl. apply push_assigned_object_length in Hpush as [Hlen Hlt].
    apply IH. exists bad. rewrite Hlen. split; [|done].
    apply elem_of_cons in Hin as [->|Hin]; [lia|done].
Qed.

(** X7. When the matcher returns a pair whose track index is not an
    index of the ledger, [at] throws in the loop of lines 176-180: that
    loop does not complete, and [TrackObjectMatchAndAssign] does not
    return, whatever the other pairs are. *)
Theorem TrackObjectMatchAndAssign_track_index_out_of_range
    (match_options : MlfTrackObjectMatcherOptions) (objects : list TrackedObject)
    (name : string) (tracks : list MlfTrackData) (w : World) (pair : nat * nat) :
  pair ∈ assignments (Match match_options objects tracks w).1 →
  (length tracks ≤ pair.1)%nat →
  for_each_option (push_assigned_object objects)
    (assignments (Match match_options objects tracks w).1) tracks
  = None
  ∧ TrackObjectMatchAndAssign match_options objects name tracks w = None.
Proof.
  intros Hin Hbad.
  assert (for_each_option (push_assigned_object objects)
            (assignments (Match match_options objects tracks w).1) tracks
          = None) as Hloop.
  { apply push_assigned_loop_out_of_range. by exists pair. }
  split; [exact Hloop|].
  unfold TrackObjectMatchAndAssign, mbind, M_MBind.
  unfold M_bind at 1. unfold call.
  destruct (Match match_options objects tracks w) as [result w0]. simpl in *.
  unfold M_bind, lift_option. by rewrite Hloop.
Qed.

(** X8. Without objects there is nothing to assign: when the matcher
    keeps to the indices it was given, [TrackObjectMatchAndAssign] on an
    empty vector of objects returns the ledger as it is, calls the
    matcher once and the tracker not at all. *)
Theorem TrackObjectMatchAndAssign_without_objects
    (match_options : MlfTrackObjectMatcherOptions) (name : string)
    (tracks : list MlfTrackData) (w : World) :
  indices_in_range (length tracks) 0 (Match match_options [] tracks w).1 →
  TrackObjectMatchAndAssign match_options [] name tracks w
  = Some (tracks, (Match match_options [] tracks w).2, [CallMatch [] tracks]).
Proof.
  intros Hrange.
  destruct (TrackObjectMatchAndAssign_run match_options [] name tracks w Hrange)
    as (pushed & Hpush & ->).
  destruct Hrange as [Hpairs Hids].
  destruct (assignments (Match match_options [] tracks w).1) as [|pair pairs].
  2: { apply Forall_cons in Hpairs as [[_ Hlt] _]. lia. }
  destruct (unassigned_objects (Match match_options [] tracks w).1) as [|id ids].
  2: { apply Forall_cons in Hids as [Hlt _]. lia. }
  simpl in Hpush. injection Hpush as <-. simpl. by rewrite app_nil_r.
Qed.

End MatchProperties.

(** ** Further properties: [TrackStateFilter] *)

Section FilterProperties.
Context `{Payloads} `{!DataMethods} `{!MlfTracker}.

Lemma filter_trace_ok_app (frame_timestamp : float) (tracks1 tracks2 : list MlfTrackData)
    (trace1 trace2 : list Event) :
  filter_trace_ok frame_timestamp tracks1 trace1 →
  filter_trace_ok frame_timestamp tracks2 trace2 →
  filter_trace_ok frame_timestamp (tracks1 ++ tracks2) (trace1 ++ trace2).
Proof.
  intros [Hc1 Hg1 Ht1 Hn1] [Hc2 Hg2 Ht2 Hn2]. split.
  - by apply Forall_app.
  - unfold get_and_clean_calls in *. by rewrite omap_app, Hg1, Hg2.
  - unfold update_without_object_calls in *. rewrite omap_app. by apply Forall_app.
  - unfold update_without_object_calls in *. rewrite omap_app, !length_app. lia.
Qed.

Lemma update_with_objects_trace (objects : list TrackedObject)
    (track_data : MlfTrackData) (w : World) :
  ∃ track_data' w' trace,
    for_each (λ track_data obj,
                call (CallUpdateTrackDataWithObject track_data obj)
                  (UpdateTrackDataWithObject track_data obj))
      objects track_data w
    = Some (track_data', w', trace)
    ∧ Forall is_state_filter_call trace
    ∧ get_and_clean_calls trace = []
    ∧ update_without_object_calls trace = []
    ∧ map snd (update_with_object_calls trace) = objects.
Proof.
  revert track_data w. induction objects as [|o objects IH]; intros track_data w.
  - by eexists _, _, [].
  - destruct (UpdateTrackDataWithObject track_data o w) as [t1 w1] eqn:Hupd.
    erewrite for_each_cons; last first.
    { unfold call. by rewrite Hupd. }
    destruct (IH t1 w1) as (t2 & w2 & trace & -> & Hcalls & Hget & Hwithout & Hwith).
    eexists _, _, _. split; [done|]. simpl.
    split; [by constructor|]. split; [done|]. split; [done|].
    unfold update_with_object_calls in *. simpl. by rewrite Hwith.
Qed.

Lemma filter_one_track_trace (frame_timestamp : float)
    (st : list MlfTrackData * list TrackedObject) (track_data : MlfTrackData)
    (w : World) :
  ∃ track_data' w' trace,
    filter_one_track frame_timestamp st track_data w
    = Some ((st.1 ++ [track_data'],
             (GetAndCleanCachedObjectsInTimeInterval st.2 track_data).2), w', trace)
    ∧ filter_trace_ok frame_timestamp [track_data] trace
    ∧ map snd (update_with_object_calls trace)
      = (GetAndCleanCachedObjectsInTimeInterval st.2 track_data).2
    ∧ ((GetAndCleanCachedObjectsInTimeInterval st.2 track_data).2 ≠ [] →
       update_without_object_calls trace = [])
    ∧ ((GetAndCleanCachedObjectsInTimeInterval st.2 track_data).2 = [] →
       track_data'
       = (UpdateTrackDataWithoutObject frame_timestamp
            (GetAndCleanCachedObjectsInTimeInterval st.2 track_data).1 w).1
       ∧ w'
         = (UpdateTrackDataWithoutObject frame_timestamp
              (GetAndCleanCachedObjectsInTimeInterval st.2 track_data).1 w).2
       ∧ trace
         = [CallGetAndCleanCachedObjects track_data;
            CallUpdateTrackDataWithoutObject frame_timestamp
              (GetAndCleanCachedObjectsInTimeInterval st.2 track_data).1]).
Proof.
  unfold filter_one_track.
  erewrite mbind_Some; last by unfold record.
  destruct (GetAndCleanCachedObjectsInTimeInterval st.2 track_data) as [t0 objects].
  destruct (update_with_objects_trace objects t0 w)
    as (t1 & w1 & tr1 & Hupd & Hcalls & Hget & Hwithout & Hwith).
  rewrite (mbind_Some _ _ _ _ _ _ Hupd).
  destruct (decide (objects = [])) as [->|Hsome].
  - simpl in Hupd. unfold M_ret in Hupd. injection Hupd as <- <- <-.
    destruct (UpdateTrackDataWithoutObject frame_timestamp t0 w) as [t2 w2] eqn:Hwo.
    erewrite mbind_Some; last first.
    { unfold call. by rewrite Hwo. }
    eexists _, _, _. split; [done|]. simpl. split.
    { split; simpl; [by repeat constructor|done|by repeat constructor|lia]. }
    split; [done|]. split; [by intros []|]. intros _. by rewrite Hwo.
  - erewrite mbind_Some; last done.
    eexists _, _, _. split; [done|]. simpl. rewrite !app_nil_r. split.
    { split; simpl.
      - by constructor.
      - unfold get_and_clean_calls in *. simpl. by rewrite Hget.
      - unfold update_without_object_calls in *. simpl. by rewrite Hwithout.
      - unfold update_without_object_calls in *. simpl. rewrite Hwithout. simpl. lia. }
    split; [by unfold update_with_object_calls in *|].
    split; [by unfold update_without_object_calls in *|]. done.
Qed.

(** The loop of lines 192-200 from any state: what it calls. *)
Lemma filter_loop_trace (tracks : list MlfTrackData) (frame_timestamp : float) :
  ∀ st w, ∃ st' w' trace,
    for_each (filter_one_track frame_timestamp) tracks st w
    = Some (st', w', trace)
    ∧ length st'.1 = (length st.1 + length tracks)%nat
    ∧ filter_trace_ok frame_timestamp tracks trace
    ∧ ((∀ objects track_data,
          track_data ∈ tracks →
          (GetAndCleanCachedObjectsInTimeInterval objects track_data).2 ≠ []) →
       update_without_object_calls trace = []).
Proof.
  induction tracks as [|track tracks IH]; intros st w0.
  - eexists _, _, []. split; [done|]. simpl. split; [lia|].
    split; [|done]. split; simpl; by try constructor.
  - destruct (filter_one_track_trace frame_timestamp st track w0)
      as (t1 & w1 & tr1 & Hone & Hok1 & _ & Hsome1 & _).
    rewrite (for_each_cons _ _ _ _ _ _ _ _ Hone).
    destruct (IH (st.1 ++ [t1],
                  (GetAndCleanCachedObjectsInTimeInterval st.2 track).2) w1)
      as (st' & w' & tr & -> & Hlen & Hok & Hsome).
    eexists _, _, _. split; [done|]. split.
    { rewrite Hlen. simpl. rewrite length_app. simpl. lia. }
    split; [by apply (filter_trace_ok_app _ [track] tracks)|].
    intros Hall. unfold update_without_object_calls in *. rewrite omap_app.
    rewrite Hsome1, Hsome; [done|..].
    + intros objects t Ht. apply Hall. by right.
    + apply Hall. by left.
Qed.

Lemma TrackStateFilter_trace (tracks : list MlfTrackData) (frame_timestamp : float)
    (w : World) :
  ∃ tracks' w' trace,
    TrackStateFilter tracks frame_timestamp w = Some (tracks', w', trace)
    ∧ length tracks' = length tracks
    ∧ filter_trace_ok frame_timestamp tracks trace.
Proof.
  unfold TrackStateFilter.
  destruct (filter_loop_trace tracks frame_timestamp ([], []) w)
    as (st' & w' & tr & Hrun & Hlen & Hok & _).
  rewrite (mbind_Some _ _ _ _ _ _ Hrun).
  eexists _, _, _. split; [done|]. by rewrite app_nil_r.
Qed.

Lemma update_with_objects_calls (objects : list TrackedObject)
    (track_data : MlfTrackData) (w : World) :
  ∃ track_data' w' trace,
    for_each (λ track_data obj,
                call (CallUpdateTrackDataWithObject track_data obj)
                  (UpdateTrackDataWithObject track_data obj))
      objects track_data w
    = Some (track_data', w', trace)
    ∧ Forall is_update_with_object_call trace
    ∧ length trace = length objects.
Proof.
  revert track_data w. induction objects as [|o objects IH]; intros track_data w.
  - by eexists _, _, [].
  - destruct (UpdateTrackDataWithObject track_data o w) as [t1 w1] eqn:Hupd.
    erewrite for_each_cons; last first.
    { unfold call. by rewrite Hupd. }
    destruct (IH t1 w1) as (t2 & w2 & trace & -> & Hcalls & Hlen).
    eexists _, _, _. split; [done|]. simpl.
    split; [by constructor|by rewrite Hlen].
Qed.

(** One round of the loop of lines 192-200. *)
Lemma filter_one_track_round (frame_timestamp : float)
    (st : list MlfTrackData * list TrackedObject) (track_data : MlfTrackData)
    (w : World) :
  ∃ track_data' w' round,
    filter_one_track frame_timestamp st track_data w
    = Some ((st.1 ++ [track_data'],
             (GetAndCleanCachedObjectsInTimeInterval st.2 track_data).2), w', round)
    ∧ is_filter_round frame_timestamp track_data round.
Proof.
  unfold filter_one_track.
  erewrite mbind_Some; last by unfold record.
  destruct (GetAndCleanCachedObjectsInTimeInterval st.2 track_data) as [t0 objects].
  destruct (update_with_objects_calls objects t0 w)
    as (t1 & w1 & tr1 & Hupd & Hcalls & Hlen).
  rewrite (mbind_Some _ _ _ _ _ _ Hupd).
  destruct (decide (objects = [])) as [->|Hsome].
  - simpl in Hupd. unfold M_ret in Hupd. injection Hupd as <- <- <-.
    destruct (UpdateTrackDataWithoutObject frame_timestamp t0 w) as [t2 w2] eqn:Hwo.
    erewrite mbind_Some; last first.
    { unfold call. by rewrite Hwo. }
    eexists _, _, _. split; [done|]. simpl.
    eexists. split; [done|]. right. by eexists.
  - erewrite mbind_Some; last done.
    eexists _, _, _. split; [done|]. simpl. rewrite !app_nil_r.
    eexists. split; [done|]. left. split; [|done].
    intros ->. simpl in Hlen. by destruct objects.
Qed.

(** The loop of lines 192-200 from any state, round by round. *)
Lemma filter_loop_rounds (tracks : list MlfTrackData) (frame_timestamp : float) :
  ∀ st w, ∃ st' w' rounds,
    for_each (filter_one_track frame_timestamp) tracks st w
    = Some (st', w', concat rounds)
    ∧ Forall2 (is_filter_round frame_timestamp) tracks rounds.
Proof.
  induction tracks as [|track tracks IH]; intros st w0.
  - by eexists _, _, [].
  - destruct (filter_one_track_round frame_timestamp st track w0)
      as (t1 & w1 & round & Hone & Hround).
    rewrite (for_each_cons _ _ _ _ _ _ _ _ Hone).
    destruct (IH (st.1 ++ [t1],
                  (GetAndCleanCachedObjectsInTimeInterval st.2 track).2) w1)
      as (st' & w' & rounds & -> & Hrounds).
    exists st', w', (round :: rounds). split; [done|]. by constructor.
Qed.

(** X9. [TrackStateFilter] returns as many tracks as it was given.  It
    takes the cache of every track once, in the order of the ledger, and
    makes no call but [GetAndCleanCachedObjectsInTimeInterval],
    [UpdateTrackDataWithObject] and [UpdateTrackDataWithoutObject].  Its
    calls come in rounds, one round for each track in the order of the
    ledger: the cache of the track is taken, and then either
    [UpdateTrackDataWithObject] is called, once or more and nothing
    else, or [UpdateTrackDataWithoutObject] is called once, with the
    timestamp of the frame, and nothing else.  So
    [UpdateTrackDataWithoutObject] is called at most once in the round
    of a track, and never for a ledger whose caches all hold an
    object. *)
Theorem TrackStateFilter_calls (tracks : list MlfTrackData) (frame_timestamp : float)
    (w : World) :
  ∃ tracks' w' trace rounds,
    TrackStateFilter tracks frame_timestamp w = Some (tracks', w', trace)
    ∧ length tracks' = length tracks
    ∧ Forall is_state_filter_call trace
    ∧ get_and_clean_calls trace = tracks
    ∧ Forall (λ c : float * MlfTrackData, c.1 = frame_timestamp)
        (update_without_object_calls trace)
    ∧ (length (update_without_object_calls trace) ≤ length tracks)%nat
    ∧ ((∀ objects track_data,
          track_data ∈ tracks →
          (GetAndCleanCachedObjectsInTimeInterval objects track_data).2 ≠ []) →
       update_without_object_calls trace = [])
    ∧ trace = concat rounds
    ∧ Forall2 (is_filter_round frame_timestamp) tracks rounds
    ∧ Forall (λ round, (length (update_without_object_calls round) ≤ 1)%nat) rounds.
Proof.
  unfold TrackStateFilter.
  pose proof (filter_loop_trace tracks frame_timestamp) as Hloop.
  destruct (Hloop ([], []) w) as (st' & w' & tr & Hrun & Hlen & [Hc Hg Ht Hn] & Hsome).
  destruct (filter_loop_rounds tracks frame_timestamp ([], []) w)
    as (st2 & w2 & rounds & Hrun2 & Hrounds).
  rewrite Hrun in Hrun2. injection Hrun2 as _ _ Htr.
  rewrite (mbind_Some _ _ _ _ _ _ Hrun).
  exists st'.1, w', tr, rounds.
  split; [unfold mret, M_MRet, M_ret; by rewrite app_nil_r|].
  split; [by rewrite Hlen|]. do 5 (split; [done|]).
  split; [done|]. split; [done|].
  clear -Hrounds. induction Hrounds as [|track round tracks rounds Hround _ IH];
    constructor; [|done].
  destruct Hround as (updates & -> & [[_ Hwith]|[emptied ->]]); [|simpl; lia].
  unfold update_without_object_calls. simpl.
  induction Hwith as [|e l He _ IHl]; [simpl; lia|].
  destruct e; try done.
Qed.

(** X10. A ledger whose caches are all empty gets a pass of prediction
    only: [TrackStateFilter] calls [UpdateTrackDataWithoutObject], with
    the timestamp of the frame, once on every track in the order of the
    ledger, and [UpdateTrackDataWithObject] on none. *)
Theorem TrackStateFilter_without_objects (tracks : list MlfTrackData)
    (frame_timestamp : float) (w : World) :
  (∀ objects track_data,
     track_data ∈ tracks →
     (GetAndCleanCachedObjectsInTimeInterval objects track_data).2 = []) →
  TrackStateFilter tracks frame_timestamp w
  = Some
      ((predict_tracks frame_timestamp tracks w).1,
       (predict_tracks frame_timestamp tracks w).2,
       flat_map
         (λ track_data,
            [CallGetAndCleanCachedObjects track_data;
             CallUpdateTrackDataWithoutObject frame_timestamp
               (GetAndCleanCachedObjectsInTimeInterval [] track_data).1])
         tracks).
Proof.
  intros Hempty. unfold TrackStateFilter.
  assert (∀ filtered w,
            for_each (filter_one_track frame_timestamp) tracks (filtered, []) w
            = Some
                ((filtered ++ (predict_tracks frame_timestamp tracks w).1, []),
                 (predict_tracks frame_timestamp tracks w).2,
                 flat_map
                   (λ track_data,
                      [CallGetAndCleanCachedObjects track_data;
                       CallUpdateTrackDataWithoutObject frame_timestamp
                         (GetAndCleanCachedObjectsInTimeInterval [] track_data).1])
                   tracks)) as Hloop.
  { induction tracks as [|track tracks IH]; intros filtered w0.
    - simpl. unfold M_ret. by rewrite app_nil_r.
    - destruct (filter_one_track_trace frame_timestamp (filtered, []) track w0)
        as (t1 & w1 & tr1 & Hone & _ & _ & _ & Hnone).
      simpl in Hone, Hnone.
      destruct (Hnone (Hempty [] track ltac:(by left))) as (-> & -> & ->).
      rewrite (Hempty [] track) in Hone by (by left).
      rewrite (for_each_cons _ _ _ _ _ _ _ _ Hone).
      rewrite IH by (intros objects t Ht; apply Hempty; by right).
      simpl.
      destruct (UpdateTrackDataWithoutObject frame_timestamp _ w0) as [t1 w1].
      simpl. destruct (predict_tracks frame_timestamp tracks w1) as [ts w2].
      simpl. by rewrite <- app_assoc. }
  rewrite (mbind_Some _ _ _ _ _ _ (Hloop [] w)).
  unfold mret, M_MRet, M_ret. simpl. by rewrite app_nil_r.
Qed.

End FilterProperties.

(** ** Further properties: the policy outside the map structure *)

Section StaticPolicyProperties.
Context `{Payloads} `{!Services}.

Lemma set_static_if_outside_twice (roi : HdmapStruct) (obj : Object) :
  set_static_if_outside roi (set_static_if_outside roi obj)
  = set_static_if_outside roi obj.
Proof.
  unfold set_static_if_outside at 2.
  destruct (IsObjectInRoi roi obj) eqn:Hin.
  - unfold set_static_if_outside. by rewrite Hin.
  - unfold set_static_if_outside. rewrite Hin.
    by destruct (IsObjectInRoi roi
                   (set_acceleration Vector3f_Zero (set_velocity Vector3f_Zero obj))).
Qed.

(** X4. Lines 108-134 are idempotent, whatever [IsObjectInRoi] looks at:
    run on the frame they returned, they return it again.  They keep the
    number and the order of the published objects, write no field of an
    object but [velocity] and [acceleration], and no field of the frame
    but [tracked_objects]. *)
Theorem set_static_outside_hdmap_idempotent (this : MlfEngine) (frame : LidarFrame) :
  set_static_outside_hdmap this (set_static_outside_hdmap this frame).2
  = set_static_outside_hdmap this frame
  ∧ (set_static_outside_hdmap this frame).2
    = set_tracked_objects (tracked_objects (set_static_outside_hdmap this frame).2) frame
  ∧ Forall2
      (λ obj obj',
         latest_tracked_time obj' = latest_tracked_time obj
         ∧ is_background obj' = is_background obj
         ∧ object_rest obj' = object_rest obj)
      (tracked_objects frame)
      (tracked_objects (set_static_outside_hdmap this frame).2).
Proof.
  assert (∀ l : list Object,
            Forall2
              (λ obj obj',
                 latest_tracked_time obj' = latest_tracked_time obj
                 ∧ is_background obj' = is_background obj
                 ∧ object_rest obj' = object_rest obj) l l) as Hsame.
  { intros l. by apply Forall_Forall2_diag, Forall_true. }
  unfold set_static_outside_hdmap.
  destruct (negb (set_static_outside_hdmap_ this)) eqn:Hflag.
  { simpl. split; [done|]. split; [by destruct frame|apply Hsame]. }
  destruct (hdmap_struct frame) as [roi|] eqn:Hroi.
  2: { simpl. rewrite Hroi. split; [done|]. split; [by destruct frame|apply Hsame]. }
  destruct (vector_empty (road_polygons roi) && vector_empty (junction_polygons roi)
            && vector_empty (road_boundary roi)) eqn:Hempty.
  { simpl. rewrite Hroi, Hempty. split; [done|].
    split; [by destruct frame|apply Hsame]. }
  simpl. rewrite Hroi, Hempty. simpl. split.
  - unfold set_tracked_objects. simpl. do 2 f_equal.
    rewrite <- list_fmap_compose.
    apply list_fmap_ext. intros i obj _. simpl. apply set_static_if_outside_twice.
  - split; [done|].
    apply Forall2_fmap_r, Forall_Forall2_diag, Forall_forall. intros obj _.
    unfold compose, set_static_if_outside. by destruct (IsObjectInRoi roi obj).
Qed.

End StaticPolicyProperties.

(** ** Further properties: [Track] *)

Section TrackProperties.
Context `{Payloads} `{!DataMethods} `{!MlfTrackObjectMatcher} `{!MlfTracker} `{!Services}.

(** Every step of [Track] up to line 107, with what it returns. *)
Lemma Track_until_stale_removed_steps (this : MlfEngine)
    (options : MultiTargetTrackerOptions) (frame : LidarFrame) (w : World) :
  matcher_is_valid →
  (IsMainSensor (name (sensor_info frame)) = true → sizes_fit this frame) →
  ∃ trace0 fg1 w1 trace1 bg1 w2 trace2 fg2 bg2 w3 trace3 objects trace4,
    SplitAndTransformToTrackedObjects
      (add_global_offset_to_pose this (use_frame_timestamp this frame))
      (segmented_objects (use_frame_timestamp this frame)) (sensor_info frame)
    = Some (engine_after_split this frame, trace0)
    ∧ TrackObjectMatchAndAssign mkMlfTrackObjectMatcherOptions
        (foreground_objects_ (engine_after_split this frame)) "foreground"
        (foreground_track_data_ this) w
      = Some (fg1, w1, trace1)
    ∧ (length fg1
       ≤ length (foreground_track_data_ this)
         + length (foreground_objects_ (engine_after_split this frame)))%nat
    ∧ TrackObjectMatchAndAssign mkMlfTrackObjectMatcherOptions
        (background_objects_ (engine_after_split this frame)) "background"
        (background_track_data_ this) w1
      = Some (bg1, w2, trace2)
    ∧ (length bg1
       ≤ length (background_track_data_ this)
         + length (background_objects_ (engine_after_split this frame)))%nat
    ∧ (IsMainSensor (name (sensor_info frame)) = true →
       ∃ wa tracea traceb,
         TrackStateFilter fg1 (timestamp frame) w2 = Some (fg2, wa, tracea)
         ∧ TrackStateFilter bg1 (timestamp frame) wa = Some (bg2, w3, traceb)
         ∧ trace3 = tracea ++ traceb
         ∧ length fg2 = length fg1 ∧ length bg2 = length bg1
         ∧ CollectTrackedResult
             (set_background_track_data_ bg2
                (set_foreground_track_data_ fg2 (engine_after_split this frame)))
             (set_tracked_objects [] (use_frame_timestamp this frame))
           = Some (set_tracked_objects objects (use_frame_timestamp this frame), trace4))
    ∧ (IsMainSensor (name (sensor_info frame)) = false →
       fg2 = fg1 ∧ bg2 = bg1 ∧ w3 = w2 ∧ trace3 = [] ∧ objects = [] ∧ trace4 = [])
    ∧ Track_until_stale_removed this options frame w
      = Some ((set_tracked_objects objects (use_frame_timestamp this frame),
               set_background_track_data_
                 (List.filter (is_alive this (timestamp frame)) bg2)
                 (set_foreground_track_data_
                    (List.filter (is_alive this (timestamp frame)) fg2)
                    (engine_after_split this frame))),
              w3, trace0 ++ trace1 ++ trace2 ++ trace3 ++ trace4).
Proof.
  intros Hvalid Hmax.
  destruct (use_frame_timestamp_fields this frame) as (Hts & Hinfo & Hpose & Hroi & Hseg).
  unfold Track_until_stale_removed, engine_after_split, sizes_fit in *. cbv zeta.
  set (frame0 := use_frame_timestamp this frame) in *.
  destruct (add_global_offset_to_pose_tracks this frame0) as (Hfg1 & Hbg1 & Hres1 & _).
  set (this1 := add_global_offset_to_pose this frame0) in *.
  pose proof (SplitAndTransform_run this1 (segmented_objects frame0) (sensor_info frame0))
    as Hsplit.
  pose proof (filter_partition_length is_background (segmented_objects frame0)) as Hpart.
  rewrite <- !(length_map
                (λ d, (transform_tracked_object this1 (sensor_info frame0) d
                         TrackedObject_fresh).1)) in Hpart.
  set (fgo := map _ (List.filter (λ d, negb (is_background d)) _)) in *.
  set (bgo := map _ (List.filter is_background _)) in *.
  set (trace0 := concat _) in Hsplit.
  set (this2 := set_tracked_object_lists fgo bgo this1) in *.
  erewrite mbind_Some; last first.
  { unfold lift_logged. by rewrite Hsplit. }
  cbv beta.
  destruct (TrackObjectMatchAndAssign_total mkMlfTrackObjectMatcherOptions
              (foreground_objects_ this2) "foreground" (foreground_track_data_ this2)
              w Hvalid) as (fg1 & w1 & trace1 & Hrun1 & Hlen1 & _).
  rewrite (mbind_Some _ _ _ _ _ _ Hrun1). cbv beta.
  destruct (TrackObjectMatchAndAssign_total mkMlfTrackObjectMatcherOptions
              (background_objects_ (set_foreground_track_data_ fg1 this2)) "background"
              (background_track_data_ (set_foreground_track_data_ fg1 this2))
              w1 Hvalid) as (bg1 & w2 & trace2 & Hrun2 & Hlen2 & _).
  rewrite (mbind_Some _ _ _ _ _ _ Hrun2). cbv beta.
  assert (length fg1 ≤ length (foreground_track_data_ this) + length fgo)%nat as Hlen1'
    by (rewrite <- Hfg1; exact Hlen1).
  assert (length bg1 ≤ length (background_track_data_ this) + length bgo)%nat as Hlen2'
    by (rewrite <- Hbg1; exact Hlen2).
  rewrite length_map in Hpart.
  exists trace0, fg1, w1, trace1, bg1, w2, trace2.
  assert (∀ this' name timestamp' tracks,
            reserved_invisible_time_ this' = reserved_invisible_time_ this →
            timestamp' = timestamp frame →
            RemoveStaleTrackData this' name timestamp' tracks
            = Some (List.filter (is_alive this (timestamp frame)) tracks)) as Hstale.
  { intros this' name' timestamp' tracks Hres ->. rewrite RemoveStaleTrackData_run.
    unfold is_alive. by rewrite Hres. }
  rewrite Hinfo, Hts.
  unfold mbind, M_MBind, M_bind, mret, M_MRet, M_ret, lift_logged, lift_option.
  destruct (IsMainSensor (name (sensor_info frame))) eqn:Hmain.
  - destruct (TrackStateFilter_total
                (foreground_track_data_
                   (set_background_track_data_ bg1 (set_foreground_track_data_ fg1 this2)))
                (timestamp frame) w2) as (fg2 & wa & tracea & Hrun3 & Hlen3).
    rewrite Hrun3. cbv beta iota.
    destruct (TrackStateFilter_total
                (background_track_data_
                   (set_foreground_track_data_ fg2
                      (set_background_track_data_ bg1
                         (set_foreground_track_data_ fg1 this2))))
                (timestamp frame) wa) as (bg2 & w3 & traceb & Hrun4 & Hlen4).
    rewrite Hrun4. cbv beta iota.
    simpl in Hlen3, Hlen4.
    destruct (CollectTrackedResult_spec
                (set_background_track_data_ bg2
                   (set_foreground_track_data_ fg2
                      (set_background_track_data_ bg1
                         (set_foreground_track_data_ fg1 this2))))
                (set_tracked_objects [] frame0))
      as (objects & trace4 & Hrun5 & _).
    { specialize (Hmax eq_refl). simpl. lia. }
    rewrite Hrun5. cbv beta iota.
    rewrite Hstale; [|exact Hres1|exact Hts]. cbv beta iota.
    rewrite Hstale; [|exact Hres1|exact Hts]. cbv beta iota.
    exists fg2, bg2, w3, (tracea ++ traceb), objects, trace4.
    split; [by rewrite <- Hinfo|].
    split; [by rewrite <- Hfg1|]. split; [done|].
    split; [by rewrite <- Hbg1|]. split; [done|].
    split; [|split; [done|]].
    + intros _. exists wa, tracea, traceb. by repeat split.
    + apply f_equal, f_equal2; [reflexivity|].
      simpl. by rewrite ?app_nil_r, <- ?app_assoc.
  - cbv beta iota.
    rewrite Hstale; [|exact Hres1|exact Hts]. cbv beta iota.
    rewrite Hstale; [|exact Hres1|exact Hts]. cbv beta iota.
    exists fg1, bg1, w2, [], [], [].
    split; [by rewrite <- Hinfo|].
    split; [by rewrite <- Hfg1|]. split; [done|].
    split; [by rewrite <- Hbg1|]. split; [done|].
    split; [done|]. split; [done|].
    apply f_equal, f_equal2; [reflexivity|].
    simpl. by rewrite ?app_nil_r, <- ?app_assoc.
Qed.

Lemma engine_after_split_fields (this : MlfEngine) (frame : LidarFrame) :
  same_configuration (engine_after_split this frame) this
  ∧ foreground_track_data_ (engine_after_split this frame) = foreground_track_data_ this
  ∧ background_track_data_ (engine_after_split this frame) = background_track_data_ this
  ∧ global_to_local_offset_ (engine_after_split this frame)
    = (if vector_empty (foreground_track_data_ this)
          && vector_empty (background_track_data_ this)
       then Vector3d_opp (translation (lidar2world_pose frame))
       else global_to_local_offset_ this)
  ∧ sensor_to_local_pose_ (engine_after_split this frame)
    = pretranslate (global_to_local_offset_ (engine_after_split this frame))
        (lidar2world_pose frame).
Proof.
  unfold engine_after_split, same_configuration, add_global_offset_to_pose.
  destruct (use_frame_timestamp_fields this frame) as (_ & _ & -> & _).
  by destruct (vector_empty (foreground_track_data_ this)
               && vector_empty (background_track_data_ this)).
Qed.

Lemma use_frame_timestamp_filter (this : MlfEngine) (frame : LidarFrame)
    (f : bool → bool) :
  List.filter (λ d, f (is_background d))
    (segmented_objects (use_frame_timestamp this frame))
  = map (if use_frame_timestamp_ this
         then set_latest_tracked_time (timestamp frame) else id)
      (List.filter (λ d, f (is_background d)) (segmented_objects frame)).
Proof.
  unfold use_frame_timestamp. destruct (use_frame_timestamp_ this); simpl.
  - induction (segmented_objects frame) as [|d l IH]; [done|]. simpl.
    destruct (f (is_background d)); simpl; by rewrite IH.
  - by rewrite map_id.
Qed.

Lemma engine_after_split_lengths (this : MlfEngine) (frame : LidarFrame) :
  length (foreground_objects_ (engine_after_split this frame))
  = length (List.filter (λ d, negb (is_background d)) (segmented_objects frame))
  ∧ length (background_objects_ (engine_after_split this frame))
    = length (List.filter is_background (segmented_objects frame)).
Proof.
  unfold engine_after_split. simpl. rewrite !length_map.
  rewrite (use_frame_timestamp_filter this frame negb).
  assert (List.filter is_background (segmented_objects (use_frame_timestamp this frame))
          = map (if use_frame_timestamp_ this
                 then set_latest_tracked_time (timestamp frame) else id)
              (List.filter is_background (segmented_objects frame))) as ->
    by exact (use_frame_timestamp_filter this frame id).
  by rewrite !length_map.
Qed.

Lemma set_static_outside_hdmap_fields (this : MlfEngine) (frame : LidarFrame) :
  timestamp (set_static_outside_hdmap this frame).2 = timestamp frame
  ∧ sensor_info (set_static_outside_hdmap this frame).2 = sensor_info frame
  ∧ segmented_objects (set_static_outside_hdmap this frame).2 = segmented_objects frame
  ∧ lidar2world_pose (set_static_outside_hdmap this frame).2 = lidar2world_pose frame
  ∧ hdmap_struct (set_static_outside_hdmap this frame).2 = hdmap_struct frame
  ∧ length (tracked_objects (set_static_outside_hdmap this frame).2)
    = length (tracked_objects frame).
Proof.
  unfold set_static_outside_hdmap.
  destruct (negb (set_static_outside_hdmap_ this)); [done|].
  destruct (hdmap_struct frame) as [roi|] eqn:Hroi; simpl; rewrite ?Hroi; [|done].
  destruct (vector_empty (road_polygons roi) && vector_empty (junction_polygons roi)
            && vector_empty (road_boundary roi)); simpl; by rewrite ?Hroi, ?length_map.
Qed.

(** X11. [Track] returns true, leaves the six fields of the
    configuration as [Init] set them, and leaves in
    [sensor_to_local_pose_] the pose of the frame translated by the
    offset that the engine holds after the call. *)
Theorem Track_keeps_configuration (this : MlfEngine)
    (options : MultiTargetTrackerOptions) (frame : LidarFrame) (w : World) :
  matcher_is_valid →
  (IsMainSensor (name (sensor_info frame)) = true → sizes_fit this frame) →
  ∃ frame' this' w' trace,
    Track this options frame w = Some ((true, frame', this'), w', trace)
    ∧ same_configuration this' this
    ∧ sensor_to_local_pose_ this'
      = pretranslate (global_to_local_offset_ this') (lidar2world_pose frame).
Proof.
  intros Hvalid Hfit.
  destruct (Track_until_stale_removed_steps this options frame w Hvalid Hfit)
    as (trace0 & fg1 & w1 & trace1 & bg1 & w2 & trace2 & fg2 & bg2 & w3 & trace3
        & objects & trace4 & _ & _ & _ & _ & _ & _ & _ & Hrun).
  rewrite Track_unfold, Hrun. eexists _, _, _, _. split; [done|].
  destruct (engine_after_split_fields this frame) as (Hconf & _ & _ & _ & Hpose).
  split; [exact Hconf|exact Hpose].
Qed.

(** X12. Of the frame, [Track] writes [tracked_objects] and, with
    [use_frame_timestamp_] set, the [latest_tracked_time] of every
    detection, which becomes the timestamp of the frame; the detections
    stay in their order, and the timestamp, the sensor, the pose and the
    map structure of the frame stay as they were. *)
Theorem Track_frame_fields (this : MlfEngine)
    (options : MultiTargetTrackerOptions) (frame : LidarFrame) (w : World) :
  matcher_is_valid →
  (IsMainSensor (name (sensor_info frame)) = true → sizes_fit this frame) →
  ∃ frame' this' w' trace,
    Track this options frame w = Some ((true, frame', this'), w', trace)
    ∧ timestamp frame' = timestamp frame
    ∧ sensor_info frame' = sensor_info frame
    ∧ lidar2world_pose frame' = lidar2world_pose frame
    ∧ hdmap_struct frame' = hdmap_struct frame
    ∧ segmented_objects frame'
      = (if use_frame_timestamp_ this
         then map (set_latest_tracked_time (timestamp frame)) (segmented_objects frame)
         else segmented_objects frame).
Proof.
  intros Hvalid Hfit.
  destruct (Track_until_stale_removed_steps this options frame w Hvalid Hfit)
    as (trace0 & fg1 & w1 & trace1 & bg1 & w2 & trace2 & fg2 & bg2 & w3 & trace3
        & objects & trace4 & _ & _ & _ & _ & _ & _ & _ & Hrun).
  rewrite Track_unfold, Hrun. eexists _, _, _, _. split; [done|].
  match goal with
  | |- context [set_static_outside_hdmap ?e ?f] =>
      destruct (set_static_outside_hdmap_fields e f)
        as (-> & -> & -> & -> & -> & _)
  end.
  unfold use_frame_timestamp. by destruct (use_frame_timestamp_ this).
Qed.

(** X13. Every track that [Track] leaves in a ledger passes the test of
    line 242 at the timestamp of the frame, and a ledger grows by no
    more than the number of the frame's detections of its kind. *)
Theorem Track_ledgers_alive_and_bounded (this : MlfEngine)
    (options : MultiTargetTrackerOptions) (frame : LidarFrame) (w : World) :
  matcher_is_valid →
  (IsMainSensor (name (sensor_info frame)) = true → sizes_fit this frame) →
  ∃ frame' this' w' trace,
    Track this options frame w = Some ((true, frame', this'), w', trace)
    ∧ Forall (λ track, is_alive this (timestamp frame) track = true)
        (foreground_track_data_ this' ++ background_track_data_ this')
    ∧ (length (foreground_track_data_ this')
       ≤ length (foreground_track_data_ this)
         + length (List.filter (λ d, negb (is_background d)) (segmented_objects frame)))%nat
    ∧ (length (background_track_data_ this')
       ≤ length (background_track_data_ this)
         + length (List.filter is_background (segmented_objects frame)))%nat.
Proof.
  intros Hvalid Hfit.
  destruct (Track_until_stale_removed_steps this options frame w Hvalid Hfit)
    as (trace0 & fg1 & w1 & trace1 & bg1 & w2 & trace2 & fg2 & bg2 & w3 & trace3
        & objects & trace4 & _ & _ & Hlen1 & _ & Hlen2 & Hmain & Hother & Hrun).
  rewrite Track_unfold, Hrun. eexists _, _, _, _. split; [done|].
  destruct (engine_after_split_lengths this frame) as [Hfgo Hbgo].
  rewrite Hfgo in Hlen1. rewrite Hbgo in Hlen2.
  assert (length fg2 = length fg1 ∧ length bg2 = length bg1) as [Hfg2 Hbg2].
  { destruct (IsMainSensor (name (sensor_info frame))) eqn:Hsensor.
    - destruct (Hmain eq_refl) as (wa & tracea & traceb & _ & _ & _ & Hl1 & Hl2 & _).
      done.
    - by destruct (Hother eq_refl) as (-> & -> & _). }
  simpl. split; [|split].
  - apply Forall_app. split; apply Forall_forall; intros track Hin;
      by apply list_elem_of_In, filter_In in Hin as [_ Halive].
  - pose proof (filter_length (is_alive this (timestamp frame)) fg2). lia.
  - pose proof (filter_length (is_alive this (timestamp frame)) bg2). lia.
Qed.

(** X14. A frame whose timestamp is a NaN empties both ledgers, and so
    does every frame when [reserved_invisible_time_] is a NaN: the
    comparison of line 242 is false for every track, the tracks that the
    call has just created included. *)
Theorem Track_nan_timestamp_empties_ledgers (this : MlfEngine)
    (options : MultiTargetTrackerOptions) (frame : LidarFrame) (w : World) :
  matcher_is_valid →
  (IsMainSensor (name (sensor_info frame)) = true → sizes_fit this frame) →
  is_nan (timestamp frame) = true ∨ is_nan (reserved_invisible_time_ this) = true →
  ∃ frame' this' w' trace,
    Track this options frame w = Some ((true, frame', this'), w', trace)
    ∧ foreground_track_data_ this' = []
    ∧ background_track_data_ this' = [].
Proof.
  intros Hvalid Hfit Hnan.
  destruct (Track_until_stale_removed_steps this options frame w Hvalid Hfit)
    as (trace0 & fg1 & w1 & trace1 & bg1 & w2 & trace2 & fg2 & bg2 & w3 & trace3
        & objects & trace4 & _ & _ & _ & _ & _ & _ & _ & Hrun).
  rewrite Track_unfold, Hrun. eexists _, _, _, _. split; [done|].
  assert (∀ tracks, List.filter (is_alive this (timestamp frame)) tracks = [])
    as Hnone.
  { intros tracks. apply filter_none. intros track. apply is_alive_nan. tauto. }
  simpl. by rewrite !Hnone.
Qed.

(** X15. After [Track] the two vectors of tracked objects of the engine
    are made of the detections of the frame as the call leaves them,
    with the pose, the offset and the histogram options that the engine
    holds after the call: the detections that are not background in
    [foreground_objects_], the background ones in [background_objects_],
    each kind in the order of the frame. *)
Theorem Track_object_vectors (this : MlfEngine)
    (options : MultiTargetTrackerOptions) (frame : LidarFrame) (w : World) :
  matcher_is_valid →
  (IsMainSensor (name (sensor_info frame)) = true → sizes_fit this frame) →
  ∃ frame' this' w' trace,
    Track this options frame w = Some ((true, frame', this'), w', trace)
    ∧ foreground_objects_ this'
      = map (λ d, (transform_tracked_object this' (sensor_info frame') d
                     TrackedObject_fresh).1)
          (List.filter (λ d, negb (is_background d)) (segmented_objects frame'))
    ∧ background_objects_ this'
      = map (λ d, (transform_tracked_object this' (sensor_info frame') d
                     TrackedObject_fresh).1)
          (List.filter is_background (segmented_objects frame')).
Proof.
  intros Hvalid Hfit.
  destruct (Track_until_stale_removed_steps this options frame w Hvalid Hfit)
    as (trace0 & fg1 & w1 & trace1 & bg1 & w2 & trace2 & fg2 & bg2 & w3 & trace3
        & objects & trace4 & _ & _ & _ & _ & _ & _ & _ & Hrun).
  rewrite Track_unfold, Hrun. eexists _, _, _, _. split; [done|].
  match goal with
  | |- context [set_static_outside_hdmap ?e ?f] =>
      destruct (set_static_outside_hdmap_fields e f)
        as (_ & -> & -> & _)
  end.
  done.
Qed.

Lemma TrackObjectMatchAndAssign_nothing_to_assign
    (match_options : MlfTrackObjectMatcherOptions) (name : string)
    (tracks : list MlfTrackData) (w : World) :
  matcher_is_valid →
  TrackObjectMatchAndAssign match_options [] name tracks w
  = Some (tracks, (Match match_options [] tracks w).2, [CallMatch [] tracks]).
Proof.
  intros Hvalid.
  destruct (Hvalid match_options [] tracks w) as [Hrange _].
  destruct (TrackObjectMatchAndAssign_run match_options [] name tracks w Hrange)
    as (pushed & Hpush & ->).
  destruct Hrange as [Hpairs Hids].
  destruct (assignments (Match match_options [] tracks w).1) as [|pair pairs].
  2: { apply Forall_cons in Hpairs as [[_ Hlt] _]. simpl in Hlt. lia. }
  destruct (unassigned_objects (Match match_options [] tracks w).1) as [|id ids].
  2: { apply Forall_cons in Hids as [Hlt _]. simpl in Hlt. lia. }
  simpl in Hpush. injection Hpush as <-. simpl. by rewrite app_nil_r.
Qed.

(** X16. A frame without detections from a sensor that is not the main
    sensor still ages the ledgers: [Track] calls the matcher twice, with
    no object, and the tracker not at all, and it leaves in each ledger
    the tracks that pass the test of line 242 at the timestamp of the
    frame, as they were and in their order.  The frame is returned with
    an empty [tracked_objects]. *)
Theorem Track_of_secondary_sensor_without_detections (this : MlfEngine)
    (options : MultiTargetTrackerOptions) (frame : LidarFrame) (w : World) :
  matcher_is_valid →
  IsMainSensor (name (sensor_info frame)) = false →
  segmented_objects frame = [] →
  ∃ this' w',
    Track this options frame w
    = Some ((true, set_tracked_objects [] frame, this'), w',
            [CallMatch [] (foreground_track_data_ this);
             CallMatch [] (background_track_data_ this)])
    ∧ foreground_track_data_ this'
      = List.filter (is_alive this (timestamp frame)) (foreground_track_data_ this)
    ∧ background_track_data_ this'
      = List.filter (is_alive this (timestamp frame)) (background_track_data_ this)
    ∧ foreground_objects_ this' = []
    ∧ background_objects_ this' = [].
Proof.
  intros Hvalid Hsensor Hnone.
  destruct (Track_until_stale_removed_steps this options frame w Hvalid)
    as (trace0 & fg1 & w1 & trace1 & bg1 & w2 & trace2 & fg2 & bg2 & w3 & trace3
        & objects & trace4 & Hsplit & Hrun1 & _ & Hrun2 & _ & _ & Hother & Hrun).
  { by rewrite Hsensor. }
  destruct (Hother Hsensor) as (-> & -> & -> & -> & -> & ->).
  rewrite Track_unfold, Hrun. clear Hrun.
  destruct (engine_after_split_fields this frame) as (_ & Hfg & Hbg & _).
  assert (segmented_objects (use_frame_timestamp this frame) = []) as Hnone0.
  { unfold use_frame_timestamp. destruct (use_frame_timestamp_ this); simpl;
      by rewrite Hnone. }
  assert (use_frame_timestamp this frame = frame) as Hframe.
  { unfold use_frame_timestamp. destruct (use_frame_timestamp_ this); [|done].
    rewrite Hnone. simpl. destruct frame. simpl in *. by subst. }
  rewrite SplitAndTransform_run in Hsplit.
  apply (f_equal (from_option snd [])) in Hsplit. simpl in Hsplit.
  rewrite Hnone0 in Hsplit. simpl in Hsplit. subst trace0.
  assert (foreground_objects_ (engine_after_split this frame) = []
          ∧ background_objects_ (engine_after_split this frame) = []) as [Hfgo Hbgo].
  { unfold engine_after_split. simpl. by rewrite Hnone0. }
  rewrite Hfgo, TrackObjectMatchAndAssign_nothing_to_assign in Hrun1 by done.
  rewrite Hbgo, TrackObjectMatchAndAssign_nothing_to_assign in Hrun2 by done.
  injection Hrun1 as <- <- <-. injection Hrun2 as <- <- <-.
  rewrite Hframe.
  exists (set_background_track_data_
            (List.filter (is_alive this (timestamp frame)) (background_track_data_ this))
            (set_foreground_track_data_
               (List.filter (is_alive this (timestamp frame))
                  (foreground_track_data_ this))
               (engine_after_split this frame))).
  eexists. split; [|split; [done|split; [done|split; [exact Hfgo|exact Hbgo]]]].
  simpl. do 2 f_equal. do 2 f_equal.
  unfold set_static_outside_hdmap.
  destruct (negb _); [done|].
  simpl. destruct (hdmap_struct frame) as [roi|]; [|done].
  by destruct (vector_empty (road_polygons roi) && vector_empty (junction_polygons roi)
               && vector_empty (road_boundary roi)).
Qed.

Lemma to_object_calls_none (trace : list Event) :
  Forall (λ e, ∀ track_data, e ≠ CallToObject track_data) trace →
  to_object_calls trace = [].
Proof.
  unfold to_object_calls.
  induction 1 as [|e l He _ IH]; [done|].
  destruct e; simpl; try exact IH. by destruct (He track_data).
Qed.

Lemma is_skipped_same (this this' : MlfEngine) (tracks : list MlfTrackData) :
  output_predict_objects_ this' = output_predict_objects_ this →
  List.filter (is_skipped this') tracks = List.filter (is_skipped this) tracks
  ∧ List.filter (λ t, negb (is_skipped this' t)) tracks
    = List.filter (λ t, negb (is_skipped this t)) tracks.
Proof.
  intros Hsame. unfold is_skipped. by rewrite Hsame.
Qed.

(** X17. On a frame of the main sensor the objects are collected before
    the stale tracks are removed.  With [fg] and [bg] the ledgers that
    the two calls of [TrackStateFilter] return, [CollectTrackedResult]
    runs on an engine that holds [fg] and [bg] whole, and the ledgers
    that [Track] leaves are what [RemoveStaleTrackData] keeps of [fg]
    and [bg]: [ToObject] is called on every track of [fg] and [bg] that
    is not skipped, the ones that the same call then removes from the
    ledger included, and the frame gets one object for each of them.
    With [output_predict_objects_] set the frame has at least as many
    objects as the engine keeps tracks. *)
Theorem Track_collects_before_removal (this : MlfEngine)
    (options : MultiTargetTrackerOptions) (frame : LidarFrame) (w : World) :
  matcher_is_valid →
  sizes_fit this frame →
  IsMainSensor (name (sensor_info frame)) = true →
  ∃ fg1 w1 trace1 bg1 w2 trace2 fg wa tracea bg traceb objects collected
    frame' this' w' trace,
    TrackObjectMatchAndAssign mkMlfTrackObjectMatcherOptions
      (foreground_objects_ (engine_after_split this frame)) "foreground"
      (foreground_track_data_ this) w
    = Some (fg1, w1, trace1)
    ∧ TrackObjectMatchAndAssign mkMlfTrackObjectMatcherOptions
        (background_objects_ (engine_after_split this frame)) "background"
        (background_track_data_ this) w1
      = Some (bg1, w2, trace2)
    ∧ TrackStateFilter fg1 (timestamp frame) w2 = Some (fg, wa, tracea)
    ∧ TrackStateFilter bg1 (timestamp frame) wa = Some (bg, w', traceb)
    ∧ CollectTrackedResult
        (set_background_track_data_ bg
           (set_foreground_track_data_ fg (engine_after_split this frame)))
        (set_tracked_objects [] (use_frame_timestamp this frame))
      = Some (set_tracked_objects objects (use_frame_timestamp this frame), collected)
    ∧ Track this options frame w = Some ((true, frame', this'), w', trace)
    ∧ frame'
      = (set_static_outside_hdmap this'
           (set_tracked_objects objects (use_frame_timestamp this frame))).2
    ∧ foreground_track_data_ this' = List.filter (is_alive this (timestamp frame)) fg
    ∧ background_track_data_ this' = List.filter (is_alive this (timestamp frame)) bg
    ∧ to_object_calls collected
      = List.filter (λ t, negb (is_skipped this t)) (fg ++ bg)
    ∧ to_object_calls trace = to_object_calls collected
    ∧ (length (tracked_objects frame')
       + length (List.filter (is_skipped this) (fg ++ bg))
       = length fg + length bg)%nat
    ∧ (output_predict_objects_ this = true →
       (length (foreground_track_data_ this') + length (background_track_data_ this')
        ≤ length (tracked_objects frame'))%nat).
Proof.
  intros Hvalid Hfit Hsensor.
  destruct (Track_until_stale_removed_steps this options frame w Hvalid (λ _, Hfit))
    as (trace0 & fg1 & w1 & trace1 & bg1 & w2 & trace2 & fg2 & bg2 & w3 & trace3
        & objects & trace4 & Hsplit & Hrun1 & Hlen1 & Hrun2 & Hlen2 & Hmain & _ & Hrun).
  destruct (Hmain Hsensor)
    as (wa & tracea & traceb & Hrun3 & Hrun4 & -> & Hlen3 & Hlen4 & Hrun5).
  rewrite Track_unfold, Hrun. clear Hrun.
  exists fg1, w1, trace1, bg1, w2, trace2, fg2, wa, tracea, bg2, traceb, objects, trace4.
  exists (set_static_outside_hdmap
            (set_background_track_data_
               (List.filter (is_alive this (timestamp frame)) bg2)
               (set_foreground_track_data_
                  (List.filter (is_alive this (timestamp frame)) fg2)
                  (engine_after_split this frame)))
            (set_tracked_objects objects (use_frame_timestamp this frame))).2.
  eexists _, _, _.
  split; [exact Hrun1|]. split; [exact Hrun2|]. split; [exact Hrun3|].
  split; [exact Hrun4|]. split; [exact Hrun5|].
  split; [done|]. split; [done|]. split; [done|]. split; [done|].
  destruct (engine_after_split_fields this frame)
    as ((_ & _ & Hpredict & _) & Hfg & Hbg & _).
  destruct (engine_after_split_lengths this frame) as [Hfgo Hbgo].
  pose proof (filter_partition_length is_background (segmented_objects frame)) as Hpart.
  destruct (CollectTrackedResult_spec
              (set_background_track_data_ bg2
                 (set_foreground_track_data_ fg2 (engine_after_split this frame)))
              (set_tracked_objects [] (use_frame_timestamp this frame)))
    as (objects' & trace4' & Hrun5' & Hcount & _ & Hcalls).
  { unfold sizes_fit in Hfit. simpl. lia. }
  rewrite Hrun5 in Hrun5'. injection Hrun5' as <- <-.
  simpl in Hcount, Hcalls.
  destruct (is_skipped_same this
              (set_background_track_data_ bg2
                 (set_foreground_track_data_ fg2 (engine_after_split this frame)))
              (fg2 ++ bg2)) as [Hskip Hkept]; [exact Hpredict|].
  rewrite Hskip in Hcount. rewrite Hkept in Hcalls.
  destruct (TrackStateFilter_trace fg1 (timestamp frame) w2)
    as (fg2' & wa' & tracea' & Hrun3' & _ & [Hcalls3 _ _ _]).
  rewrite Hrun3 in Hrun3'. injection Hrun3' as <- <- <-.
  destruct (TrackStateFilter_trace bg1 (timestamp frame) wa)
    as (bg2' & w3' & traceb' & Hrun4' & _ & [Hcalls4 _ _ _]).
  rewrite Hrun4 in Hrun4'. injection Hrun4' as <- <- <-.
  destruct (TrackObjectMatchAndAssign_total mkMlfTrackObjectMatcherOptions
              (foreground_objects_ (engine_after_split this frame)) "foreground"
              (foreground_track_data_ this) w Hvalid)
    as (fg1' & w1' & trace1' & Hrun1' & _ & Hcalls1).
  rewrite Hrun1 in Hrun1'. injection Hrun1' as <- <- <-.
  destruct (TrackObjectMatchAndAssign_total mkMlfTrackObjectMatcherOptions
              (background_objects_ (engine_after_split this frame)) "background"
              (background_track_data_ this) w1 Hvalid)
    as (bg1' & w2' & trace2' & Hrun2' & _ & Hcalls2).
  rewrite Hrun2 in Hrun2'. injection Hrun2' as <- <- <-.
  rewrite SplitAndTransform_run in Hsplit.
  apply (f_equal (from_option snd [])) in Hsplit. simpl in Hsplit. subst trace0.
  split; [exact Hcalls|]. split; [|split].
  - rewrite !to_object_calls_app.
    rewrite (to_object_calls_none (concat _)), (to_object_calls_none trace1),
      (to_object_calls_none trace2), (to_object_calls_none tracea),
      (to_object_calls_none traceb); [done|..].
    all: eapply Forall_impl; [first [eassumption|apply SplitAndTransform_trace]|].
    all: intros e He track_data ->; simpl in He; tauto.
  - match goal with
    | |- context [set_static_outside_hdmap ?e ?f] =>
        destruct (set_static_outside_hdmap_fields e f) as (_ & _ & _ & _ & _ & ->)
    end.
    simpl. exact Hcount.
  - intros Hout.
    match goal with
    | |- context [set_static_outside_hdmap ?e ?f] =>
        destruct (set_static_outside_hdmap_fields e f) as (_ & _ & _ & _ & _ & ->)
    end.
    assert (List.filter (is_skipped this) (fg2 ++ bg2) = []) as Hnil.
    { apply filter_none. intros t. unfold is_skipped. by rewrite Hout. }
    rewrite Hnil in Hcount. simpl in *.
    pose proof (filter_length (is_alive this (timestamp frame)) fg2).
    pose proof (filter_length (is_alive this (timestamp frame)) bg2).
    lia.
Qed.

Lemma Track_until_stale_removed_ignores_previous_results (this : MlfEngine)
    (options : MultiTargetTrackerOptions) (frame : LidarFrame)
    (fg bg : list TrackedObject) (previous : list Object) :
  Track_until_stale_removed (set_tracked_object_lists fg bg this) options
    (set_tracked_objects previous frame)
  = Track_until_stale_removed this options frame.
Proof.
  unfold Track_until_stale_removed. cbv zeta.
  rewrite !SplitAndTransform_run.
  unfold use_frame_timestamp, add_global_offset_to_pose. simpl.
  destruct (use_frame_timestamp_ this);
    by destruct (vector_empty (foreground_track_data_ this)
                 && vector_empty (background_track_data_ this)).
Qed.

(** X21. What the engine holds in [foreground_objects_] and
    [background_objects_] and what the frame holds in [tracked_objects]
    when [Track] is called have no part in what [Track] does: the three
    vectors are rebuilt from the detections and the ledgers. *)
Theorem Track_ignores_previous_results (this : MlfEngine)
    (options : MultiTargetTrackerOptions) (frame : LidarFrame) (w : World)
    (fg bg : list TrackedObject) (previous : list Object) :
  Track (set_tracked_object_lists fg bg this) options
    (set_tracked_objects previous frame) w
  = Track this options frame w.
Proof.
  unfold Track. by rewrite Track_until_stale_removed_ignores_previous_results.
Qed.

Lemma compute_shape_features_trace (this : MlfEngine) (sensor_info : SensorInfo)
    (objects : list Object) :
  Forall is_compute_shape_features_call
    (concat
       (map (λ d, (transform_tracked_object this sensor_info d TrackedObject_fresh).2)
          objects)).
Proof.
  induction objects as [|d l IH]; simpl; [constructor|].
  apply Forall_app. split; [|done].
  unfold transform_tracked_object.
  destruct (negb (is_background d) && use_histogram_for_match_ this); simpl.
  - by constructor.
  - constructor.
Qed.

(** X20. The order of the calls that [Track] makes: the calls of
    [ComputeShapeFeatures] of the split; the matcher on the foreground
    objects with the foreground ledger as it is at entry, then the
    tracks that are created for them; the matcher on the background
    objects with the background ledger as it is at entry, then the
    tracks that are created for them; the calls of the state filter;
    and last the calls of [ToObject].  The matcher is called twice on
    every frame, and on a frame of a sensor that is not the main sensor
    nothing follows the creation of the tracks. *)
Theorem Track_order_of_calls (this : MlfEngine)
    (options : MultiTargetTrackerOptions) (frame : LidarFrame) (w : World) :
  matcher_is_valid →
  (IsMainSensor (name (sensor_info frame)) = true → sizes_fit this frame) →
  ∃ frame' this' w' shape init_fg init_bg filter collect,
    Track this options frame w
    = Some ((true, frame', this'), w',
            shape
            ++ CallMatch (foreground_objects_ this') (foreground_track_data_ this)
               :: init_fg
            ++ CallMatch (background_objects_ this') (background_track_data_ this)
               :: init_bg
            ++ filter ++ collect)
    ∧ Forall is_compute_shape_features_call shape
    ∧ Forall is_initialize_track_call init_fg
    ∧ Forall is_initialize_track_call init_bg
    ∧ Forall is_state_filter_call filter
    ∧ Forall is_collect_event collect
    ∧ (IsMainSensor (name (sensor_info frame)) = false → filter = [] ∧ collect = []).
Proof.
  intros Hvalid Hfit.
  destruct (Track_until_stale_removed_steps this options frame w Hvalid Hfit)
    as (trace0 & fg1 & w1 & trace1 & bg1 & w2 & trace2 & fg2 & bg2 & w3 & trace3
        & objects & trace4 & Hsplit & Hrun1 & Hlen1 & Hrun2 & Hlen2 & Hmain & Hother
        & Hrun).
  rewrite Track_unfold, Hrun. clear Hrun.
  assert (Forall is_compute_shape_features_call trace0) as Hshape.
  { rewrite SplitAndTransform_run in Hsplit.
    apply (f_equal (from_option snd [])) in Hsplit. simpl in Hsplit. subst trace0.
    apply compute_shape_features_trace. }
  assert (∀ objects name tracks w0 tracks' w' trace,
            TrackObjectMatchAndAssign mkMlfTrackObjectMatcherOptions objects name
              tracks w0 = Some (tracks', w', trace) →
            ∃ init, trace = CallMatch objects tracks :: init
                    ∧ Forall is_initialize_track_call init) as Hmatch.
  { intros objects0 name0 tracks w0 tracks' w' trace Hrun0.
    destruct (TrackObjectMatchAndAssign_run mkMlfTrackObjectMatcherOptions
                objects0 name0 tracks w0) as (pushed & _ & Hrun0'); [apply Hvalid|].
    rewrite Hrun0 in Hrun0'. injection Hrun0' as _ _ ->.
    eexists. split; [done|]. apply Forall_map, Forall_true. by intros o. }
  destruct (Hmatch _ _ _ _ _ _ _ Hrun1) as (init_fg & -> & Hinit1).
  destruct (Hmatch _ _ _ _ _ _ _ Hrun2) as (init_bg & -> & Hinit2).
  assert (Forall is_state_filter_call trace3 ∧ Forall is_collect_event trace4
          ∧ (IsMainSensor (name (sensor_info frame)) = false
             → trace3 = [] ∧ trace4 = [])) as (Hfilter & Hcollect & Hnone).
  { destruct (IsMainSensor (name (sensor_info frame))) eqn:Hsensor.
    - destruct (Hmain eq_refl)
        as (wa & tracea & traceb & Hrun3 & Hrun4 & -> & Hlen3 & Hlen4 & Hrun5).
      destruct (TrackStateFilter_trace fg1 (timestamp frame) w2)
        as (fg2' & wa' & tracea' & Hrun3' & _ & [Hcalls3 _ _ _]).
      rewrite Hrun3 in Hrun3'. injection Hrun3' as <- <- <-.
      destruct (TrackStateFilter_trace bg1 (timestamp frame) wa)
        as (bg2' & w3' & traceb' & Hrun4' & _ & [Hcalls4 _ _ _]).
      rewrite Hrun4 in Hrun4'. injection Hrun4' as <- <- <-.
      destruct (CollectTrackedResult_spec
                  (set_background_track_data_ bg2
                     (set_foreground_track_data_ fg2 (engine_after_split this frame)))
                  (set_tracked_objects [] (use_frame_timestamp this frame)))
        as (objects' & trace4' & Hrun5' & _ & Hok & _).
      { specialize (Hfit eq_refl). unfold sizes_fit in Hfit.
        destruct (engine_after_split_lengths this frame) as [Hfgo Hbgo].
        pose proof (filter_partition_length is_background (segmented_objects frame)).
        rewrite Hfgo in Hlen1. rewrite Hbgo in Hlen2.
        simpl. lia. }
      rewrite Hrun5 in Hrun5'. injection Hrun5' as _ <-.
      split; [by apply Forall_app|]. split; [|done].
      eapply Forall_impl; [exact Hok|]. by intros [].
    - by destruct (Hother eq_refl) as (_ & _ & _ & -> & _ & ->). }
  eexists.
  exists (set_background_track_data_
            (List.filter (is_alive this (timestamp frame)) bg2)
            (set_foreground_track_data_
               (List.filter (is_alive this (timestamp frame)) fg2)
               (engine_after_split this frame))).
  exists w3, trace0, init_fg, init_bg, trace3, trace4.
  split; [reflexivity|]. done.
Qed.

(** X22. Nothing in [Track] catches what [at] throws: when the matcher
    returns for the foreground a pair whose track index is not an index
    of the foreground ledger, [Track] does not return. *)
Theorem Track_matcher_index_out_of_range (this : MlfEngine)
    (options : MultiTargetTrackerOptions) (frame : LidarFrame) (w : World)
    (pair : nat * nat) :
  pair ∈ assignments
           (Match mkMlfTrackObjectMatcherOptions
              (foreground_objects_ (engine_after_split this frame))
              (foreground_track_data_ this) w).1 →
  (length (foreground_track_data_ this) ≤ pair.1)%nat →
  Track this options frame w = None.
Proof.
  intros Hin Hbad.
  assert (TrackObjectMatchAndAssign mkMlfTrackObjectMatcherOptions
            (foreground_objects_ (engine_after_split this frame)) "foreground"
            (foreground_track_data_ this) w = None) as Hnone.
  { unfold TrackObjectMatchAndAssign, mbind, M_MBind.
    unfold M_bind at 1. unfold call.
    destruct (Match mkMlfTrackObjectMatcherOptions
                (foreground_objects_ (engine_after_split this frame))
                (foreground_track_data_ this) w) as [result w0]. simpl in *.
    unfold M_bind, lift_option.
    rewrite push_assigned_loop_out_of_range; [done|]. by exists pair. }
  rewrite Track_unfold.
  unfold Track_until_stale_removed. cbv zeta.
  destruct (add_global_offset_to_pose_tracks this (use_frame_timestamp this frame))
    as (Hfg1 & _).
  rewrite <- Hfg1 in Hnone.
  erewrite mbind_Some; last first.
  { unfold lift_logged. by rewrite SplitAndTransform_run. }
  cbv beta.
  unfold mbind, M_MBind. unfold M_bind at 1.
  match goal with
  | |- context [TrackObjectMatchAndAssign ?mo ?objects "foreground" ?tracks w] =>
      change (TrackObjectMatchAndAssign mo objects "foreground" tracks w)
        with (TrackObjectMatchAndAssign mkMlfTrackObjectMatcherOptions
                (foreground_objects_ (engine_after_split this frame)) "foreground"
                (foreground_track_data_
                   (add_global_offset_to_pose this (use_frame_timestamp this frame)))
                w)
  end.
  by rewrite Hnone.
Qed.

End TrackProperties.

(** ** Further properties: [Init] and [Clear] *)

Section InitProperties.
Context `{Payloads} `{!DataMethods} `{!MlfTrackObjectMatcher} `{!MlfTracker} `{!Services}.

Lemma Init_Some (this this' : MlfEngine) (config : option MlfEngineConfig)
    (matcher_init tracker_init result : bool) :
  Init this config matcher_init tracker_init = Some (result, this') →
  result = true ∧ matcher_init = true ∧ tracker_init = true
  ∧ foreground_objects_ this' = [] ∧ background_objects_ this' = []
  ∧ foreground_track_data_ this' = [] ∧ background_track_data_ this' = []
  ∧ global_to_local_offset_ this' = global_to_local_offset_ this
  ∧ sensor_to_local_pose_ this' = sensor_to_local_pose_ this
  ∧ config
    = Some {| config_use_histogram_for_match := use_histogram_for_match_ this';
              config_histogram_bin_size := histogram_bin_size_ this';
              config_output_predict_objects := output_predict_objects_ this';
              config_reserved_invisible_time := reserved_invisible_time_ this';
              config_use_frame_timestamp := use_frame_timestamp_ this';
              config_set_static_outside_hdmap := set_static_outside_hdmap_ this' |}.
Proof.
  unfold Init. destruct config as [[]|]; [|done]. simpl.
  destruct matcher_init, tracker_init; simpl; try done.
  intros [= <- <-]. by repeat split.
Qed.

(** X18. [Init] fails when the configuration cannot be read or when the
    matcher or the tracker fails to initialise, and only then.  When it
    returns, it returns true; the two vectors of objects and the two
    ledgers are empty; the six options are those of the configuration;
    and the offset and the pose are left as they were.  What the engine
    held in its vectors and ledgers has no part in the result. *)
Theorem Init_spec (this : MlfEngine) (config : option MlfEngineConfig)
    (matcher_init tracker_init : bool) :
  (Init this config matcher_init tracker_init = None
   ↔ config = None ∨ matcher_init = false ∨ tracker_init = false)
  ∧ (∀ result this',
       Init this config matcher_init tracker_init = Some (result, this') →
       result = true
       ∧ foreground_objects_ this' = [] ∧ background_objects_ this' = []
       ∧ foreground_track_data_ this' = [] ∧ background_track_data_ this' = []
       ∧ global_to_local_offset_ this' = global_to_local_offset_ this
       ∧ sensor_to_local_pose_ this' = sensor_to_local_pose_ this
       ∧ config
         = Some {| config_use_histogram_for_match := use_histogram_for_match_ this';
                   config_histogram_bin_size := histogram_bin_size_ this';
                   config_output_predict_objects := output_predict_objects_ this';
                   config_reserved_invisible_time := reserved_invisible_time_ this';
                   config_use_frame_timestamp := use_frame_timestamp_ this';
                   config_set_static_outside_hdmap := set_static_outside_hdmap_ this' |})
  ∧ (∀ fg_objects bg_objects fg bg,
       Init (set_background_track_data_ bg
               (set_foreground_track_data_ fg
                  (set_tracked_object_lists fg_objects bg_objects this)))
         config matcher_init tracker_init
       = Init this config matcher_init tracker_init)
  ∧ Init (Clear this) config matcher_init tracker_init
    = Init this config matcher_init tracker_init.
Proof.
  split; [|split; [|split]].
  - unfold Init. destruct config as [c|]; simpl; [|tauto].
    destruct matcher_init, tracker_init; simpl; split; try done; try tauto.
    intros [|[|]]; done.
  - intros result this' Hinit.
    destruct (Init_Some _ _ _ _ _ _ Hinit) as (? & _ & _ & ?). done.
  - done.
  - done.
Qed.

(** X19. The first frame after [Init]: whatever the engine held before
    [Init], [Track] takes the offset from the pose of the frame, every
    track of the ledgers is one that this call created, so that a ledger
    has no more tracks than the frame has detections of its kind, and
    the options are still those of the configuration. *)
Theorem Track_after_Init (this this0 : MlfEngine) (config : MlfEngineConfig)
    (matcher_init tracker_init : bool)
    (options : MultiTargetTrackerOptions) (frame : LidarFrame) (w : World) :
  matcher_is_valid →
  Z.of_nat (length (segmented_objects frame)) < SizeT.modulus →
  Init this (Some config) matcher_init tracker_init = Some (true, this0) →
  ∃ frame' this' w' trace,
    Track this0 options frame w = Some ((true, frame', this'), w', trace)
    ∧ global_to_local_offset_ this'
      = Vector3d_opp (translation (lidar2world_pose frame))
    ∧ (length (foreground_track_data_ this')
       ≤ length (List.filter (λ d, negb (is_background d)) (segmented_objects frame)))%nat
    ∧ (length (background_track_data_ this')
       ≤ length (List.filter is_background (segmented_objects frame)))%nat
    ∧ use_histogram_for_match_ this' = config_use_histogram_for_match config
    ∧ histogram_bin_size_ this' = config_histogram_bin_size config
    ∧ output_predict_objects_ this' = config_output_predict_objects config
    ∧ reserved_invisible_time_ this' = config_reserved_invisible_time config
    ∧ use_frame_timestamp_ this' = config_use_frame_timestamp config
    ∧ set_static_outside_hdmap_ this' = config_set_static_outside_hdmap config.
Proof.
  intros Hvalid Hsize Hinit.
  destruct (Init_Some _ _ _ _ _ _ Hinit)
    as (_ & _ & _ & _ & _ & Hfg & Hbg & _ & _ & Hconfig).
  injection Hconfig as ->.
  destruct (Track_until_stale_removed_steps this0 options frame w Hvalid)
    as (trace0 & fg1 & w1 & trace1 & bg1 & w2 & trace2 & fg2 & bg2 & w3 & trace3
        & objects & trace4 & _ & _ & Hlen1 & _ & Hlen2 & Hmain & Hother & Hrun).
  { intros _. unfold sizes_fit. rewrite Hfg, Hbg. simpl. lia. }
  rewrite Track_unfold, Hrun. eexists _, _, _, _. split; [done|].
  destruct (engine_after_split_fields this0 frame)
    as ((Hc1 & Hc2 & Hc3 & Hc4 & Hc5 & Hc6) & _ & _ & Hoffset & _).
  destruct (engine_after_split_lengths this0 frame) as [Hfgo Hbgo].
  rewrite Hfgo, Hfg in Hlen1. rewrite Hbgo, Hbg in Hlen2.
  rewrite Hfg, Hbg in Hoffset. simpl in Hoffset, Hlen1, Hlen2.
  assert (length fg2 = length fg1 ∧ length bg2 = length bg1) as [Hfg2 Hbg2].
  { destruct (IsMainSensor (name (sensor_info frame))) eqn:Hsensor.
    - destruct (Hmain eq_refl) as (wa & tracea & traceb & _ & _ & _ & Hl1 & Hl2 & _).
      done.
    - by destruct (Hother eq_refl) as (-> & -> & _). }
  split; [exact Hoffset|].
  split.
  { simpl. pose proof (filter_length (is_alive this0 (timestamp frame)) fg2). lia. }
  split.
  { simpl. pose proof (filter_length (is_alive this0 (timestamp frame)) bg2). lia. }
  by repeat split.
Qed.

End InitProperties.

(** ** The engine on the small instance *)

Section Examples.
#[local] Existing Instances
  Stub.payloads Stub.data_methods Stub.matcher Stub.tracker Stub.services.

Lemma Stub_matcher_is_valid : matcher_is_valid.
Proof.
  intros match_options objects tracks w. unfold valid_matching, indices_in_range.
  destruct objects as [|o objects], tracks as [|t tracks]; simpl;
    rewrite ?Nat.sub_0_r.
  all: split; [split|]; try apply NoDup_seq; try by constructor.
  all: try (apply Forall_seq; intros j Hj; simpl; lia).
  - apply (Forall_seq _ 0 (S (length objects))). intros j Hj. simpl. lia.
  - apply (NoDup_seq 0 (S (length objects))).
  - constructor; [simpl; lia|constructor].
Qed.

(** Of four tracks seen last at 1, 4.5, 3.5 and 4 seconds, the second and
    the fourth are kept at 5 seconds with a grace period of one second. *)
Example RemoveStaleTrackData_at_five_seconds :
  RemoveStaleTrackData (Stub.engine [] []) "foreground" 5%float
    [Stub.track 1%float false 7; Stub.track 4.5%float true 8;
     Stub.track 3.5%float false 9; Stub.track 4%float false 10]
  = Some [Stub.track 4.5%float true 8; Stub.track 4%float false 10].
Proof. by vm_compute. Qed.

(** Detections 1 and 3 are foreground and get shape features, detection 2
    is background and gets none. *)
Example SplitAndTransform_of_three_detections :
  SplitAndTransformToTrackedObjects (Stub.engine [] [])
    [Stub.detection 5%float false 1; Stub.detection 5%float true 2;
     Stub.detection 5%float false 3]
    (sensor_info (Stub.frame "velodyne128" 5%float None))
  = Some
      (set_tracked_object_lists
         [Stub.tracked 10 5%float 1 true; Stub.tracked 10 5%float 3 true]
         [Stub.tracked 0 5%float 2 false] (Stub.engine [] []),
       [CallComputeShapeFeatures (Stub.tracked 10 5%float 1 false);
        CallComputeShapeFeatures (Stub.tracked 10 5%float 3 false)]).
Proof. by vm_compute. Qed.

(** A frame of the main sensor on an engine without tracks: three tracks
    are made and published, and track 1, which the map structure of the
    instance leaves outside, is published at rest. *)
Example Track_publishes_three_objects :
  option_map (λ r, tracked_objects r.1.1.1.2)
    (Track (Stub.engine [] []) mkMultiTargetTrackerOptions
       (Stub.frame "velodyne128" 5%float (Some Stub.road)) 0)
  = Some
      [Stub.published 5%float (mkVector3 1%float 0%float 0%float)
         (mkVector3 0%float 1%float 0%float) 0;
       Stub.published 5%float Vector3f_Zero Vector3f_Zero 1;
       Stub.published 5%float (mkVector3 1%float 0%float 0%float)
         (mkVector3 0%float 1%float 0%float) 2].
Proof. by vm_compute. Qed.

(** A frame of another sensor: track 7, last seen at 1 second, gets
    detection 1 in its cache and is removed as stale all the same; track
    8 keeps detection 2 in its cache; detection 3 makes track 0. *)
Example Track_of_secondary_sensor_ledgers :
  option_map (λ r, (foreground_track_data_ r.1.1.2, background_track_data_ r.1.1.2))
    (Track (Stub.engine [Stub.track 1%float false 7] [Stub.track 4.5%float true 8])
       mkMultiTargetTrackerOptions (Stub.frame "velodyne16" 5%float (Some Stub.road)) 0)
  = Some
      ([Stub.track_with_cache 5%float false 0 [(5%float, 3, true)]],
       [Stub.track_with_cache 4.5%float true 8 [(5%float, 2, false)]]).
Proof. by vm_compute. Qed.

(** Three detections on an engine without tracks: the offset is the
    negated translation of the pose. *)
Lemma Track_sets_offset_example :
  ∃ result frame' this' w' trace,
    Track (Stub.engine [] []) mkMultiTargetTrackerOptions
      (Stub.frame "velodyne128" 5%float None) 0
    = Some ((result, frame', this'), w', trace)
    ∧ global_to_local_offset_ this'
      = mkVector3 (-10)%float (-20)%float (-30)%float.
Proof.
  destruct (Track_sets_offset_only_without_tracks (Stub.engine [] [])
              mkMultiTargetTrackerOptions (Stub.frame "velodyne128" 5%float None) 0
              Stub_matcher_is_valid)
    as (result & frame' & this' & w' & trace & Hrun & Hempty & _).
  { unfold sizes_fit. by vm_compute. }
  exists result, frame', this', w', trace. split; [exact Hrun|].
  exact (Hempty eq_refl eq_refl).
Defined.

(** Three tracks of which two are predicted: one object is published. *)
Lemma CollectTrackedResult_example :
  ∃ frame' trace,
    CollectTrackedResult
      (Stub.engine [Stub.track 1%float false 7; Stub.track 2%float true 8]
         [Stub.track 3%float true 9])
      (Stub.frame "velodyne128" 5%float None)
    = Some (frame', trace)
    ∧ length (tracked_objects frame') = 1%nat
    ∧ to_object_calls trace = [Stub.track 1%float false 7].
Proof.
  destruct (CollectTrackedResult_suppresses_predicted
              (Stub.engine [Stub.track 1%float false 7; Stub.track 2%float true 8]
                 [Stub.track 3%float true 9])
              (Stub.frame "velodyne128" 5%float None))
    as (frame' & trace & Hrun & Hlen & Hcalls & _).
  { reflexivity. }
  { by vm_compute. }
  exists frame', trace. split; [exact Hrun|]. split; [exact Hlen|exact Hcalls].
Defined.

(** A frame of another sensor than the main one: nothing is published,
    and the tracker is asked for new tracks only. *)
Lemma Track_of_secondary_sensor_example :
  ∃ result frame' this' w' trace,
    Track (Stub.engine [Stub.track 1%float false 7] [Stub.track 4.5%float true 8])
      mkMultiTargetTrackerOptions (Stub.frame "velodyne16" 5%float (Some Stub.road)) 0
    = Some ((result, frame', this'), w', trace)
    ∧ tracked_objects frame' = []
    ∧ Forall (λ e, ¬ is_filter_or_collect_call e) trace.
Proof.
  destruct (Track_of_secondary_sensor
              (Stub.engine [Stub.track 1%float false 7] [Stub.track 4.5%float true 8])
              mkMultiTargetTrackerOptions
              (Stub.frame "velodyne16" 5%float (Some Stub.road)) 0
              Stub_matcher_is_valid)
    as (this2 & trace0 & fg1 & w1 & trace1 & bg1 & trace2 & result & frame' & this'
        & w' & trace & _ & _ & _ & Hrun & _ & Hempty & _ & _ & _ & Hev).
  { reflexivity. }
  exists result, frame', this', w', trace. split; [exact Hrun|].
  split; [exact Hempty|exact Hev].
Defined.

(** The same frame: the assignment puts detection 1 in the cache of
    track 7, and no track 7 is in the foreground ledger when [Track]
    returns; the cache went with the track. *)
Lemma Track_of_secondary_sensor_removes_cache :
  IsMainSensor (name (sensor_info (Stub.frame "velodyne16" 5%float (Some Stub.road))))
  = false
  ∧ option_map (λ r, r.1.1)
      (TrackObjectMatchAndAssign mkMlfTrackObjectMatcherOptions
         (foreground_objects_
            (engine_after_split
               (Stub.engine [Stub.track 1%float false 7] [Stub.track 4.5%float true 8])
               (Stub.frame "velodyne16" 5%float (Some Stub.road))))
         "foreground" [Stub.track 1%float false 7] 0)
    = Some [Stub.track_with_cache 1%float false 7 [(5%float, 1, true)];
            Stub.track_with_cache 5%float false 0 [(5%float, 3, true)]]
  ∧ option_map (λ r, foreground_track_data_ r.1.1.2)
      (Track (Stub.engine [Stub.track 1%float false 7] [Stub.track 4.5%float true 8])
         mkMultiTargetTrackerOptions
         (Stub.frame "velodyne16" 5%float (Some Stub.road)) 0)
    = Some [Stub.track_with_cache 5%float false 0 [(5%float, 3, true)]]
  ∧ ¬ (∀ track,
         track ∈ [Stub.track_with_cache 1%float false 7 [(5%float, 1, true)];
                  Stub.track_with_cache 5%float false 0 [(5%float, 3, true)]] →
         track ∈ [Stub.track_with_cache 5%float false 0 [(5%float, 3, true)]]).
Proof.
  split; [reflexivity|]. split; [by vm_compute|]. split; [by vm_compute|].
  intros Hall.
  specialize (Hall (Stub.track_with_cache 1%float false 7 [(5%float, 1, true)])
                ltac:(constructor)).
  apply list_elem_of_singleton in Hall. discriminate Hall.
Qed.

(** A frame of the main sensor with a road polygon: every published
    object that is outside has no velocity and no acceleration. *)
Lemma Track_sets_static_example :
  ∃ result frame' this' w' trace,
    Track (Stub.engine [] []) mkMultiTargetTrackerOptions
      (Stub.frame "velodyne128" 5%float (Some Stub.road)) 0
    = Some ((result, frame', this'), w', trace)
    ∧ ∀ obj',
        obj' ∈ tracked_objects frame' → IsObjectInRoi Stub.road obj' = false →
        velocity obj' = Vector3f_Zero ∧ acceleration obj' = Vector3f_Zero.
Proof.
  destruct (Track_sets_static_outside_hdmap (Stub.engine [] [])
              mkMultiTargetTrackerOptions
              (Stub.frame "velodyne128" 5%float (Some Stub.road)) 0
              Stub_matcher_is_valid)
    as (frame1 & result & frame' & this' & w' & trace & _ & Hrun & Hpolicy & _).
  { unfold sizes_fit. by vm_compute. }
  exists result, frame', this', w', trace. split; [exact Hrun|].
  apply (Hpolicy Stub.road). split; [reflexivity|]. split; [reflexivity|].
  left. discriminate.
Defined.

(** One track and two objects: the first object goes to the track, the
    second makes a new track. *)
Lemma TrackObjectMatchAndAssign_example :
  ∃ tracks' w' trace,
    TrackObjectMatchAndAssign mkMlfTrackObjectMatcherOptions
      [Stub.tracked 10 5%float 1 true; Stub.tracked 10 5%float 3 true]
      "foreground" [Stub.track 4%float false 7] 1
    = Some (tracks', w', trace)
    ∧ length tracks' = 2%nat
    ∧ tracks' !! 0%nat
      = Some (Stub.track_with_cache 4%float false 7 [(5%float, 1, true)]).
Proof.
  destruct (TrackObjectMatchAndAssign_spec mkMlfTrackObjectMatcherOptions
              [Stub.tracked 10 5%float 1 true; Stub.tracked 10 5%float 3 true]
              "foreground" [Stub.track 4%float false 7] 1)
    as (tracks' & w' & trace & Hrun & Hlen & Hpush & _).
  { split; repeat constructor. }
  exists tracks', w', trace. split; [exact Hrun|]. split; [exact Hlen|].
  exact (Hpush 0%nat _ eq_refl).
Defined.

(** Three tracks, all predicted: [num_predict] is 3 of 3. *)
Lemma CollectTrackedResult_num_predict_example :
  ∃ st frame' trace,
    collect_all_tracks
      (Stub.engine [Stub.track 1%float true 7; Stub.track 2%float true 8]
         [Stub.track 3%float true 9])
      (Stub.frame "velodyne128" 5%float None)
    = Some (3, st)
    ∧ 0 ≤ collect_num_predict st ≤ 3
    ∧ CollectTrackedResult
        (Stub.engine [Stub.track 1%float true 7; Stub.track 2%float true 8]
           [Stub.track 3%float true 9])
        (Stub.frame "velodyne128" 5%float None)
      = Some (frame', trace)
    ∧ LogError "num_predict > num_objects" ∉ trace.
Proof.
  destruct (CollectTrackedResult_num_predict_bounded
              (Stub.engine [Stub.track 1%float true 7; Stub.track 2%float true 8]
                 [Stub.track 3%float true 9])
              (Stub.frame "velodyne128" 5%float None))
    as (num_objects & st & frame' & trace & Hall & -> & _ & Hnp & _ & Hrun & Hlog).
  { by vm_compute. }
  exists st, frame', trace. split; [exact Hall|]. split; [exact Hnp|].
  split; [exact Hrun|exact Hlog].
Defined.

(** *** The further properties on the small instance *)

Lemma CollectTrackedResult_one_object_example :
  ∃ objects trace,
    CollectTrackedResult
      (Stub.engine [Stub.track 5%float false 1; Stub.track 5%float true 2]
         [Stub.track 5%float false 3])
      (Stub.frame "velodyne128" 5%float None)
    = Some (set_tracked_objects objects (Stub.frame "velodyne128" 5%float None), trace)
    ∧ length objects = 2%nat
    ∧ to_object_calls trace
      = [Stub.track 5%float false 1; Stub.track 5%float false 3].
Proof.
  destruct (CollectTrackedResult_one_object_per_kept_track
              (Stub.engine [Stub.track 5%float false 1; Stub.track 5%float true 2]
                 [Stub.track 5%float false 3])
              (Stub.frame "velodyne128" 5%float None) [])
    as (objects & trace & Hrun & _ & Hlen & Hcalls & _).
  { by vm_compute. }
  exists objects, trace. split; [exact Hrun|]. split; [|exact Hcalls].
  simpl in Hlen. lia.
Defined.

Lemma CollectTrackedResult_objects_example :
  CollectTrackedResult
    (Stub.engine [Stub.track 5%float false 1; Stub.track 5%float true 2]
       [Stub.track 5%float false 3])
    (Stub.frame "velodyne128" 5%float None)
  = Some
      (set_tracked_objects
         [Stub.published 5%float (mkVector3 1%float 0%float 0%float)
            (mkVector3 0%float 1%float 0%float) 1;
          Stub.published 5%float (mkVector3 1%float 0%float 0%float)
            (mkVector3 0%float 1%float 0%float) 3]
         (Stub.frame "velodyne128" 5%float None),
       [CallToObject (Stub.track 5%float false 1);
        CallToObject (Stub.track 5%float false 3)]).
Proof.
  rewrite CollectTrackedResult_objects_in_ledger_order; [reflexivity| |].
  - by vm_compute.
  - intros t _ _. reflexivity.
Defined.

Lemma TrackObjectMatchAndAssign_without_objects_example :
  TrackObjectMatchAndAssign mkMlfTrackObjectMatcherOptions [] "background"
    [Stub.track 4%float false 7] 0
  = Some ([Stub.track 4%float false 7], 0, [CallMatch [] [Stub.track 4%float false 7]]).
Proof.
  rewrite TrackObjectMatchAndAssign_without_objects; [reflexivity|].
  split; constructor.
Defined.

Lemma TrackStateFilter_without_objects_example :
  TrackStateFilter [Stub.track 4%float false 7; Stub.track 3%float false 8] 5%float 0
  = Some
      ([Stub.track 4%float true 7; Stub.track 3%float true 8], 0,
       [CallGetAndCleanCachedObjects (Stub.track 4%float false 7);
        CallUpdateTrackDataWithoutObject 5%float (Stub.track 4%float false 7);
        CallGetAndCleanCachedObjects (Stub.track 3%float false 8);
        CallUpdateTrackDataWithoutObject 5%float (Stub.track 3%float false 8)]).
Proof.
  rewrite TrackStateFilter_without_objects; [reflexivity|].
  intros objects track_data Hin.
  apply elem_of_cons in Hin as [->|Hin]; [reflexivity|].
  apply elem_of_cons in Hin as [->|Hin]; [reflexivity|].
  by apply elem_of_nil in Hin.
Defined.

Lemma Track_keeps_configuration_example :
  ∃ frame' this' w' trace,
    Track (Stub.engine [Stub.track 5%float false 7] []) mkMultiTargetTrackerOptions
      (Stub.frame "velodyne128" 5%float None) 0
    = Some ((true, frame', this'), w', trace)
    ∧ same_configuration this' (Stub.engine [Stub.track 5%float false 7] [])
    ∧ sensor_to_local_pose_ this'
      = pretranslate (global_to_local_offset_ this')
          (lidar2world_pose (Stub.frame "velodyne128" 5%float None)).
Proof.
  apply Track_keeps_configuration; [exact Stub_matcher_is_valid|].
  intros _. by vm_compute.
Defined.

Lemma Track_frame_fields_example :
  ∃ frame' this' w' trace,
    Track (Stub.engine [] []) mkMultiTargetTrackerOptions
      (Stub.frame "velodyne128" 5%float (Some Stub.road)) 0
    = Some ((true, frame', this'), w', trace)
    ∧ timestamp frame' = 5%float
    ∧ hdmap_struct frame' = Some Stub.road
    ∧ segmented_objects frame'
      = [Stub.detection 5%float false 1; Stub.detection 5%float true 2;
         Stub.detection 5%float false 3].
Proof.
  destruct (Track_frame_fields (Stub.engine [] []) mkMultiTargetTrackerOptions
              (Stub.frame "velodyne128" 5%float (Some Stub.road)) 0
              Stub_matcher_is_valid)
    as (frame' & this' & w' & trace & Hrun & Hts & _ & _ & Hroi & Hseg).
  { intros _. by vm_compute. }
  exists frame', this', w', trace. split; [exact Hrun|].
  split; [exact Hts|]. split; [exact Hroi|exact Hseg].
Defined.

Lemma Track_ledgers_example :
  ∃ frame' this' w' trace,
    Track (Stub.engine [Stub.track 1%float false 7] []) mkMultiTargetTrackerOptions
      (Stub.frame "velodyne128" 5%float None) 0
    = Some ((true, frame', this'), w', trace)
    ∧ Forall (λ track,
                is_alive (Stub.engine [Stub.track 1%float false 7] []) 5%float track
                = true)
        (foreground_track_data_ this' ++ background_track_data_ this')
    ∧ (length (foreground_track_data_ this') ≤ 3)%nat
    ∧ (length (background_track_data_ this') ≤ 1)%nat.
Proof.
  destruct (Track_ledgers_alive_and_bounded
              (Stub.engine [Stub.track 1%float false 7] []) mkMultiTargetTrackerOptions
              (Stub.frame "velodyne128" 5%float None) 0 Stub_matcher_is_valid)
    as (frame' & this' & w' & trace & Hrun & Halive & Hfg & Hbg).
  { intros _. by vm_compute. }
  exists frame', this', w', trace. split; [exact Hrun|].
  split; [exact Halive|]. split; [exact Hfg|exact Hbg].
Defined.

Lemma Track_nan_timestamp_example :
  ∃ frame' this' w' trace,
    Track (Stub.engine [Stub.track 1%float false 7] []) mkMultiTargetTrackerOptions
      (Stub.frame "velodyne128" nan None) 0
    = Some ((true, frame', this'), w', trace)
    ∧ foreground_track_data_ this' = []
    ∧ background_track_data_ this' = [].
Proof.
  apply Track_nan_timestamp_empties_ledgers; [exact Stub_matcher_is_valid| |].
  - intros _. by vm_compute.
  - left. reflexivity.
Defined.

Lemma Track_object_vectors_example :
  ∃ frame' this' w' trace,
    Track (Stub.engine [] []) mkMultiTargetTrackerOptions
      (Stub.frame "velodyne128" 5%float None) 0
    = Some ((true, frame', this'), w', trace)
    ∧ foreground_objects_ this'
      = map (λ d, (transform_tracked_object this' (sensor_info frame') d
                     TrackedObject_fresh).1)
          (List.filter (λ d, negb (is_background d)) (segmented_objects frame'))
    ∧ background_objects_ this'
      = map (λ d, (transform_tracked_object this' (sensor_info frame') d
                     TrackedObject_fresh).1)
          (List.filter is_background (segmented_objects frame')).
Proof.
  apply Track_object_vectors; [exact Stub_matcher_is_valid|].
  intros _. by vm_compute.
Defined.

Lemma Track_of_secondary_sensor_without_detections_example :
  ∃ this' w',
    Track (Stub.engine [Stub.track 1%float false 7; Stub.track 5%float false 8] [])
      mkMultiTargetTrackerOptions (Stub.empty_frame "velodyne16" 5%float) 0
    = Some ((true, set_tracked_objects [] (Stub.empty_frame "velodyne16" 5%float), this'),
            w',
            [CallMatch [] [Stub.track 1%float false 7; Stub.track 5%float false 8];
             CallMatch [] []])
    ∧ foreground_track_data_ this' = [Stub.track 5%float false 8]
    ∧ background_track_data_ this' = [].
Proof.
  destruct (Track_of_secondary_sensor_without_detections
              (Stub.engine [Stub.track 1%float false 7; Stub.track 5%float false 8] [])
              mkMultiTargetTrackerOptions (Stub.empty_frame "velodyne16" 5%float) 0
              Stub_matcher_is_valid)
    as (this' & w' & Hrun & Hfg & Hbg & _).
  { reflexivity. }
  { reflexivity. }
  exists this', w'. split; [exact Hrun|]. split; [exact Hfg|exact Hbg].
Defined.

Lemma Track_collects_before_removal_example :
  ∃ frame' this' w' trace,
    Track (Stub.engine [Stub.track 1%float false 7] []) mkMultiTargetTrackerOptions
      (Stub.frame "velodyne128" 5%float None) 0
    = Some ((true, frame', this'), w', trace)
    ∧ ∃ fg bg w1 w2 trace1 trace2,
        TrackStateFilter
          [Stub.track_with_cache 1%float false 7 [(5%float, 1, true)];
           Stub.track_with_cache 5%float false 0 [(5%float, 3, true)]] 5%float 2
        = Some (fg, w1, trace1)
        ∧ TrackStateFilter
            [Stub.track_with_cache 5%float false 1 [(5%float, 2, false)]] 5%float w1
          = Some (bg, w2, trace2)
        ∧ foreground_track_data_ this'
          = List.filter
              (is_alive (Stub.engine [Stub.track 1%float false 7] []) 5%float) fg
        ∧ to_object_calls trace
          = List.filter
              (λ t, negb (is_skipped (Stub.engine [Stub.track 1%float false 7] []) t))
              (fg ++ bg)
        ∧ (length (tracked_objects frame')
           + length (List.filter
                       (is_skipped (Stub.engine [Stub.track 1%float false 7] []))
                       (fg ++ bg))
           = length fg + length bg)%nat.
Proof.
  destruct (Track_collects_before_removal
              (Stub.engine [Stub.track 1%float false 7] []) mkMultiTargetTrackerOptions
              (Stub.frame "velodyne128" 5%float None) 0 Stub_matcher_is_valid)
    as (fg1 & w1 & trace1 & bg1 & w2 & trace2 & fg & wa & tracea & bg & traceb
        & objects & collected & frame' & this' & w' & trace
        & Hrun1 & Hrun2 & Hrun3 & Hrun4 & _ & Hrun & _ & Hfg & _ & Hcalls & Hsame
        & Hlen & _).
  { by vm_compute. }
  { reflexivity. }
  vm_compute in Hrun1. injection Hrun1 as <- <- <-.
  vm_compute in Hrun2. injection Hrun2 as <- <- <-.
  exists frame', this', w', trace. split; [exact Hrun|].
  exists fg, bg, wa, w', tracea, traceb.
  split; [exact Hrun3|]. split; [exact Hrun4|]. split; [exact Hfg|].
  split; [by rewrite Hsame|exact Hlen].
Defined.

Lemma Track_after_Init_example :
  ∃ frame' this' w' trace,
    Track (Stub.engine [] []) mkMultiTargetTrackerOptions
      (Stub.frame "velodyne128" 5%float None) 0
    = Some ((true, frame', this'), w', trace)
    ∧ global_to_local_offset_ this'
      = mkVector3 (-10)%float (-20)%float (-30)%float
    ∧ (length (foreground_track_data_ this') ≤ 2)%nat
    ∧ (length (background_track_data_ this') ≤ 1)%nat
    ∧ reserved_invisible_time_ this' = 1%float.
Proof.
  destruct (Track_after_Init
              (Stub.engine [Stub.track 1%float false 7] [Stub.track 2%float false 8])
              (Stub.engine [] []) Stub.config true true mkMultiTargetTrackerOptions
              (Stub.frame "velodyne128" 5%float None) 0 Stub_matcher_is_valid)
    as (frame' & this' & w' & trace & Hrun & Hoffset & Hfg & Hbg & _ & _ & _ & Hres & _).
  { by vm_compute. }
  { reflexivity. }
  exists frame', this', w', trace. split; [exact Hrun|].
  split; [exact Hoffset|]. split; [exact Hfg|]. split; [exact Hbg|exact Hres].
Defined.

Lemma Track_order_of_calls_example :
  ∃ frame' this' w' shape init_fg init_bg filter collect,
    Track (Stub.engine [Stub.track 5%float false 7] []) mkMultiTargetTrackerOptions
      (Stub.frame "velodyne128" 5%float None) 0
    = Some ((true, frame', this'), w',
            shape
            ++ CallMatch (foreground_objects_ this') [Stub.track 5%float false 7]
               :: init_fg
            ++ CallMatch (background_objects_ this') [] :: init_bg
            ++ filter ++ collect)
    ∧ Forall is_compute_shape_features_call shape
    ∧ Forall is_initialize_track_call init_fg
    ∧ Forall is_initialize_track_call init_bg
    ∧ Forall is_state_filter_call filter
    ∧ Forall is_collect_event collect.
Proof.
  destruct (Track_order_of_calls
              (Stub.engine [Stub.track 5%float false 7] []) mkMultiTargetTrackerOptions
              (Stub.frame "velodyne128" 5%float None) 0 Stub_matcher_is_valid)
    as (frame' & this' & w' & shape & init_fg & init_bg & filter & collect
        & Hrun & Hshape & Hfg & Hbg & Hfilter & Hcollect & _).
  { intros _. by vm_compute. }
  exists frame', this', w', shape, init_fg, init_bg, filter, collect.
  split; [exact Hrun|]. by repeat split.
Defined.

End Examples.

(** The engine with a matcher that names a track that is not in the
    ledger. *)
Section CarelessMatcher.
#[local] Existing Instances
  Stub.payloads Stub.data_methods Stub.careless_matcher Stub.tracker Stub.services.

Lemma TrackObjectMatchAndAssign_track_index_example :
  for_each_option (push_assigned_object [Stub.tracked 10 5%float 1 true])
    [(1%nat, 0%nat)] [Stub.track 4%float false 7]
  = None
  ∧ TrackObjectMatchAndAssign mkMlfTrackObjectMatcherOptions
      [Stub.tracked 10 5%float 1 true] "foreground" [Stub.track 4%float false 7] 0
    = None.
Proof.
  refine (TrackObjectMatchAndAssign_track_index_out_of_range
            mkMlfTrackObjectMatcherOptions [Stub.tracked 10 5%float 1 true]
            "foreground" [Stub.track 4%float false 7] 0 (1%nat, 0%nat) _ _).
  - simpl. constructor.
  - simpl. lia.
Defined.

Lemma Track_matcher_index_example :
  Track (Stub.engine [] []) mkMultiTargetTrackerOptions
    (Stub.frame "velodyne128" 5%float None) 0
  = None.
Proof.
  apply (Track_matcher_index_out_of_range _ _ _ _ (0%nat, 0%nat)).
  - simpl. constructor.
  - simpl. lia.
Defined.

End CarelessMatcher.
